(** * Resume auto-fit pipeline: a shallow embedding of the JavaScript sources

    The development follows the source files:
    - [Js]         : the few JavaScript primitives the code relies on
                     (numbers with their non-finite values, [Math.round],
                     exceptions and [try]/[catch]/[finally]);
    - [Renderer]   : [js/resume_renderer.js], the render context: handshake
                     broadcast, message handler, [handlePagedRender] and the
                     bidirectional auto-fit [simpleViewer.fitToOnePage];
    - [Controller] : [js/controller.js], class [ResumeController] (host side of
                     the handshake and the outgoing message buffer);
    - [Store]      : [js/controller.js], class [ResumeStateManager];
    - [Queue]      : the Paged.js middleware and [RenderTaskProcessor].

    Numbers are exact rationals: [Q] stands for the finite IEEE doubles of the
    source, and the non-finite results of a division are kept apart in
    [Js.JsNumber].  The event loop is explicit: an [async] function is cut at
    its [await], the part before it and the part after it being two
    functions of the state. *)

From Stdlib Require Import QArith Qround Qminmax Lqa Lia ZArith String List Bool.
From stdpp Require Import gmap strings list pretty.

Local Open Scope string_scope.
#[local] Set Warnings "-register-all".

(* ===================================================================== *)
(** * JavaScript primitives *)
(* ===================================================================== *)

Module Js.

(** The value of a numeric expression that may leave the finite range. *)
Inductive JsNumber : Type :=
| Finite (q : Q)
| PosInfinity
| NegInfinity
| NotANumber.

Definition Qltb (x y : Q) : bool := negb (Qle_bool y x).

(** [x / y] for finite operands, the divisor being a non-negative zero
    when it is zero (an element height). *)
Definition jsDiv (x y : Q) : JsNumber :=
  if Qeq_bool y 0 then
    if Qltb 0 x then PosInfinity
    else if Qltb x 0 then NegInfinity
    else NotANumber
  else Finite (x / y).

(** [a < b], false as soon as [a] is [NaN]. *)
Definition jsLt (a : JsNumber) (b : Q) : bool :=
  match a with
  | Finite q => Qltb q b
  | NegInfinity => true
  | PosInfinity | NotANumber => false
  end.

(** [Math.round(x)]: the nearest integer, halves going up. *)
Definition mathRound (x : Q) : Z := Qfloor (x + (1 # 2)).

(** [Math.round(x * 100) / 100]. *)
Definition round2 (x : Q) : Q := inject_Z (mathRound (x * 100)) / 100.

(** [parseFloat(x.toFixed(2))]: two decimals, halves away from zero. *)
Definition toFixed2 (a : JsNumber) : JsNumber :=
  match a with
  | Finite q =>
      if Qltb q 0 then Finite (- (inject_Z (mathRound (- q * 100)) / 100))
      else Finite (inject_Z (mathRound (q * 100)) / 100)
  | other => other
  end.

(** How a statement, or a call, completes. *)
Inductive Completion (A : Type) : Type :=
| Returned (a : A)
| Thrown (e : string).
Arguments Returned {A} a.
Arguments Thrown {A} e.

(** A computation over a mutable world [W] that may throw. *)
Definition Exc (W A : Type) : Type := W -> W * Completion A.

Definition ret {W A} (a : A) : Exc W A := fun w => (w, Returned a).
Definition throw {W A} (e : string) : Exc W A := fun w => (w, Thrown e).
Definition bind {W A B} (c : Exc W A) (k : A -> Exc W B) : Exc W B :=
  fun w =>
    match c w with
    | (w1, Returned a) => k a w1
    | (w1, Thrown e) => (w1, Thrown e)
    end.
Definition effect {W} (f : W -> W) : Exc W unit := fun w => (f w, Returned tt).

(** [try { body } catch (e) { handler e } finally { fin }]. *)
Definition tryCatchFinally {W} (body : Exc W unit) (handler : string -> Exc W unit)
    (fin : Exc W unit) : Exc W unit :=
  fun w =>
    let '(w1, c1) :=
      match body w with
      | (w1, Returned tt) => (w1, Returned tt)
      | (w1, Thrown e) => handler e w1
      end in
    match fin w1 with
    | (w2, Returned tt) => (w2, c1)
    | (w2, Thrown e) => (w2, Thrown e)
    end.

End Js.

(* ===================================================================== *)
(** * The render context: js/resume_renderer.js *)
(* ===================================================================== *)

Module Renderer.
Import Js.

(** ** Style values *)

(** The text of a CSS custom property: a number followed by a unit, or any
    other text. *)
Inductive CssValue : Type :=
| CssNum (q : Q) (unit : string)
| CssText (s : string).

(** [parseFloat]: [None] is [NaN]. *)
Definition parseFloat (v : option CssValue) : option Q :=
  match v with
  | Some (CssNum q _) => Some q
  | _ => None
  end.

(** A style object, from custom-property name to value. *)
Abbreviation Styles := (gmap string CssValue).

(** [Object.assign(target, source)] and [{...target, ...source}]. *)
Definition assign (target source : Styles) : Styles := source ∪ target.

(** ** The document *)

(** Geometry of the first [.pagedjs_page_content] element. *)
Record ContentBox : Type := {
  scrollHeight : Q;
  contentTop : Q;                      (* getBoundingClientRect().top *)
  lastDescendantBottom : option Q      (* bottom of the last descendant, if any *)
}.

(** What Paged.js leaves in the document after [preview()]. *)
Record Layout : Type := {
  pages : nat;                         (* number of .pagedjs_page elements *)
  pageContent : option ContentBox;     (* querySelector('.pagedjs_page_content') *)
  pageBoxClientHeight : option Q       (* querySelector('.pagedjs_pagebox').clientHeight *)
}.

(** [document.body.innerHTML]. *)
Record BodyHtml : Type := {
  contentDiv : option string;          (* innerHTML of #content when the div exists *)
  otherMarkup : string;
  paged : option Layout
}.

(** [document.head.innerHTML]: the authored head and the injected
    [#forced-page-a4] rule with its margin. *)
Record HeadHtml : Type := {
  headMarkup : string;
  forcedPageA4 : option CssValue
}.

Definition emptyBody : BodyHtml :=
  {| contentDiv := None; otherMarkup := ""; paged := None |}.
Definition emptyHead : HeadHtml := {| headMarkup := ""; forcedPageA4 := None |}.

(** Truthiness of the two snapshots (a non-empty string). *)
Definition bodyTruthy (b : BodyHtml) : bool :=
  match contentDiv b, paged b with
  | None, None => negb (String.eqb (otherMarkup b) "")
  | _, _ => true
  end.
Definition headTruthy (h : HeadHtml) : bool :=
  match forcedPageA4 h with
  | None => negb (String.eqb (headMarkup h) "")
  | Some _ => true
  end.

(** ** Messages *)

(** Messages posted to [window.parent]. *)
Inductive ParentMsg : Type := READY | Rendering | Rendered | RENDER_COMPLETE.

(** Messages received from the host, by the branch of the handler that
    takes them. *)
Inductive HostMsg : Type :=
| ACK
| UpdateContent (markdown : string)            (* updateContent, SET_CONTENT *)
| UpdateStyles (payload : option Styles)       (* UPDATE_CSS_VAR, updateStyles *)
| UpdateCSS (variable : option string) (value : CssValue)   (* updateCSS *)
| UpdatePageMargin (marginValue : option CssValue)          (* updatePageMargin *)
| TriggerPaged (payload : option Styles)       (* TRIGGER_PAGED, renderPaged *)
| Print
| OtherMsg (type : string).

(** ** The auto-fit result *)

Inductive Direction : Type := DirNone | DirShrink | DirExpand.

Record FitResult : Type := {
  attempted : bool;
  direction : Direction;
  success : bool;
  iterations : nat;
  pageCount : nat;
  fillRatio : JsNumber
}.

(** ** The render context as a whole *)

#[projections(primitive)] Record World : Type := {
  (* let state = { ... } *)
  originalBody : BodyHtml;
  originalHead : HeadHtml;
  isRendering : bool;
  pendingRenderRequest : option Styles;
  handshakeInterval : option nat;  (* handle of the READY timer *)
  isHandshakeComplete : bool;
  currentStyles : Styles;
  contentLoaded : bool;
  (* document *)
  body : BodyHtml;
  bodyClasses : list string;
  head : HeadHtml;
  rootStyle : Styles;  (* custom properties of documentElement *)
  (* window *)
  toParent : list ParentMsg;  (* window.parent.postMessage, oldest first *)
  consoleErrors : list string;  (* console.error, oldest first *)
  activeIntervals : list nat;  (* timers set by setInterval and not cleared *)
  timersCreated : nat;  (* how many timer handles were handed out *)
  printCalls : nat;
  isAutoFitting : bool;
  autoFitResult : option FitResult
}.

Definition set_originalBody v (w : World) : World :=
  Build_World v (originalHead w) (isRendering w) (pendingRenderRequest w)
    (handshakeInterval w) (isHandshakeComplete w) (currentStyles w) (contentLoaded
    w) (body w) (bodyClasses w) (head w) (rootStyle w) (toParent w) (consoleErrors
    w) (activeIntervals w) (timersCreated w) (printCalls w) (isAutoFitting w)
    (autoFitResult w).
Definition set_originalHead v (w : World) : World :=
  Build_World (originalBody w) v (isRendering w) (pendingRenderRequest w)
    (handshakeInterval w) (isHandshakeComplete w) (currentStyles w) (contentLoaded
    w) (body w) (bodyClasses w) (head w) (rootStyle w) (toParent w) (consoleErrors
    w) (activeIntervals w) (timersCreated w) (printCalls w) (isAutoFitting w)
    (autoFitResult w).
Definition set_isRendering v (w : World) : World :=
  Build_World (originalBody w) (originalHead w) v (pendingRenderRequest w)
    (handshakeInterval w) (isHandshakeComplete w) (currentStyles w) (contentLoaded
    w) (body w) (bodyClasses w) (head w) (rootStyle w) (toParent w) (consoleErrors
    w) (activeIntervals w) (timersCreated w) (printCalls w) (isAutoFitting w)
    (autoFitResult w).
Definition set_pendingRenderRequest v (w : World) : World :=
  Build_World (originalBody w) (originalHead w) (isRendering w) v
    (handshakeInterval w) (isHandshakeComplete w) (currentStyles w) (contentLoaded
    w) (body w) (bodyClasses w) (head w) (rootStyle w) (toParent w) (consoleErrors
    w) (activeIntervals w) (timersCreated w) (printCalls w) (isAutoFitting w)
    (autoFitResult w).
Definition set_handshakeInterval v (w : World) : World :=
  Build_World (originalBody w) (originalHead w) (isRendering w)
    (pendingRenderRequest w) v (isHandshakeComplete w) (currentStyles w)
    (contentLoaded w) (body w) (bodyClasses w) (head w) (rootStyle w) (toParent w)
    (consoleErrors w) (activeIntervals w) (timersCreated w) (printCalls w)
    (isAutoFitting w) (autoFitResult w).
Definition set_isHandshakeComplete v (w : World) : World :=
  Build_World (originalBody w) (originalHead w) (isRendering w)
    (pendingRenderRequest w) (handshakeInterval w) v (currentStyles w)
    (contentLoaded w) (body w) (bodyClasses w) (head w) (rootStyle w) (toParent w)
    (consoleErrors w) (activeIntervals w) (timersCreated w) (printCalls w)
    (isAutoFitting w) (autoFitResult w).
Definition set_currentStyles v (w : World) : World :=
  Build_World (originalBody w) (originalHead w) (isRendering w)
    (pendingRenderRequest w) (handshakeInterval w) (isHandshakeComplete w) v
    (contentLoaded w) (body w) (bodyClasses w) (head w) (rootStyle w) (toParent w)
    (consoleErrors w) (activeIntervals w) (timersCreated w) (printCalls w)
    (isAutoFitting w) (autoFitResult w).
Definition set_contentLoaded v (w : World) : World :=
  Build_World (originalBody w) (originalHead w) (isRendering w)
    (pendingRenderRequest w) (handshakeInterval w) (isHandshakeComplete w)
    (currentStyles w) v (body w) (bodyClasses w) (head w) (rootStyle w) (toParent
    w) (consoleErrors w) (activeIntervals w) (timersCreated w) (printCalls w)
    (isAutoFitting w) (autoFitResult w).
Definition set_body v (w : World) : World :=
  Build_World (originalBody w) (originalHead w) (isRendering w)
    (pendingRenderRequest w) (handshakeInterval w) (isHandshakeComplete w)
    (currentStyles w) (contentLoaded w) v (bodyClasses w) (head w) (rootStyle w)
    (toParent w) (consoleErrors w) (activeIntervals w) (timersCreated w)
    (printCalls w) (isAutoFitting w) (autoFitResult w).
Definition set_bodyClasses v (w : World) : World :=
  Build_World (originalBody w) (originalHead w) (isRendering w)
    (pendingRenderRequest w) (handshakeInterval w) (isHandshakeComplete w)
    (currentStyles w) (contentLoaded w) (body w) v (head w) (rootStyle w)
    (toParent w) (consoleErrors w) (activeIntervals w) (timersCreated w)
    (printCalls w) (isAutoFitting w) (autoFitResult w).
Definition set_head v (w : World) : World :=
  Build_World (originalBody w) (originalHead w) (isRendering w)
    (pendingRenderRequest w) (handshakeInterval w) (isHandshakeComplete w)
    (currentStyles w) (contentLoaded w) (body w) (bodyClasses w) v (rootStyle w)
    (toParent w) (consoleErrors w) (activeIntervals w) (timersCreated w)
    (printCalls w) (isAutoFitting w) (autoFitResult w).
Definition set_rootStyle v (w : World) : World :=
  Build_World (originalBody w) (originalHead w) (isRendering w)
    (pendingRenderRequest w) (handshakeInterval w) (isHandshakeComplete w)
    (currentStyles w) (contentLoaded w) (body w) (bodyClasses w) (head w) v
    (toParent w) (consoleErrors w) (activeIntervals w) (timersCreated w)
    (printCalls w) (isAutoFitting w) (autoFitResult w).
Definition set_toParent v (w : World) : World :=
  Build_World (originalBody w) (originalHead w) (isRendering w)
    (pendingRenderRequest w) (handshakeInterval w) (isHandshakeComplete w)
    (currentStyles w) (contentLoaded w) (body w) (bodyClasses w) (head w)
    (rootStyle w) v (consoleErrors w) (activeIntervals w) (timersCreated w)
    (printCalls w) (isAutoFitting w) (autoFitResult w).
Definition set_consoleErrors v (w : World) : World :=
  Build_World (originalBody w) (originalHead w) (isRendering w)
    (pendingRenderRequest w) (handshakeInterval w) (isHandshakeComplete w)
    (currentStyles w) (contentLoaded w) (body w) (bodyClasses w) (head w)
    (rootStyle w) (toParent w) v (activeIntervals w) (timersCreated w) (printCalls
    w) (isAutoFitting w) (autoFitResult w).
Definition set_activeIntervals v (w : World) : World :=
  Build_World (originalBody w) (originalHead w) (isRendering w)
    (pendingRenderRequest w) (handshakeInterval w) (isHandshakeComplete w)
    (currentStyles w) (contentLoaded w) (body w) (bodyClasses w) (head w)
    (rootStyle w) (toParent w) (consoleErrors w) v (timersCreated w) (printCalls
    w) (isAutoFitting w) (autoFitResult w).
Definition set_timersCreated v (w : World) : World :=
  Build_World (originalBody w) (originalHead w) (isRendering w)
    (pendingRenderRequest w) (handshakeInterval w) (isHandshakeComplete w)
    (currentStyles w) (contentLoaded w) (body w) (bodyClasses w) (head w)
    (rootStyle w) (toParent w) (consoleErrors w) (activeIntervals w) v (printCalls
    w) (isAutoFitting w) (autoFitResult w).
Definition set_printCalls v (w : World) : World :=
  Build_World (originalBody w) (originalHead w) (isRendering w)
    (pendingRenderRequest w) (handshakeInterval w) (isHandshakeComplete w)
    (currentStyles w) (contentLoaded w) (body w) (bodyClasses w) (head w)
    (rootStyle w) (toParent w) (consoleErrors w) (activeIntervals w)
    (timersCreated w) v (isAutoFitting w) (autoFitResult w).
Definition set_isAutoFitting v (w : World) : World :=
  Build_World (originalBody w) (originalHead w) (isRendering w)
    (pendingRenderRequest w) (handshakeInterval w) (isHandshakeComplete w)
    (currentStyles w) (contentLoaded w) (body w) (bodyClasses w) (head w)
    (rootStyle w) (toParent w) (consoleErrors w) (activeIntervals w)
    (timersCreated w) (printCalls w) v (autoFitResult w).
Definition set_autoFitResult v (w : World) : World :=
  Build_World (originalBody w) (originalHead w) (isRendering w)
    (pendingRenderRequest w) (handshakeInterval w) (isHandshakeComplete w)
    (currentStyles w) (contentLoaded w) (body w) (bodyClasses w) (head w)
    (rootStyle w) (toParent w) (consoleErrors w) (activeIntervals w)
    (timersCreated w) (printCalls w) (isAutoFitting w) v.

Definition postToParent (m : ParentMsg) (w : World) : World :=
  set_toParent (toParent w ++ [m]) w.
Definition consoleError (s : string) (w : World) : World :=
  set_consoleErrors (consoleErrors w ++ [s]) w.
(** [document.body.classList.add(c)]. *)
Definition addBodyClass (c : string) (w : World) : World :=
  set_bodyClasses
    (if existsb (String.eqb c) (bodyClasses w) then bodyClasses w
     else bodyClasses w ++ [c]) w.

(** ** What the render context is given *)

Inductive PreviewOutcome : Type :=
| PreviewDone (l : Layout)
| PreviewThrows (e : string).

(** One entry of [ResumeConfig.sliderConfig]; a bound or a step is [None]
    when it is not a number. *)
Record SliderCfg : Type := {
  sliderId : string;
  sliderMin : option Q;
  sliderMax : option Q;
  sliderStep : option Q
}.

(** [ResumeConfig.defaultStyles]. *)
Record DefaultStyles : Type := {
  dFontSize : Q; dHeadingScale : Q; dLineHeight : Q; dMargin : Q;
  dTitleHrMargin : Q; dBodyMargin : Q; dUlMargin : Q; dStrongParagraphMargin : Q
}.

Record Env : Type := {
  (** [getPaged()] found [window.Paged] or [window.PagedPolyfill] *)
  pagedAvailable : bool;
  (** the pagination oracle: how [previewer.preview()] settles on a document *)
  preview : BodyHtml -> HeadHtml -> Styles -> PreviewOutcome;
  (** [window.markdownit({html: true}).render], when the library is loaded *)
  markdownit : option (string -> string);
  (** [window.ResumeConfig.sliderConfig] ([[]] when absent) *)
  sliderConfig : list SliderCfg;
  (** [window.ResumeConfig.defaultStyles] *)
  defaultStyles : option DefaultStyles
}.

(** ** Styles held by the page *)

(** [handleStyleUpdate(styles)]: every entry goes to the cache and to the
    root element. *)
Definition handleStyleUpdate (styles : Styles) (w : World) : World :=
  set_rootStyle (assign (rootStyle w) styles)
    (set_currentStyles (assign (currentStyles w) styles) w).

(** [applyDefaultStyles()]. *)
Definition applyDefaultStyles (env : Env) (w : World) : World :=
  match defaultStyles env with
  | None => w
  | Some d =>
      let styles : Styles :=
        <["--body-font-size" := CssNum (dFontSize d) "pt"]>
        (<["--heading-scale" := CssNum (dHeadingScale d) ""]>
        (<["--line-height" := CssNum (dLineHeight d) ""]>
        (<["--page-margin" := CssNum (dMargin d) "mm"]>
        (<["--title-hr-margin" := CssNum (dTitleHrMargin d) "em"]>
        (<["--body-margin" := CssNum (dBodyMargin d) "em"]>
        (<["--ul-margin" := CssNum (dUlMargin d) "em"]>
        (<["--strong-paragraph-margin" := CssNum (dStrongParagraphMargin d) "em"]>
         ∅))))))) in
      handleStyleUpdate styles w
  end.

(** [getComputedStyle(document.documentElement).getPropertyValue(v)]. *)
Definition computedStyle (cssVar : string) (w : World) : option CssValue :=
  rootStyle w !! cssVar.

(** [ensureA4PageRule()]: the rule is (re)written with the computed page
    margin, ['7mm'] when the property is empty. *)
Definition ensureA4PageRule (w : World) : World :=
  let computedMargin :=
    match computedStyle "--page-margin" w with
    | None | Some (CssText "") => CssNum 7 "mm"
    | Some v => v
    end in
  set_head {| headMarkup := headMarkup (head w);
              forcedPageA4 := Some computedMargin |} w.

(** ** Handshake *)

(** [startHandshake()]: [setInterval] hands out a fresh, non-zero handle. *)
Definition startHandshake (w : World) : World :=
  let handle := S (timersCreated w) in
  set_handshakeInterval (Some handle)
    (set_activeIntervals (activeIntervals w ++ [handle])
      (set_timersCreated handle w)).

(** The callback of the interval: one [READY] to the parent. *)
Definition handshakeCallback (w : World) : World := postToParent READY w.

(** The timer with handle [h] comes due: its callback runs if the timer
    has not been cleared. *)
Definition intervalElapsed (h : nat) (w : World) : World :=
  if existsb (Nat.eqb h) (activeIntervals w) then handshakeCallback w else w.

(** [clearInterval(h)]. *)
Definition clearInterval (h : nat) (w : World) : World :=
  set_activeIntervals (List.filter (fun h' => negb (Nat.eqb h h')) (activeIntervals w)) w.

(** ** The render pass *)

(** How a call of [handlePagedRender] leaves its caller. *)
Inductive PassStatus : Type :=
| Queued                            (* locked: the request went to the pending slot *)
| Suspended                         (* waiting on [await previewer.preview()] *)
| Settled (c : Completion unit).    (* ran to its end *)

(** The [try] block from the line after the [await] on. *)
Definition afterPreview : Exc World unit :=
  fun w =>
    let w := addBodyClass "render-complete" w in
    let w := postToParent Rendered w in
    let w := postToParent RENDER_COMPLETE w in
    (w, Returned tt).

(** [await previewer.preview()] settling, then the rest of the [try]. *)
Definition previewThen (outcome : PreviewOutcome) : Exc World unit :=
  fun w =>
    match outcome with
    | PreviewThrows e => (w, Thrown e)
    | PreviewDone l =>
        let b := body w in
        afterPreview
          (set_body {| contentDiv := contentDiv b; otherMarkup := otherMarkup b;
                       paged := Some l |} w)
    end.

(** The [catch (e)] block. *)
Definition catchBlock (e : string) : Exc World unit :=
  fun w =>
    let w := consoleError ("[Renderer] Rendering failed " +:+ e) w in
    let w := set_body (originalBody w) w in
    let w := set_head (originalHead w) w in
    (w, Returned tt).

(** The [finally] block; [retry] is [handlePagedRender], called without
    [await]. *)
Definition finallyBlock (retry : World -> Styles -> World) : Exc World unit :=
  fun w =>
    let w := set_isRendering false w in
    match pendingRenderRequest w with
    | Some nextStyles =>
        (retry (set_pendingRenderRequest None w) nextStyles, Returned tt)
    | None => (w, Returned tt)
    end.

(** The body of [handlePagedRender(extraStyles)], its recursive call being
    [retry]. *)
Definition handlePagedRender_with (retry : World -> Styles -> World)
    (env : Env) (w : World) (extraStyles : Styles) : World * PassStatus :=
  let w := set_currentStyles (assign (currentStyles w) extraStyles) w in
  if isRendering w then
    (set_pendingRenderRequest (Some (currentStyles w)) w, Queued)
  else
    let w := set_isRendering true w in
    let w := postToParent Rendering w in
    (* try: restore the clean document, re-apply the styles *)
    let w := set_body (if bodyTruthy (originalBody w) then originalBody w else body w) w in
    let w := set_head (if headTruthy (originalHead w) then originalHead w else head w) w in
    let w := handleStyleUpdate (currentStyles w) w in
    let w := ensureA4PageRule w in
    if pagedAvailable env then (w, Suspended)
    else
      let '(w, c) :=
        tryCatchFinally
          (fun w => afterPreview (consoleError "[Renderer] Paged.js not found" w))
          catchBlock (finallyBlock retry) w in
      (w, Settled c).

(** The world a pass works on between taking the lock and the [await]. *)
Definition passStarted (w : World) (extraStyles : Styles) : World :=
  let w := set_currentStyles (assign (currentStyles w) extraStyles) w in
  let w := set_isRendering true w in
  let w := postToParent Rendering w in
  let w := set_body (if bodyTruthy (originalBody w) then originalBody w else body w) w in
  let w := set_head (if headTruthy (originalHead w) then originalHead w else head w) w in
  let w := handleStyleUpdate (currentStyles w) w in
  ensureA4PageRule w.

(** [handlePagedRender]: a call made from [finally] finds the lock free and
    the pending slot empty, so that two levels tie the knot (see
    [handlePagedRender_unfold]). *)
Definition handlePagedRender (env : Env) (w : World) (extraStyles : Styles)
    : World * PassStatus :=
  handlePagedRender_with
    (fun w s => fst (handlePagedRender_with (fun w _ => w) env w s))
    env w extraStyles.

(** The pass suspended in [w] resumes with the outcome of [preview()]. *)
Definition previewSettled (env : Env) (outcome : PreviewOutcome) (w : World)
    : World * Completion unit :=
  tryCatchFinally (previewThen outcome) catchBlock
    (finallyBlock (fun w s => fst (handlePagedRender env w s))) w.

(** ** The message handler *)

(** [handleContentUpdate(markdown)]; nothing follows its [await]. *)
Definition handleContentUpdate (env : Env) (markdown : string) (w : World) : World :=
  match markdownit env with
  | None =>
      let w := consoleError "[Renderer] Markdown-it not loaded!" w in
      set_body {| contentDiv := None;
                  otherMarkup := "<h1>Error: Markdown library not found</h1>";
                  paged := None |} w
  | Some render =>
      let html := render markdown in
      match contentDiv (body w) with
      | Some _ =>
          let b := body w in
          let w := set_body {| contentDiv := Some html; otherMarkup := otherMarkup b;
                               paged := paged b |} w in
          let w := set_originalBody (body w) w in
          let w := set_contentLoaded true w in
          fst (handlePagedRender env w ∅)
      | None => consoleError "[Renderer] No #content div found" w
      end
  end.

(** [window.addEventListener('message', ...)]. *)
Definition onMessage (env : Env) (m : HostMsg) (w : World) : World :=
  match m with
  | ACK =>
      let w :=
        match handshakeInterval w with
        | Some h => set_handshakeInterval None (clearInterval h w)
        | None => w
        end in
      set_isHandshakeComplete true w
  | UpdateContent markdown => handleContentUpdate env markdown w
  | UpdateStyles payload => handleStyleUpdate (default ∅ payload) w
  | UpdateCSS variable value =>
      match variable with
      | None | Some "" => handleStyleUpdate ∅ w
      | Some v => handleStyleUpdate {[ v := value ]} w
      end
  | UpdatePageMargin marginValue =>
      match marginValue with
      | None | Some (CssText "") => w
      | Some v => handleStyleUpdate {[ "--page-margin" := v ]} w
      end
  | TriggerPaged payload => fst (handlePagedRender env w (default ∅ payload))
  | Print => set_printCalls (S (printCalls w)) w
  | OtherMsg _ => w
  end.

(** [window.addEventListener('load', ...)]. *)
Definition onLoad (env : Env) (w : World) : World :=
  let w := set_originalBody (body w) w in
  let w := set_originalHead (head w) w in
  let w := applyDefaultStyles env w in
  startHandshake w.

(** ** Bidirectional auto-fit: window.simpleViewer *)

Record FillInfo : Type := { isSparse : bool; ratio : JsNumber }.

(** The local [fillRatio] of [checkContentFill], when both elements are
    found. *)
Definition measuredFillRatio (w : World) : option JsNumber :=
  match paged (body w) with
  | None => None
  | Some l =>
      match pageContent l, pageBoxClientHeight l with
      | Some pc, Some availableHeight =>
          let actualContentHeight :=
            match lastDescendantBottom pc with
            | Some lastBottom => (lastBottom - contentTop pc)%Q
            | None => scrollHeight pc
            end in
          Some (jsDiv actualContentHeight availableHeight)
      | _, _ => None
      end
  end.

(** [checkContentFill()]. *)
Definition checkContentFill (w : World) : FillInfo :=
  match measuredFillRatio w with
  | None => {| isSparse := false; ratio := Finite 1 |}
  | Some fillRatio =>
      {| isSparse := jsLt fillRatio (85 # 100); ratio := toFixed2 fillRatio |}
  end.

(** One entry of the strategy tables; [bound] is the [min] of a shrink
    strategy and the [max] of an expand strategy. *)
Record Strategy : Type := {
  sName : string;
  cssVar : string;
  sId : string;
  step : Q;
  sUnit : string;
  bound : Q
}.

Definition getSlider (env : Env) (id : string) : option SliderCfg :=
  List.find (fun s => String.eqb (sliderId s) id) (sliderConfig env).

Definition getStep (env : Env) (id : string) (fallback : Q) : Q :=
  match getSlider env id with
  | Some s => default fallback (sliderStep s)
  | None => fallback
  end.

Definition getLimit (env : Env) (id : string) (isMax : bool) (fallback : Q) : Q :=
  match getSlider env id with
  | Some s => default fallback (if isMax then sliderMax s else sliderMin s)
  | None => fallback
  end.

(** Shrink strategies (low-impact first: margin, spacing, font). *)
Definition shrinkStrategies (env : Env) : list Strategy :=
  [ {| sName := "pageMargin"; cssVar := "--page-margin"; sId := "marginSlider";
       step := getStep env "marginSlider" 1; sUnit := "mm";
       bound := getLimit env "marginSlider" false 7 |};
    {| sName := "bodyMargin"; cssVar := "--body-margin"; sId := "bodyMarginSlider";
       step := getStep env "bodyMarginSlider" (1 # 10); sUnit := "em";
       bound := getLimit env "bodyMarginSlider" false 0 |};
    {| sName := "ulMargin"; cssVar := "--ul-margin"; sId := "ulMarginSlider";
       step := getStep env "ulMarginSlider" (1 # 10); sUnit := "em";
       bound := getLimit env "ulMarginSlider" false 0 |};
    {| sName := "headingScale"; cssVar := "--heading-scale"; sId := "headingSlider";
       step := getStep env "headingSlider" (1 # 10); sUnit := "";
       bound := getLimit env "headingSlider" false 1 |};
    {| sName := "lineHeight"; cssVar := "--line-height"; sId := "lineHeightSlider";
       step := getStep env "lineHeightSlider" (5 # 100); sUnit := "";
       bound := getLimit env "lineHeightSlider" false 1 |};
    {| sName := "fontSize"; cssVar := "--body-font-size"; sId := "fontSlider";
       step := getStep env "fontSlider" (1 # 2); sUnit := "pt";
       bound := getLimit env "fontSlider" false 9 |} ].

(** Expand strategies (readability first: font, spacing, margin). *)
Definition expandStrategies (env : Env) : list Strategy :=
  [ {| sName := "fontSize"; cssVar := "--body-font-size"; sId := "fontSlider";
       step := getStep env "fontSlider" (1 # 2); sUnit := "pt";
       bound := getLimit env "fontSlider" true 12 |};
    {| sName := "lineHeight"; cssVar := "--line-height"; sId := "lineHeightSlider";
       step := getStep env "lineHeightSlider" (5 # 100); sUnit := "";
       bound := getLimit env "lineHeightSlider" true (16 # 10) |};
    {| sName := "headingScale"; cssVar := "--heading-scale"; sId := "headingSlider";
       step := getStep env "headingSlider" (1 # 10); sUnit := "";
       bound := getLimit env "headingSlider" true (17 # 10) |};
    {| sName := "bodyMargin"; cssVar := "--body-margin"; sId := "bodyMarginSlider";
       step := getStep env "bodyMarginSlider" (1 # 10); sUnit := "em";
       bound := getLimit env "bodyMarginSlider" true (1 # 2) |};
    {| sName := "ulMargin"; cssVar := "--ul-margin"; sId := "ulMarginSlider";
       step := getStep env "ulMarginSlider" (1 # 10); sUnit := "em";
       bound := getLimit env "ulMarginSlider" true (1 # 2) |};
    {| sName := "pageMargin"; cssVar := "--page-margin"; sId := "marginSlider";
       step := getStep env "marginSlider" 1; sUnit := "mm";
       bound := getLimit env "marginSlider" true 15 |} ].

Definition maxIterations : nat := 25.

(** [getPageCount()]. *)
Definition getPageCount (w : World) : nat :=
  match paged (body w) with
  | Some l => pages l
  | None => 0
  end.

(** The test and the update of one shrink strategy. *)
Definition shrinkable (strat : Strategy) (w : World) : option Q :=
  match parseFloat (computedStyle (cssVar strat) w) with
  | None => None                                            (* isNaN(val): continue *)
  | Some val => if Qltb (bound strat + (1 # 1000)) val then Some val else None
  end.

Definition shrunk (strat : Strategy) (val : Q) : Q :=
  round2 (Qmax (bound strat) (val - step strat)).

(** [applyShrinkStep()] over the strategies left to try; [None] is the
    source's [false], the page being left as it was. *)
Fixpoint applyShrinkStepFrom (strats : list Strategy) (w : World) : option World :=
  match strats with
  | [] => None
  | strat :: rest =>
      match shrinkable strat w with
      | Some val =>
          Some (handleStyleUpdate
                  {[ cssVar strat := CssNum (shrunk strat val) (sUnit strat) ]} w)
      | None => applyShrinkStepFrom rest w
      end
  end.

Definition applyShrinkStep (env : Env) (w : World) : option World :=
  applyShrinkStepFrom (shrinkStrategies env) w.

(** The test and the update of one expand strategy. *)
Definition expandable (strat : Strategy) (w : World) : option Q :=
  match parseFloat (computedStyle (cssVar strat) w) with
  | None => None
  | Some val => if Qltb val (bound strat - (1 # 1000)) then Some val else None
  end.

Definition expanded (strat : Strategy) (val : Q) : Q :=
  round2 (Qmin (bound strat) (val + step strat)).

(** [applyExpandStep()]: [{ strat, prevVal }], or [None] for [null]. *)
Fixpoint applyExpandStepFrom (strats : list Strategy) (w : World)
    : option (World * (Strategy * Q)) :=
  match strats with
  | [] => None
  | strat :: rest =>
      match expandable strat w with
      | Some val =>
          Some (handleStyleUpdate
                  {[ cssVar strat := CssNum (expanded strat val) (sUnit strat) ]} w,
                (strat, val))
      | None => applyExpandStepFrom rest w
      end
  end.

Definition applyExpandStep (env : Env) (w : World) : option (World * (Strategy * Q)) :=
  applyExpandStepFrom (expandStrategies env) w.

(** [renderAndCount()]: [await handlePagedRender(state.currentStyles)], the
    oracle settling the pass when one was started, then [getPageCount()].
    No other event is handled in between. *)
Definition renderAndCount (env : Env) (w : World) : World * nat :=
  match handlePagedRender env w (currentStyles w) with
  | (w1, Suspended) =>
      let w2 :=
        fst (previewSettled env (preview env (body w1) (head w1) (rootStyle w1)) w1) in
      (w2, getPageCount w2)
  | (w1, _) => (w1, getPageCount w1)
  end.

(** The shrink loop; [fuel] bounds the unfolding and is never what stops
    it (see [shrinkLoop_fuel]). *)
Fixpoint shrinkLoop (env : Env) (fuel : nat) (w : World) (pageCount iteration : nat)
    : World * nat * nat :=
  match fuel with
  | O => (w, pageCount, iteration)
  | S fuel' =>
      if (1 <? pageCount)%nat && (iteration <? maxIterations)%nat then
        match applyShrinkStep env w with
        | None => (w, pageCount, iteration)                  (* break *)
        | Some w1 =>
            let '(w2, pageCount') := renderAndCount env w1 in
            shrinkLoop env fuel' w2 pageCount' (S iteration)
        end
      else (w, pageCount, iteration)
  end.

(** The expand loop. *)
Fixpoint expandLoop (env : Env) (fuel : nat) (w : World) (pageCount iteration : nat)
    : World * nat * nat :=
  match fuel with
  | O => (w, pageCount, iteration)
  | S fuel' =>
      if (pageCount =? 1)%nat && (iteration <? maxIterations)%nat then
        if negb (isSparse (checkContentFill w)) then (w, pageCount, iteration)
        else
          match applyExpandStep env w with
          | None => (w, pageCount, iteration)
          | Some (w1, (strat, prevVal)) =>
              let '(w2, pageCount') := renderAndCount env w1 in
              if (1 <? pageCount')%nat then
                (* rollback, one more pass, break *)
                let w3 :=
                  handleStyleUpdate
                    {[ cssVar strat := CssNum prevVal (sUnit strat) ]} w2 in
                let '(w4, pageCount'') := renderAndCount env w3 in
                (w4, pageCount'', iteration)
              else expandLoop env fuel' w2 pageCount' (S iteration)
          end
      else (w, pageCount, iteration)
  end.

Definition direction_eqb (a b : Direction) : bool :=
  match a, b with
  | DirNone, DirNone | DirShrink, DirShrink | DirExpand, DirExpand => true
  | _, _ => false
  end.

(** The direction chosen from the first measure. *)
Definition chooseDirection (pageCount : nat) (fillInfo : FillInfo) : Direction :=
  if (1 <? pageCount)%nat then DirShrink
  else if (pageCount =? 1)%nat && isSparse fillInfo then DirExpand
  else DirNone.

(** [simpleViewer.fitToOnePage()]. *)
Definition fitToOnePage (env : Env) (w : World) : World :=
  let w := set_isAutoFitting true w in
  let iteration := 0%nat in
  let pageCount := getPageCount w in
  let fillInfo := checkContentFill w in
  let direction := chooseDirection pageCount fillInfo in
  let '(w, pageCount, iteration) :=
    if direction_eqb direction DirShrink
    then shrinkLoop env maxIterations w pageCount iteration
    else (w, pageCount, iteration) in
  let '(w, pageCount, iteration) :=
    if direction_eqb direction DirExpand
    then expandLoop env maxIterations w pageCount iteration
    else (w, pageCount, iteration) in
  let finalPageCount := getPageCount w in
  let finalFill := checkContentFill w in
  let w :=
    set_autoFitResult
      (Some {| attempted := true;
               direction := direction;
               success := (finalPageCount =? 1)%nat;
               iterations := iteration;
               pageCount := finalPageCount;
               fillRatio := ratio finalFill |}) w in
  let w := set_isAutoFitting false w in
  addBodyClass "autofit-complete" w.

(** ** Observations used in the statements *)

Definition ParentMsg_eq_dec (a b : ParentMsg) : {a = b} + {a <> b}.
Proof. decide equality. Defined.

(** How many passes took the lock so far: each one posts ['rendering']. *)
Definition passesStarted (w : World) : nat :=
  count_occ ParentMsg_eq_dec (toParent w) Rendering.

(** How many [READY] went to the parent so far. *)
Definition readySent (w : World) : nat :=
  count_occ ParentMsg_eq_dec (toParent w) READY.


(** The page as the script finds it, with [docBody] and [docHead] in the
    document. *)
Definition scriptStart (docBody : BodyHtml) (docHead : HeadHtml) : World :=
  {| originalBody := emptyBody; originalHead := emptyHead; isRendering := false;
     pendingRenderRequest := None; handshakeInterval := None;
     isHandshakeComplete := false; currentStyles := ∅; contentLoaded := false;
     body := docBody; bodyClasses := []; head := docHead; rootStyle := ∅;
     toParent := []; consoleErrors := []; activeIntervals := []; timersCreated := 0;
     printCalls := 0; isAutoFitting := false; autoFitResult := None |}.

(** ** Style parameters and their deltas *)








(** ** The example configuration: js/config.example.js *)

Definition exampleSliderConfig : list SliderCfg :=
  [ {| sliderId := "fontSlider"; sliderMin := Some 9%Q; sliderMax := Some 13%Q;
       sliderStep := Some (1 # 2)%Q |};
    {| sliderId := "headingSlider"; sliderMin := Some 1%Q; sliderMax := Some (17 # 10)%Q;
       sliderStep := Some (1 # 10)%Q |};
    {| sliderId := "lineHeightSlider"; sliderMin := Some 1%Q; sliderMax := Some (17 # 10)%Q;
       sliderStep := Some (5 # 100)%Q |};
    {| sliderId := "marginSlider"; sliderMin := Some 7%Q; sliderMax := Some 21%Q;
       sliderStep := Some 1%Q |};
    {| sliderId := "titleHrMarginSlider"; sliderMin := Some 0%Q; sliderMax := Some (7 # 10)%Q;
       sliderStep := Some (1 # 10)%Q |};
    {| sliderId := "bodyMarginSlider"; sliderMin := Some 0%Q; sliderMax := Some (5 # 10)%Q;
       sliderStep := Some (1 # 10)%Q |};
    {| sliderId := "ulMarginSlider"; sliderMin := Some 0%Q; sliderMax := Some (5 # 10)%Q;
       sliderStep := Some (1 # 10)%Q |};
    {| sliderId := "strongParagraphMarginSlider"; sliderMin := Some 0%Q;
       sliderMax := Some (2 # 10)%Q; sliderStep := Some (1 # 10)%Q |} ].

Definition exampleDefaultStyles : DefaultStyles :=
  {| dFontSize := 9; dHeadingScale := 17 # 10; dLineHeight := 145 # 100; dMargin := 7;
     dTitleHrMargin := 0; dBodyMargin := 5 # 10; dUlMargin := 0;
     dStrongParagraphMargin := 2 # 10 |}.

(** A layout of [n] pages whose first page is filled to [fill]. *)
Definition layoutOf (n : nat) (fill : Q) : Layout :=
  {| pages := n;
     pageContent := Some {| scrollHeight := fill * 1000; contentTop := 0;
                            lastDescendantBottom := Some (fill * 1000)%Q |};
     pageBoxClientHeight := Some 1000%Q |}.

(** An oracle for the examples: the content takes two pages as soon as the
    body font exceeds [fits] points or the body-block spacing exceeds
    [spacing] em, and otherwise fills 40% of its one page. *)
Definition exampleOracle (fits spacing : Q) (b : BodyHtml) (h : HeadHtml)
    (styles : Styles) : PreviewOutcome :=
  let over v limit :=
    match parseFloat (styles !! v) with
    | Some q => Qltb limit q
    | None => false
    end in
  if over "--body-font-size" fits || over "--body-margin" spacing
  then PreviewDone (layoutOf 2 1)
  else PreviewDone (layoutOf 1 (40 # 100)).

Definition exampleEnv (fits spacing : Q) : Env :=
  {| pagedAvailable := true;
     preview := exampleOracle fits spacing;
     markdownit := Some (fun markdown => markdown);
     sliderConfig := exampleSliderConfig;
     defaultStyles := Some exampleDefaultStyles |}.

Definition exampleBody : BodyHtml :=
  {| contentDiv := Some ""; otherMarkup := ""; paged := None |}.
Definition exampleHead : HeadHtml :=
  {| headMarkup := "<link rel=stylesheet>"; forcedPageA4 := None |}.

(** The example page once loaded and given some content. *)
Definition exampleLoaded (fits spacing : Q) : World :=
  onMessage (exampleEnv fits spacing) (UpdateContent "# Resume")
    (onLoad (exampleEnv fits spacing) (scriptStart exampleBody exampleHead)).

(** The same page once its first pass has settled. *)
Definition exampleRendered (fits spacing : Q) : World :=
  let w := exampleLoaded fits spacing in
  fst (previewSettled (exampleEnv fits spacing)
         (preview (exampleEnv fits spacing) (body w) (head w) (rootStyle w)) w).





(** ** The claims as the specification words them, where the code differs *)





(** "on any exception, roll back [...] and re-throw to the caller". *)
Definition spec_rethrows (env : Env) (e : string) (w : World) : Prop :=
  snd (previewSettled env (PreviewThrows e) w) = Thrown e.

(** ** The event loop of the render context *)

(** What the page reacts to: the interval with handle [h] coming due, a
    message of the host, the [preview()] of the pass in flight settling. *)
Inductive Event : Type :=
| Elapsed (h : nat)
| Message (m : HostMsg)
| PreviewSettles (outcome : PreviewOutcome).

Definition react (env : Env) (w : World) (ev : Event) : World :=
  match ev with
  | Elapsed h => intervalElapsed h w
  | Message m => onMessage env m w
  | PreviewSettles outcome =>
      if isRendering w then fst (previewSettled env outcome w) else w
  end.

Definition runEvents (env : Env) (evs : list Event) (w : World) : World :=
  fold_left (react env) evs w.

Definition isAck (ev : Event) : bool :=
  match ev with Message ACK => true | _ => false end.

Definition isElapsed (h : nat) (ev : Event) : bool :=
  match ev with Elapsed h' => Nat.eqb h h' | _ => false end.

(** ** Notions used in the statements about this part *)

(** What a failed [preview()] leaves behind, up to the [finally] block. *)
Definition rolledBack (e : string) (w : World) : World :=
  set_head (originalHead w)
    (set_body (originalBody w)
       (consoleError ("[Renderer] Rendering failed " +:+ e) w)).

(** What a successful [preview()] leaves behind, up to the [finally] block. *)
Definition rendered (l : Layout) (w : World) : World :=
  fst (afterPreview
         (set_body {| contentDiv := contentDiv (body w);
                      otherMarkup := otherMarkup (body w);
                      paged := Some l |} w)).

(** The world once the [try]/[catch] part of a settling pass is over. *)
Definition settledBody (outcome : PreviewOutcome) (w : World) : World :=
  match outcome with
  | PreviewDone l => rendered l w
  | PreviewThrows e => rolledBack e w
  end.

(** The page count a document shows. *)
Definition pagesOf (b : BodyHtml) : nat :=
  match paged b with Some l => pages l | None => 0 end.

(** The document a pass hands to the oracle, and the count read once the
    pass is over. *)
Definition passBody (w : World) : BodyHtml :=
  if bodyTruthy (originalBody w) then originalBody w else body w.

Definition passRoot (w : World) : Styles := assign (rootStyle w) (currentStyles w).

Definition passHead (w : World) : HeadHtml :=
  {| headMarkup :=
       headMarkup (if headTruthy (originalHead w) then originalHead w else head w);
     forcedPageA4 :=
       Some match passRoot w !! "--page-margin" with
            | None | Some (CssText "") => CssNum 7 "mm"
            | Some v => v
            end |}.

Definition countAfterPass (env : Env) (w : World) : nat :=
  if pagedAvailable env then
    match preview env (passBody w) (passHead w) (passRoot w) with
    | PreviewDone l => pages l
    | PreviewThrows _ => pagesOf (originalBody w)
    end
  else pagesOf (passBody w).



(** The handshake state of [w'] is that of [w], and no [READY] was posted
    in between. *)
Definition sameHandshake (w w' : World) : Prop :=
  handshakeInterval w' = handshakeInterval w /\
  activeIntervals w' = activeIntervals w /\
  readySent w' = readySent w.

(** The timers still running are the handshake timer, if it is. *)
Definition timersConsistent (w : World) : Prop :=
  activeIntervals w =
  match handshakeInterval w with Some h => [h] | None => [] end.

(** ** Notions used in the further statements about this part *)

(** Every style of the cache is set, with the same value, on the root
    element. *)
Definition cacheApplied (w : World) : Prop := currentStyles w ⊆ rootStyle w.

(** The messages posted to the parent between [w] and [w']. *)
Definition postedSince (w w' : World) : list ParentMsg :=
  skipn (length (toParent w)) (toParent w').

(** The margin the injected [@page] rule is written with. *)
Definition pageRuleMargin (w : World) : CssValue :=
  match computedStyle "--page-margin" w with
  | None | Some (CssText "") => CssNum 7 "mm"
  | Some v => v
  end.

(** A request waits only while a pass is in flight, and the cache is
    applied whenever none waits. *)
Definition slotInvariant (w : World) : Prop :=
  (isRendering w = false -> pendingRenderRequest w = None) /\
  (pendingRenderRequest w = None -> cacheApplied w).

(** ** Further examples *)

(** The example page where neither [window.Paged] nor
    [window.PagedPolyfill] exists. *)
Definition noPagedEnv : Env :=
  {| pagedAvailable := false;
     preview := exampleOracle 9 1;
     markdownit := Some (fun markdown => markdown);
     sliderConfig := exampleSliderConfig;
     defaultStyles := Some exampleDefaultStyles |}.

(** A document without a [#content] element. *)
Definition bareBody : BodyHtml :=
  {| contentDiv := None; otherMarkup := "<p>resume</p>"; paged := None |}.

End Renderer.

(* ===================================================================== *)
(** * The host: js/controller.js, class ResumeController *)
(* ===================================================================== *)

Module Controller.
Import Js.
Export Renderer(HostMsg(..), ParentMsg(..)).

(** [event.data] of a message received by the host, by its [type]. *)
Inductive FrameMsg : Type :=
| FromRenderer (m : ParentMsg)        (* READY, rendering, rendered, RENDER_COMPLETE *)
| ViewerReady                         (* viewerReady *)
| CssUpdateConfirmed
| AutoOnePageSync
| RequestContentAdjustment
| ErrorMsg (message : string)
| UnknownMsg (type : string).

Record MessageEvent : Type := {
  (** [event.origin] is the host's own origin, or ['null'] *)
  originAccepted : bool;
  (** [event.data], [None] when it is missing or has no [type] *)
  data : option FrameMsg
}.

#[projections(primitive)] Record ResumeController : Type := {
  isIframeReady : bool;
  messageQueue : list HostMsg;
  (** [this.iframe && this.iframe.contentWindow] *)
  iframeWindow : bool;
  (** what [triggerAllSliders()] makes the slider controller send *)
  sliderMessages : list HostMsg;
  (** [iframe.contentWindow.postMessage], oldest first *)
  toIframe : list HostMsg;
  controlsEnabled : bool;
  hostConsole : list string;
  (** [fetch] calls of [loadInitialContent] not settled yet *)
  fetching : nat
}.

Definition set_isIframeReady v (c : ResumeController) : ResumeController :=
  Build_ResumeController v (messageQueue c) (iframeWindow c) (sliderMessages c)
    (toIframe c) (controlsEnabled c) (hostConsole c) (fetching c).
Definition set_messageQueue v (c : ResumeController) : ResumeController :=
  Build_ResumeController (isIframeReady c) v (iframeWindow c) (sliderMessages c)
    (toIframe c) (controlsEnabled c) (hostConsole c) (fetching c).
Definition set_toIframe v (c : ResumeController) : ResumeController :=
  Build_ResumeController (isIframeReady c) (messageQueue c) (iframeWindow c)
    (sliderMessages c) v (controlsEnabled c) (hostConsole c) (fetching c).
Definition set_controlsEnabled v (c : ResumeController) : ResumeController :=
  Build_ResumeController (isIframeReady c) (messageQueue c) (iframeWindow c)
    (sliderMessages c) (toIframe c) v (hostConsole c) (fetching c).
Definition set_hostConsole v (c : ResumeController) : ResumeController :=
  Build_ResumeController (isIframeReady c) (messageQueue c) (iframeWindow c)
    (sliderMessages c) (toIframe c) (controlsEnabled c) v (fetching c).
Definition set_fetching v (c : ResumeController) : ResumeController :=
  Build_ResumeController (isIframeReady c) (messageQueue c) (iframeWindow c)
    (sliderMessages c) (toIframe c) (controlsEnabled c) (hostConsole c) v.

(** [new ResumeController()], the iframe being in the page or not. *)
Definition newController (hasWindow : bool) (sliders : list HostMsg) : ResumeController :=
  {| isIframeReady := false; messageQueue := []; iframeWindow := hasWindow;
     sliderMessages := sliders; toIframe := []; controlsEnabled := true;
     hostConsole := []; fetching := 0 |}.

Definition postMessage (d : HostMsg) (c : ResumeController) : ResumeController :=
  set_toIframe (toIframe c ++ [d]) c.

(** [sendMessageToIframe(data)]. *)
Definition sendMessageToIframe (c : ResumeController) (d : HostMsg) : ResumeController :=
  if iframeWindow c then
    if isIframeReady c then postMessage d c
    else set_messageQueue (messageQueue c ++ [d]) c
  else c.

(** [updateContent(content)]. *)
Definition updateContent (content : string) (c : ResumeController) : ResumeController :=
  sendMessageToIframe c (UpdateContent content).

(** [sendInitialStyles()]. *)
Definition sendInitialStyles (c : ResumeController) : ResumeController :=
  fold_left sendMessageToIframe (sliderMessages c) c.

(** [loadInitialContent()] up to its [await fetch(...)]. *)
Definition loadInitialContent (c : ResumeController) : ResumeController :=
  set_fetching (S (fetching c)) c.

(** The [fetch] of [loadInitialContent] settles: with the text of the
    resume, or with a failure. *)
Definition fetchSettled (markdown : option string) (c : ResumeController)
    : ResumeController :=
  let c := set_fetching (pred (fetching c)) c in
  match markdown with
  | Some text => updateContent text c
  | None =>
      let c := set_hostConsole (hostConsole c ++ ["Failed to load resume content"]) c in
      updateContent "# Error Loading Resume
Check console for details." c
  end.

(** The [while (this.messageQueue.length > 0)] loop of [handleViewerReady];
    [queue] is what is left of [this.messageQueue]. *)
Fixpoint flushQueue (queue : list HostMsg) (c : ResumeController)
    : ResumeController * Completion unit :=
  match queue with
  | [] => (set_messageQueue [] c, Returned tt)
  | d :: rest =>
      (* const data = this.messageQueue.shift() *)
      if iframeWindow c then flushQueue rest (postMessage d c)
      else (set_messageQueue rest c,
            Thrown "TypeError: Cannot read properties of null")
  end.

(** [handleViewerReady()]. *)
Definition handleViewerReady : Exc ResumeController unit :=
  fun c =>
    let c := set_isIframeReady true c in
    let c := if iframeWindow c then postMessage ACK c else c in
    match flushQueue (messageQueue c) c with
    | (c, Thrown e) => (c, Thrown e)
    | (c, Returned tt) =>
        let c := sendInitialStyles c in
        (loadInitialContent c, Returned tt)
    end.

(** [setControlsEnabled(enabled)]. *)
Definition setControlsEnabled (enabled : bool) (c : ResumeController) : ResumeController :=
  set_controlsEnabled enabled c.

(** [handleMessage(event)]. *)
Definition handleMessage (event : MessageEvent) (c : ResumeController)
    : ResumeController :=
  if negb (originAccepted event) then c
  else
    match data event with
    | None => c
    | Some d =>
        let '(c, completion) :=
          match d with
          | FromRenderer READY | ViewerReady => handleViewerReady c
          | FromRenderer Rendering => (setControlsEnabled false c, Returned tt)
          | FromRenderer Rendered => (setControlsEnabled true c, Returned tt)
          | ErrorMsg message =>
              (set_hostConsole (hostConsole c ++ [message]) c, Returned tt)
          | _ => (c, Returned tt)
          end in
        match completion with
        | Returned tt => c
        | Thrown e => set_hostConsole (hostConsole c ++ [e]) c
        end
    end.

(** A message of the render context as the host receives it. *)
Definition fromFrame (m : ParentMsg) : MessageEvent :=
  {| originAccepted := true; data := Some (FromRenderer m) |}.

(** ** Notions used in the statements about this part *)

Definition exampleController : ResumeController :=
  newController true
    [UpdateCSS (Some "--body-font-size") (Renderer.CssNum 9 "pt")].

Definition earlyCommands : list HostMsg := [UpdateContent "# Resume"; Print].

(** ** Notions used in the further statements about this part *)

(** The host handles the messages [msgs] of the render context, oldest
    first. *)
Definition deliver (msgs : list ParentMsg) (c : ResumeController) : ResumeController :=
  fold_left (fun c m => handleMessage (fromFrame m) c) msgs c.

End Controller.

(* ===================================================================== *)
(** * The shared store: js/controller.js, class ResumeStateManager *)
(* ===================================================================== *)

Module Store.
Import Js.
Local Open Scope list_scope.

(** ** Values *)

(** The values the store holds and the actions carry.  [JIso t] is the
    string a [Date] of time [t] becomes in JSON ([toISOString]). *)
Inductive JsVal : Type :=
| JUndefined
| JNull
| JBool (b : bool)
| JNum (n : JsNumber)
| JStr (s : string)
| JIso (t : Z)
| JDate (t : Z)
| JArr (items : list JsVal)
| JObj (fields : list (string * JsVal)).

(** [JSON.parse(JSON.stringify(v))] for [v] other than [undefined]: a
    date becomes its string, a non-finite number [null]; an [undefined]
    array item becomes [null], an [undefined] field is left out. *)
Fixpoint jsonClone (v : JsVal) : JsVal :=
  match v with
  | JNum (Finite q) => JNum (Finite q)
  | JNum _ => JNull
  | JDate t => JIso t
  | JArr items =>
      JArr (map (fun x => match x with
                          | JUndefined => JNull
                          | _ => jsonClone x
                          end) items)
  | JObj fields =>
      JObj (flat_map (fun kx => match snd kx with
                                | JUndefined => []
                                | _ => [(fst kx, jsonClone (snd kx))]
                                end) fields)
  | other => other
  end.

(** Truthiness. *)
Definition truthy (v : JsVal) : bool :=
  match v with
  | JUndefined | JNull | JBool false | JNum NotANumber | JStr "" => false
  | JNum (Finite q) => negb (Qeq_bool q 0)
  | _ => true
  end.

(** The own enumerable properties, as a spread [...v] copies them. *)
Definition ownEntries (v : JsVal) : list (string * JsVal) :=
  match v with
  | JObj fields => fields
  | JArr items => imap (fun i x => (pretty i, x)) items
  | JStr s => imap (fun i ch => (pretty i, JStr (String ch ""))) (list_ascii_of_string s)
  | _ => []
  end.

(** [fields[k]]. *)
Fixpoint getField (k : string) (fields : list (string * JsVal)) : JsVal :=
  match fields with
  | [] => JUndefined
  | (k', x) :: rest => if String.eqb k k' then x else getField k rest
  end.

(** [v.k]; [None] is the [TypeError] of reading a property of [null] or
    [undefined]. *)
Definition getProp (v : JsVal) (k : string) : option JsVal :=
  match v with
  | JUndefined | JNull => None
  | JObj fields => Some (getField k fields)
  | _ => Some JUndefined
  end.

(** [fields[k] = x]: in place when the key exists, appended otherwise. *)
Fixpoint setField (k : string) (x : JsVal) (fields : list (string * JsVal))
    : list (string * JsVal) :=
  match fields with
  | [] => [(k, x)]
  | (k', x') :: rest =>
      if String.eqb k k' then (k, x) :: rest else (k', x') :: setField k x rest
  end.

(** [{ ...target, ...source }]. *)
Definition spread (target source : JsVal) : JsVal :=
  JObj (fold_left (fun acc kx => setField (fst kx) (snd kx) acc)
          (ownEntries source) (ownEntries target)).

(** [const { k, ...rest } = v]: the entries of [v] but [k]. *)
Definition restWithout (k : string) (v : JsVal) : JsVal :=
  JObj (List.filter (fun kx => negb (String.eqb (fst kx) k)) (ownEntries v)).

(** ** State, actions, listeners *)

Record State : Type := {
  content : JsVal;
  styles : JsVal;
  pagedjs : JsVal;
  ui : JsVal;
  files : JsVal
}.

Record Action : Type := {
  type : string;
  payload : JsVal;
  meta : JsVal
}.

(** What the built-ins of one call return: [Date.now()], and the suffix
    [Math.random().toString(36)] yields. *)
Record Clock : Type := { now : Z; nonce : string }.

(** A subscriber: its identity as a function object, and how a call of it
    completes. *)
Record Listener : Type := {
  listenerId : nat;
  callback : Action -> State -> State -> Completion unit
}.

(** A middleware returns an action, or something falsy ([None]); it may
    throw. *)
Definition Middleware : Type := Clock -> Action -> State -> Completion (option Action).

Record HistoryEntry : Type := {
  hAction : Action;
  hTimestamp : Z;
  hOldState : State;
  hNewState : State
}.

(** One call of a subscriber by [notifyListeners]. *)
Record Notification : Type := {
  nKey : string;
  nListener : nat;
  nAction : Action;
  nOldState : State;
  nNewState : State
}.

#[projections(primitive)] Record StateManager : Type := {
  state : State;
  listeners : list (string * list Listener);     (* a Map, in insertion order *)
  middleware : list Middleware;
  history : list HistoryEntry;
  notifications : list Notification;              (* calls of subscribers, oldest first *)
  storeConsole : list string                      (* console.error, oldest first *)
}.

Definition set_state v (m : StateManager) : StateManager :=
  Build_StateManager v (listeners m) (middleware m) (history m) (notifications m)
    (storeConsole m).
Definition set_listeners v (m : StateManager) : StateManager :=
  Build_StateManager (state m) v (middleware m) (history m) (notifications m)
    (storeConsole m).
Definition set_middleware v (m : StateManager) : StateManager :=
  Build_StateManager (state m) (listeners m) v (history m) (notifications m)
    (storeConsole m).
Definition set_history v (m : StateManager) : StateManager :=
  Build_StateManager (state m) (listeners m) (middleware m) v (notifications m)
    (storeConsole m).
Definition set_notifications v (m : StateManager) : StateManager :=
  Build_StateManager (state m) (listeners m) (middleware m) (history m) v
    (storeConsole m).
Definition set_storeConsole v (m : StateManager) : StateManager :=
  Build_StateManager (state m) (listeners m) (middleware m) (history m)
    (notifications m) v.

Definition num (q : Q) : JsVal := JNum (Finite q).

(** The state the constructor sets. *)
Definition constructorState : State :=
  {| content := JObj [("markdown", JStr ""); ("html", JStr "");
                      ("lastModified", JNull); ("source", JNull)];
     styles := JObj [("fontSize", num 16); ("lineHeight", num (16 # 10));
                     ("margins", JObj [("top", num 20); ("bottom", num 20);
                                       ("left", num 20); ("right", num 20)]);
                     ("fontFamily", JStr "Arial, sans-serif")];
     pagedjs := JObj [("isReady", JBool false); ("isRendering", JBool false);
                      ("lastRenderTime", JNull); ("pageCount", num 0);
                      ("renderQueue", JArr []); ("error", JNull)];
     ui := JObj [("debugMode", JBool false); ("previewMode", JStr "web");
                 ("showPageNumbers", JBool true); ("loading", JBool false);
                 ("isLoading", JBool false); ("operation", JNull);
                 ("lastLoadedFile", JNull); ("error", JNull)];
     files := JObj [("currentFileId", JNull); ("currentFileName", JNull);
                    ("currentFilePath", JNull); ("availableFiles", JArr [])] |}.

(** [new ResumeStateManager()]. *)
Definition newStateManager : StateManager :=
  {| state := constructorState; listeners := []; middleware := []; history := [];
     notifications := []; storeConsole := [] |}.

(** [getInitialState()]: what it gives for the four keys it has. *)
Definition initialContent : JsVal := content constructorState.
Definition initialStyles : JsVal := styles constructorState.
Definition initialPagedjs : JsVal := pagedjs constructorState.
Definition initialUi : JsVal :=
  JObj [("debugMode", JBool false); ("previewMode", JStr "web");
        ("showPageNumbers", JBool true); ("loading", JBool false)].

(** [JSON.parse(JSON.stringify(state))] on the five keys of the state. *)
Definition cloneState (s : State) : State :=
  {| content := jsonClone (content s); styles := jsonClone (styles s);
     pagedjs := jsonClone (pagedjs s); ui := jsonClone (ui s);
     files := jsonClone (files s) |}.

(** [getState()]. *)
Definition getState (m : StateManager) : State := cloneState (state m).

(** ** The reducer *)

Definition typeError : string := "TypeError".

(** [reducer(state, action)], the clock giving [new Date()]. *)
Definition reducer (clock : Clock) (s : State) (action : Action) : Completion State :=
  let newState := cloneState s in
  let p := payload action in
  if String.eqb (type action) "SET_CONTENT" then
    Returned {| content := spread (spread (content newState) p)
                             (JObj [("lastModified", JDate (now clock))]);
                styles := styles newState; pagedjs := pagedjs newState;
                ui := ui newState; files := files newState |}
  else if String.eqb (type action) "SET_STYLES" then
    match p with
    | JUndefined | JNull => Thrown typeError
    | _ =>
        Returned {| content := content newState;
                    styles := spread (styles newState) (restWithout "source" p);
                    pagedjs := pagedjs newState; ui := ui newState;
                    files := files newState |}
    end
  else if String.eqb (type action) "UPDATE_STYLES" then
    Returned {| content := content newState; styles := spread (styles newState) p;
                pagedjs := pagedjs newState; ui := ui newState;
                files := files newState |}
  else if String.eqb (type action) "SET_LOADING_STATE" then
    Returned {| content := content newState; styles := styles newState;
                pagedjs := pagedjs newState; ui := spread (ui newState) p;
                files := files newState |}
  else if String.eqb (type action) "SET_CURRENT_FILE" then
    match getProp p "fileId", getProp p "fileName", getProp p "filePath" with
    | Some fileId, Some fileName, Some filePath =>
        Returned {| content := content newState; styles := styles newState;
                    pagedjs := pagedjs newState; ui := ui newState;
                    files := spread (files newState)
                               (JObj [("currentFileId", fileId);
                                      ("currentFileName", fileName);
                                      ("currentFilePath", filePath)]) |}
    | _, _, _ => Thrown typeError
    end
  else if String.eqb (type action) "PAGEDJS_STATE_CHANGE" then
    Returned {| content := content newState; styles := styles newState;
                pagedjs := spread (pagedjs newState) p; ui := ui newState;
                files := files newState |}
  else if String.eqb (type action) "UI_STATE_CHANGE" then
    Returned {| content := content newState; styles := styles newState;
                pagedjs := pagedjs newState; ui := spread (ui newState) p;
                files := files newState |}
  else if String.eqb (type action) "RESET_STATE" then
    (* Object.assign(newState, this.getInitialState(), preservedSettings) *)
    Returned {| content := initialContent;
                styles := styles newState;
                pagedjs := initialPagedjs;
                ui := spread (ui newState) (JObj [("loading", JBool false)]);
                files := files newState |}
  else
    Returned newState.

(** ** Subscribers *)

(** [subscribe(key, callback)]. *)
Fixpoint addListener (key : string) (l : Listener)
    (ls : list (string * list Listener)) : list (string * list Listener) :=
  match ls with
  | [] => [(key, [l])]
  | (k, callbacks) :: rest =>
      if String.eqb key k then (k, callbacks ++ [l]) :: rest
      else (k, callbacks) :: addListener key l rest
  end.

Definition subscribe (key : string) (l : Listener) (m : StateManager) : StateManager :=
  set_listeners (addListener key l (listeners m)) m.

(** The function [subscribe] returns: the first occurrence of the callback
    leaves the array of its key. *)
Fixpoint removeFirst (id : nat) (callbacks : list Listener) : list Listener :=
  match callbacks with
  | [] => []
  | l :: rest => if Nat.eqb (listenerId l) id then rest else l :: removeFirst id rest
  end.

Definition unsubscribe (key : string) (id : nat) (m : StateManager) : StateManager :=
  set_listeners
    (map (fun kc => if String.eqb (fst kc) key
                    then (fst kc, removeFirst id (snd kc)) else kc)
         (listeners m)) m.

(** One [try { callback(action, oldState, newState) } catch (error) {...}]. *)
Definition callListener (key : string) (action : Action) (oldState newState : State)
    (m : StateManager) (l : Listener) : StateManager :=
  let m :=
    set_notifications
      (notifications m ++
       [{| nKey := key; nListener := listenerId l; nAction := action;
           nOldState := oldState; nNewState := newState |}]) m in
  match callback l action oldState newState with
  | Returned tt => m
  | Thrown e => set_storeConsole (storeConsole m ++ [key +:+ ": " +:+ e]) m
  end.

(** [notifyListeners(action, oldState, newState)]. *)
Definition notifyListeners (action : Action) (oldState newState : State)
    (m : StateManager) : StateManager :=
  fold_left
    (fun m kc => fold_left (callListener (fst kc) action oldState newState) (snd kc) m)
    (listeners m) m.

(** ** Dispatch *)

(** The middleware chain of [dispatch]. *)
Fixpoint runMiddleware (clock : Clock) (oldState : State) (processedAction : Action)
    (chain : list Middleware) : Completion Action :=
  match chain with
  | [] => Returned processedAction
  | mw :: rest =>
      match mw clock processedAction oldState with
      | Thrown e => Thrown e
      | Returned (Some result) => runMiddleware clock oldState result rest
      | Returned None => runMiddleware clock oldState processedAction rest
      end
  end.

(** [use(middleware)]. *)
Definition use (mw : Middleware) (m : StateManager) : StateManager :=
  set_middleware (middleware m ++ [mw]) m.

(** [history.push(entry)], then [shift()] above 50 entries. *)
Definition pushHistory (entry : HistoryEntry) (h : list HistoryEntry)
    : list HistoryEntry :=
  let h := h ++ [entry] in
  if (50 <? length h)%nat then tl h else h.

(** [dispatch(action)]. *)
Definition dispatch (clock : Clock) (action : Action) (m : StateManager)
    : StateManager * Completion State :=
  let oldState := getState m in
  match runMiddleware clock oldState action (middleware m) with
  | Thrown e => (m, Thrown e)
  | Returned processedAction =>
      match reducer clock oldState processedAction with
      | Thrown e => (m, Thrown e)
      | Returned newState =>
          let m := set_state newState m in
          let m :=
            set_history
              (pushHistory {| hAction := processedAction; hTimestamp := now clock;
                              hOldState := oldState; hNewState := newState |}
                 (history m)) m in
          let m := notifyListeners processedAction oldState newState m in
          (m, Returned newState)
      end
  end.

(** Every subscriber with the key it is registered under, in the order
    [notifyListeners] goes through them. *)
Definition allSubscribers (m : StateManager) : list (string * Listener) :=
  flat_map (fun kc => map (pair (fst kc)) (snd kc)) (listeners m).

(** The call [notifyListeners] makes of one subscriber. *)
Definition callOf (action : Action) (oldState newState : State)
    (kl : string * Listener) : Notification :=
  {| nKey := fst kl; nListener := listenerId (snd kl); nAction := action;
     nOldState := oldState; nNewState := newState |}.

(** The console line of a subscriber that throws. *)
Definition errorOf (action : Action) (oldState newState : State)
    (kl : string * Listener) : list string :=
  match callback (snd kl) action oldState newState with
  | Returned tt => []
  | Thrown e => [fst kl +:+ ": " +:+ e]
  end.

(** A middleware that never throws and leaves the type of the action
    alone. *)
Definition keepsType (mw : Middleware) : Prop :=
  forall clock action s,
    exists result,
      mw clock action s = Returned result /\
      forall action', result = Some action' -> type action' = type action.

(** The action types the reducer has a case for. *)
Definition knownTypes : list string :=
  [ "SET_CONTENT"; "SET_STYLES"; "UPDATE_STYLES"; "SET_LOADING_STATE";
    "SET_CURRENT_FILE"; "PAGEDJS_STATE_CHANGE"; "UI_STATE_CHANGE"; "RESET_STATE" ].

(** The calls of subscribers a dispatch adds. *)
Definition newNotifications (clock : Clock) (action : Action) (m : StateManager)
    : list Notification :=
  skipn (length (notifications m)) (notifications (fst (dispatch clock action m))).

(** "the store notifies only the subscribers registered under the matching
    topic", [topic] being the one that matches the action. *)
Definition spec_notifies_topic_only (topic : string) (clock : Clock) (action : Action)
    (m : StateManager) : Prop :=
  Forall (fun n => nKey n = topic) (newNotifications clock action m).

(** ** Examples *)

Definition noon : Clock := {| now := 1000000; nonce := "k3x9" |}.

(** A store with a subscriber that throws under ["content"] and one that
    returns under ["styles"]. *)
Definition twoTopics : StateManager :=
  subscribe "styles" {| listenerId := 2; callback := fun _ _ _ => Returned tt |}
    (subscribe "content" {| listenerId := 1; callback := fun _ _ _ => Thrown "boom" |}
       newStateManager).

Definition updateFontSize : Action :=
  {| type := "UPDATE_STYLES"; payload := JObj [("fontSize", num 12)];
     meta := JUndefined |}.

Definition unknownAction : Action :=
  {| type := "TOGGLE_SIDEBAR"; payload := JObj [("open", JBool true)];
     meta := JUndefined |}.

(** ** Notions used in the further statements about this part *)

(** Dispatches one after the other, each at its own time. *)
Definition dispatchAll (steps : list (Clock * Action)) (m : StateManager) : StateManager :=
  fold_left (fun m step => fst (dispatch (fst step) (snd step) m)) steps m.

(** [v[k]] for an own property [k] of [v], [undefined] when there is none. *)
Definition entry (k : string) (v : JsVal) : JsVal := getField k (ownEntries v).

(** The value the last entry of key [k] gives in a list of properties. *)
Definition lastEntry (k : string) (fields : list (string * JsVal)) : option JsVal :=
  fold_left (fun found kx => if String.eqb k (fst kx) then Some (snd kx) else found)
    fields None.

(** ** Further examples *)

Definition setStylesFromSlider : Action :=
  {| type := "SET_STYLES";
     payload := JObj [("source", JStr "slider"); ("fontSize", num 12)];
     meta := JUndefined |}.

Definition resetState : Action :=
  {| type := "RESET_STATE"; payload := JUndefined; meta := JUndefined |}.

End Store.

(* ===================================================================== *)
(** * The render task queue: the Paged.js middleware and its processor *)
(* ===================================================================== *)

Module Queue.
Import Js.
Export Store.
Local Open Scope list_scope.

(** ** The middleware *)

Definition renderTriggerActions : list string := [ "SET_CONTENT"; "UPDATE_STYLES" ].

(** [getRenderPriority(actionType)]. *)
Definition getRenderPriority (actionType : string) : Q :=
  if String.eqb actionType "SET_CONTENT" then 1
  else if String.eqb actionType "UPDATE_STYLES" then 2
  else if String.eqb actionType "UI_STATE_CHANGE" then 3
  else 5.

(** [new Date(v).getTime()], [None] for [NaN]. *)
Definition timeOf (v : JsVal) : option Z :=
  match v with
  | JDate t | JIso t => Some t
  | _ => None
  end.

(** [state.pagedjs.renderQueue], an array in every state these files
    write; [None] when it is not one. *)
Definition queueOf (s : State) : option (list JsVal) :=
  match getProp (pagedjs s) "renderQueue" with
  | Some (JArr items) => Some items
  | _ => None
  end.

(** [task.reason === type && Date.now() - new Date(task.timestamp).getTime() < 1000]. *)
Definition similarTask (clock : Clock) (actionType : string) (task : JsVal) : bool :=
  match getProp task "reason", getProp task "timestamp" with
  | Some (JStr reason), Some timestamp =>
      String.eqb reason actionType &&
      match timeOf timestamp with
      | Some t => (now clock - t <? 1000)%Z
      | None => false
      end
  | _, _ => false
  end.

(** [{ ...action, meta: { ...action.meta, triggersRender: true, renderTask } }]. *)
Definition withRenderTask (action : Action) (renderTask : JsVal) : Action :=
  {| type := type action; payload := payload action;
     meta := spread (meta action)
               (JObj [("triggersRender", JBool true); ("renderTask", renderTask)]) |}.

(** The function [createPagedJsMiddleware()] returns. *)
Definition pagedJsMiddleware : Middleware :=
  fun clock action state =>
    let renderTask :=
      JObj [("id", JStr ("render_" +:+ nonce clock));
            ("reason", JStr (type action));
            ("timestamp", JDate (now clock));
            ("priority", num (getRenderPriority (type action)));
            ("payload", payload action)] in
    let triggered :=
      if existsb (String.eqb (type action)) renderTriggerActions then
        match queueOf state with
        | Some currentQueue =>
            if existsb (similarTask clock (type action)) currentQueue then None
            else Some (withRenderTask action renderTask)
        | None => Some (withRenderTask action renderTask)
        end
      else None in
    match triggered with
    | Some result => Returned (Some result)
    | None =>
        if String.eqb (type action) "PAGEDJS_STATE_CHANGE" then
          match getProp (payload action) "addRenderTask" with
          | Some newTask =>
              if truthy newTask then Returned (Some (withRenderTask action newTask))
              else Returned (Some action)
          | None => Returned (Some action)
          end
        else Returned (Some action)
    end.

(** ** The processor *)

(** What [performUpdate] is called with. *)
Record ExecutorCall : Type := {
  callReason : JsVal;
  callTaskId : JsVal;
  callPriority : JsVal
}.

#[projections(primitive)] Record RenderTaskProcessor : Type := {
  stateManager : StateManager;
  isProcessing : bool;
  processingTimeout : option nat;        (* handle of the debounce timer *)
  pendingTimeouts : list nat;            (* timers set and neither cleared nor fired *)
  timeoutsCreated : nat;
  (** [window.pagedJsManager.performUpdate] is there *)
  managerReady : bool;
  executorCalls : list ExecutorCall;     (* calls of performUpdate, oldest first *)
  processorConsole : list string
}.

Definition set_stateManager v (p : RenderTaskProcessor) : RenderTaskProcessor :=
  Build_RenderTaskProcessor v (isProcessing p) (processingTimeout p) (pendingTimeouts p)
    (timeoutsCreated p) (managerReady p) (executorCalls p) (processorConsole p).
Definition set_isProcessing v (p : RenderTaskProcessor) : RenderTaskProcessor :=
  Build_RenderTaskProcessor (stateManager p) v (processingTimeout p) (pendingTimeouts p)
    (timeoutsCreated p) (managerReady p) (executorCalls p) (processorConsole p).
Definition set_processingTimeout v (p : RenderTaskProcessor) : RenderTaskProcessor :=
  Build_RenderTaskProcessor (stateManager p) (isProcessing p) v (pendingTimeouts p)
    (timeoutsCreated p) (managerReady p) (executorCalls p) (processorConsole p).
Definition set_pendingTimeouts v (p : RenderTaskProcessor) : RenderTaskProcessor :=
  Build_RenderTaskProcessor (stateManager p) (isProcessing p) (processingTimeout p) v
    (timeoutsCreated p) (managerReady p) (executorCalls p) (processorConsole p).
Definition set_timeoutsCreated v (p : RenderTaskProcessor) : RenderTaskProcessor :=
  Build_RenderTaskProcessor (stateManager p) (isProcessing p) (processingTimeout p)
    (pendingTimeouts p) v (managerReady p) (executorCalls p) (processorConsole p).
Definition set_executorCalls v (p : RenderTaskProcessor) : RenderTaskProcessor :=
  Build_RenderTaskProcessor (stateManager p) (isProcessing p) (processingTimeout p)
    (pendingTimeouts p) (timeoutsCreated p) (managerReady p) v (processorConsole p).
Definition set_processorConsole v (p : RenderTaskProcessor) : RenderTaskProcessor :=
  Build_RenderTaskProcessor (stateManager p) (isProcessing p) (processingTimeout p)
    (pendingTimeouts p) (timeoutsCreated p) (managerReady p) (executorCalls p) v.

(** [new RenderTaskProcessor(stateManager)]. *)
Definition newProcessor (m : StateManager) (ready : bool) : RenderTaskProcessor :=
  {| stateManager := m; isProcessing := false; processingTimeout := None;
     pendingTimeouts := []; timeoutsCreated := 0; managerReady := ready;
     executorCalls := []; processorConsole := [] |}.

(** [this.stateManager.dispatch(action)] from inside the processor. *)
Definition dispatchIn (clock : Clock) (action : Action) : Exc RenderTaskProcessor unit :=
  fun p =>
    match dispatch clock action (stateManager p) with
    | (m, Returned _) => (set_stateManager m p, Returned tt)
    | (m, Thrown e) => (set_stateManager m p, Thrown e)
    end.

Definition pagedjsChange (fields : list (string * JsVal)) : Action :=
  {| type := "PAGEDJS_STATE_CHANGE"; payload := JObj fields; meta := JUndefined |}.

(** [getStateByPath('pagedjs.renderQueue')], spread into an array;
    [None] when there is no array to spread. *)
Definition queuedTasks (m : StateManager) : option (list JsVal) :=
  match getProp (pagedjs (state m)) "renderQueue" with
  | Some (JArr items) as v =>
      match jsonClone (JArr items) with
      | JArr copies => Some copies
      | _ => None
      end
  | _ => None
  end.

(** [addTaskToQueue(task)]. *)
Definition addTaskToQueue (clock : Clock) (task : JsVal) : Exc RenderTaskProcessor unit :=
  fun p =>
    match queuedTasks (stateManager p) with
    | Some tasks => dispatchIn clock (pagedjsChange [("renderQueue", JArr (tasks ++ [task]))]) p
    | None => (p, Thrown typeError)
    end.

(** [scheduleProcessing()]: the running timer, if any, is cleared and a
    new one of 300 ms is set. *)
Definition scheduleProcessing (p : RenderTaskProcessor) : RenderTaskProcessor :=
  let p :=
    match processingTimeout p with
    | Some h =>
        set_pendingTimeouts
          (List.filter (fun h' => negb (Nat.eqb h h')) (pendingTimeouts p)) p
    | None => p
    end in
  let handle := S (timeoutsCreated p) in
  set_processingTimeout (Some handle)
    (set_pendingTimeouts (pendingTimeouts p ++ [handle])
       (set_timeoutsCreated handle p)).

(** The subscriber set up by [setupListeners()], called with an action the
    store has dispatched. *)
Definition onAction (clock : Clock) (action : Action) : Exc RenderTaskProcessor unit :=
  fun p =>
    match getProp (meta action) "triggersRender", getProp (meta action) "renderTask" with
    | Some triggers, Some renderTask =>
        if truthy triggers then
          match addTaskToQueue clock renderTask p with
          | (p, Returned tt) => (scheduleProcessing p, Returned tt)
          | (p, Thrown e) => (p, Thrown e)
          end
        else (p, Returned tt)
    | _, _ => (p, Returned tt)
    end.

(** [a.priority - b.priority], a priority that is not a number giving
    [NaN], which [sort] takes for 0. *)
Definition priorityOf (task : JsVal) : option Q :=
  match getProp task "priority" with
  | Some (JNum (Finite q)) => Some q
  | _ => None
  end.

Definition comesAfter (a b : JsVal) : bool :=
  match priorityOf a, priorityOf b with
  | Some x, Some y => Qltb y x          (* a.priority - b.priority > 0 *)
  | _, _ => false
  end.

(** [queue.sort((a, b) => a.priority - b.priority)], a stable sort. *)
Fixpoint insertTask (a : JsVal) (sorted : list JsVal) : list JsVal :=
  match sorted with
  | [] => [a]
  | b :: rest => if comesAfter a b then b :: insertTask a rest else a :: b :: rest
  end.

Definition sortByPriority (queue : list JsVal) : list JsVal :=
  fold_right insertTask [] queue.

(** How [processQueue] leaves its caller. *)
Inductive QueueStatus : Type :=
| Skipped                              (* the early return *)
| Awaiting (nextTask : JsVal)          (* at [await this.executeRenderTask(nextTask)] *)
| Failed (e : string)                  (* the [catch] ran without reaching the await *)
| Rejected (e : string).               (* thrown before the [try] *)

(** The [catch (error)] and [finally] blocks of [processQueue]. *)
Definition catchBlock (clock : Clock) (e : string) : Exc RenderTaskProcessor unit :=
  fun p =>
    let p := set_processorConsole (processorConsole p ++ [e]) p in
    dispatchIn clock
      (pagedjsChange [("isRendering", JBool false);
                      ("error", JStr (if String.eqb e "" then "渲染失败" else e))]) p.

Definition finallyBlock : Exc RenderTaskProcessor unit :=
  fun p => (set_isProcessing false p, Returned tt).

(** [executeRenderTask(task)] up to its [await]: the call of
    [performUpdate] when the manager is there. *)
Definition executeRenderTask (task : JsVal) : Exc RenderTaskProcessor unit :=
  fun p =>
    if managerReady p then
      match getProp task "reason", getProp task "id", getProp task "priority" with
      | Some reason, Some id, Some priority =>
          (set_executorCalls
             (executorCalls p ++
              [{| callReason := reason; callTaskId := id; callPriority := priority |}]) p,
           Returned tt)
      | _, _, _ => (p, Thrown typeError)
      end
    else
      (set_processorConsole (processorConsole p ++ ["PagedJsManager not ready"]) p,
       Returned tt).

(** The [try] block of [processQueue] up to the [await]. *)
Definition tryBeforeAwait (clock : Clock) (queue : list JsVal)
    : RenderTaskProcessor -> RenderTaskProcessor * Completion JsVal :=
  fun p =>
    match dispatchIn clock
            (pagedjsChange [("isRendering", JBool true); ("error", JNull)]) p with
    | (p, Thrown e) => (p, Thrown e)
    | (p, Returned tt) =>
        match sortByPriority queue with
        | [] => (p, Thrown typeError)
        | nextTask :: _ =>
            (* console.log(nextTask.id, nextTask.reason) *)
            match getProp nextTask "id" with
            | None => (p, Thrown typeError)
            | Some _ =>
                match executeRenderTask nextTask p with
                | (p, Returned tt) => (p, Returned nextTask)
                | (p, Thrown e) => (p, Thrown e)
                end
            end
        end
    end.

(** [processQueue()] up to its [await]. *)
Definition processQueue (clock : Clock) (p : RenderTaskProcessor)
    : RenderTaskProcessor * QueueStatus :=
  let st := getState (stateManager p) in
  match getProp (pagedjs st) "isRendering", queueOf st with
  | Some rendering, Some queue =>
      if isProcessing p || truthy rendering || (length queue =? 0)%nat then (p, Skipped)
      else
        let p := set_isProcessing true p in
        match tryBeforeAwait clock queue p with
        | (p, Returned nextTask) => (p, Awaiting nextTask)
        | (p, Thrown e) =>
            let '(p, _) := tryCatchFinally (throw e) (catchBlock clock) finallyBlock p in
            (p, Failed e)
        end
  | _, _ => (p, Rejected typeError)
  end.

(** The [await] of [processQueue] settles: the rest of the [try], or the
    [catch], then the [finally]. *)
Definition executorSettled (clock : Clock) (outcome : Completion unit)
    : Exc RenderTaskProcessor unit :=
  tryCatchFinally
    (fun p =>
       match outcome with
       | Thrown e => (p, Thrown e)
       | Returned tt =>
           dispatchIn clock
             (pagedjsChange [("isRendering", JBool false);
                             ("lastRenderTime", JDate (now clock));
                             ("renderQueue", JArr []);
                             ("error", JNull)]) p
       end)
    (catchBlock clock) finallyBlock.

(** The debounce timer with handle [h] fires. *)
Definition timeoutFires (clock : Clock) (h : nat) (p : RenderTaskProcessor)
    : RenderTaskProcessor * QueueStatus :=
  if existsb (Nat.eqb h) (pendingTimeouts p) then
    processQueue clock
      (set_pendingTimeouts
         (List.filter (fun h' => negb (Nat.eqb h h')) (pendingTimeouts p)) p)
  else (p, Skipped).

(** [initPagedJsMiddleware()]. *)
Definition initPagedJsMiddleware (m : StateManager) (ready : bool) : RenderTaskProcessor :=
  newProcessor (use pagedJsMiddleware m) ready.

(** ** Observations and examples *)

Definition isObject (v : JsVal) : bool :=
  match v with JObj _ => true | _ => false end.

(** The store runs the Paged.js middleware and no other. *)
Definition pagedJsOnly (m : StateManager) : Prop :=
  Forall (fun mw => mw = pagedJsMiddleware) (middleware m).



(** A dispatch on the store of the processor, the subscriber of the
    processor then reacting to the action the store has processed. *)
Definition dispatchAndReact (clock : Clock) (action : Action) (p : RenderTaskProcessor)
    : RenderTaskProcessor :=
  match runMiddleware clock (getState (stateManager p)) action
          (middleware (stateManager p)) with
  | Thrown _ => p
  | Returned processedAction =>
      match dispatchIn clock action p with
      | (p, Thrown _) => p
      | (p, Returned tt) => fst (onAction clock processedAction p)
      end
  end.

(** A burst: styles change, then the content, 100 ms apart. *)
Definition exampleBurst : RenderTaskProcessor :=
  dispatchAndReact {| now := 1100; nonce := "b" |}
    {| type := "SET_CONTENT"; payload := JObj [("markdown", JStr "# Resume")];
       meta := JUndefined |}
    (dispatchAndReact {| now := 1000; nonce := "a" |}
       {| type := "UPDATE_STYLES"; payload := JObj [("fontSize", num 12)];
          meta := JUndefined |}
       (initPagedJsMiddleware newStateManager true)).

Definition afterDebounce : Clock := {| now := 1400; nonce := "c" |}.

(** ** Notions used in the statements about this part *)

(** The state a [PAGEDJS_STATE_CHANGE] with the fields [fields] leaves. *)
Definition pagedjsChanged (fields : list (string * JsVal)) (m : StateManager) : State :=
  {| content := content (cloneState (getState m));
     styles := styles (cloneState (getState m));
     pagedjs := spread (pagedjs (cloneState (getState m))) (JObj fields);
     ui := ui (cloneState (getState m));
     files := files (cloneState (getState m)) |}.

(** ** Notions used in the further statements about this part *)

(** What happens to a processor: an action is dispatched on its store and
    its subscriber reacts, a timer comes due, the call of the executor
    settles. *)
Inductive ProcessorEvent : Type :=
| Dispatched (clock : Clock) (action : Action)
| TimerDue (clock : Clock) (h : nat)
| ExecutorSettles (clock : Clock) (outcome : Completion unit).

Definition processorReact (p : RenderTaskProcessor) (ev : ProcessorEvent)
    : RenderTaskProcessor :=
  match ev with
  | Dispatched clock action => dispatchAndReact clock action p
  | TimerDue clock h => fst (timeoutFires clock h p)
  | ExecutorSettles clock outcome =>
      if isProcessing p then fst (executorSettled clock outcome p) else p
  end.

Definition runProcessor (evs : list ProcessorEvent) (p : RenderTaskProcessor)
    : RenderTaskProcessor :=
  fold_left processorReact evs p.

(** The timers of a processor. *)
Definition timersOf (p : RenderTaskProcessor) : option nat * list nat * nat :=
  (processingTimeout p, pendingTimeouts p, timeoutsCreated p).


(** At most one timer is pending: the one [processingTimeout] names; and
    no handle is reused. *)
Definition atMostOneTimer (p : RenderTaskProcessor) : Prop :=
  (pendingTimeouts p = [] \/
   exists h, processingTimeout p = Some h /\ pendingTimeouts p = [h]) /\
  Forall (fun h => h <= timeoutsCreated p) (pendingTimeouts p).

(** ** Further examples *)

(** Three tasks: a style task, then two content tasks. *)
Definition exampleTasks : list JsVal :=
  [ JObj [("id", JStr "render_a"); ("priority", num 3)];
    JObj [("id", JStr "render_b"); ("priority", num 1)];
    JObj [("id", JStr "render_c"); ("priority", num 1)] ].

(** A processor on a page without [window.pagedJsManager], one task
    queued. *)
Definition exampleUnready : RenderTaskProcessor :=
  dispatchAndReact {| now := 1000; nonce := "a" |} updateFontSize
    (initPagedJsMiddleware newStateManager false).

End Queue.

(* ===================================================================== *)
(** * The style controller: js/sliderController.js, class StyleController *)
(* ===================================================================== *)

Module StyleCtl.
Import Js.
Export Store.
Local Open Scope list_scope.

(** An element of the outer page, as far as the controller reads it. *)
Record Element : Type := {
  defaultValue : string;
  value : string
}.

(** One entry of [config.sliderConfig], as far as the controller reads
    it. *)
Record SliderConfig : Type := {
  id : string;
  storage : string
}.

(** The functions [queueOperation] is given: [() =>
    this.applyCSSVariable(variable, value)] and [() =>
    this.applyMultipleStyles(styles)], [styles] by its entries. *)
Inductive Operation : Type :=
| ApplyCSSVariable (variable : string) (value : JsVal)
| ApplyMultipleStyles (styles : list (string * JsVal)).

(** The controller, and what it reaches of the page it lives in. *)
#[projections(primitive)] Record StyleController : Type := {
  sliderConfig : list SliderConfig;          (* this.config.sliderConfig *)
  defaultStyles : list (string * JsVal);     (* this.defaultStyles *)
  currentStyles : list (string * JsVal);     (* this.currentStyles *)
  isStateManaged : bool;
  pendingOperations : list Operation;
  resumeState : option StateManager;         (* window.ResumeState *)
  localStorage : gmap string string;
  elements : gmap string Element;            (* document.getElementById *)
  console : list string;                     (* console.warn and console.error *)
  ticks : nat                                (* dispatches made so far *)
}.

Definition set_currentStyles v (c : StyleController) : StyleController :=
  Build_StyleController (sliderConfig c) (defaultStyles c) v (isStateManaged c)
    (pendingOperations c) (resumeState c) (localStorage c) (elements c) (console c)
    (ticks c).
Definition set_isStateManaged v (c : StyleController) : StyleController :=
  Build_StyleController (sliderConfig c) (defaultStyles c) (currentStyles c) v
    (pendingOperations c) (resumeState c) (localStorage c) (elements c) (console c)
    (ticks c).
Definition set_pendingOperations v (c : StyleController) : StyleController :=
  Build_StyleController (sliderConfig c) (defaultStyles c) (currentStyles c)
    (isStateManaged c) v (resumeState c) (localStorage c) (elements c) (console c)
    (ticks c).
Definition set_resumeState v (c : StyleController) : StyleController :=
  Build_StyleController (sliderConfig c) (defaultStyles c) (currentStyles c)
    (isStateManaged c) (pendingOperations c) v (localStorage c) (elements c) (console c)
    (ticks c).
Definition set_localStorage v (c : StyleController) : StyleController :=
  Build_StyleController (sliderConfig c) (defaultStyles c) (currentStyles c)
    (isStateManaged c) (pendingOperations c) (resumeState c) v (elements c) (console c)
    (ticks c).
Definition set_console v (c : StyleController) : StyleController :=
  Build_StyleController (sliderConfig c) (defaultStyles c) (currentStyles c)
    (isStateManaged c) (pendingOperations c) (resumeState c) (localStorage c) (elements
    c) v (ticks c).
Definition set_ticks v (c : StyleController) : StyleController :=
  Build_StyleController (sliderConfig c) (defaultStyles c) (currentStyles c)
    (isStateManaged c) (pendingOperations c) (resumeState c) (localStorage c) (elements
    c) (console c) v.

(** [new StyleController(config)], up to the [await] of [init()]. *)
Definition newStyleController (cfg : list SliderConfig) (defaults : list (string * JsVal))
    (window : option StateManager) (storage : gmap string string)
    (document : gmap string Element) : StyleController :=
  {| sliderConfig := cfg; defaultStyles := defaults; currentStyles := [];
     isStateManaged := false; pendingOperations := []; resumeState := window;
     localStorage := storage; elements := document; console := []; ticks := 0 |}.

(** ** Persisted slider values *)

(** [get(key, fallback)]: [localStorage.getItem(key) || fallback]. *)
Definition get (key : string) (fallback : JsVal) (c : StyleController) : JsVal :=
  match localStorage c !! key with
  | None | Some "" => fallback
  | Some v => JStr v
  end.

(** [set(key, value)]. *)
Definition set (key value : string) (c : StyleController) : StyleController :=
  set_localStorage (<[key := value]> (localStorage c)) c.

(** [getAllDefaults()]: the object it returns, by its entries. *)
Definition getAllDefaults (c : StyleController) : list (string * JsVal) :=
  fold_left
    (fun defaults cfg =>
       let defaultValue :=
         match elements c !! id cfg with
         | Some element =>
             JStr (if String.eqb (defaultValue element) "" then value element
                   else defaultValue element)
         | None => getField (id cfg) (defaultStyles c)
         end in
       setField (id cfg) (get (storage cfg) defaultValue c) defaults)
    (sliderConfig c) [].

(** [setAllDefaults()]. *)
Definition setAllDefaults (c : StyleController) : StyleController :=
  fold_left
    (fun c cfg =>
       match elements c !! id cfg with
       | Some element => set (storage cfg) (value element) c
       | None => c
       end)
    (sliderConfig c) c.

(** ** Applying styles through the store *)

(** [queueOperation(description, fn)]. *)
Definition queueOperation (description : string) (fn : Operation) (c : StyleController)
    : StyleController :=
  set_pendingOperations (pendingOperations c ++ [fn])
    (set_console
       (console c ++ ["ResumeState not ready, queue operation: " +:+ description]) c).

(** [{ type: 'SET_STYLES', payload: { [variable]: value, source:
    'styleController' } }]. *)
Definition setStylesAction (variable : string) (value : JsVal) : Action :=
  {| type := "SET_STYLES";
     payload := JObj (setField "source" (JStr "styleController") [(variable, value)]);
     meta := JUndefined |}.

(** [window.ResumeState.dispatch({...}); this.currentStyles[variable] =
    value], the dispatch being the [ticks]-th of the page and [clocks]
    giving the time of each. *)
Definition dispatchStyle (clocks : nat -> Clock) (variable : string) (value : JsVal)
    : Exc StyleController unit :=
  fun c =>
    match resumeState c with
    | None => (c, Thrown typeError)
    | Some m =>
        match dispatch (clocks (ticks c)) (setStylesAction variable value) m with
        | (m', Returned _) =>
            (set_currentStyles (setField variable value (currentStyles c))
               (set_ticks (S (ticks c)) (set_resumeState (Some m') c)),
             Returned tt)
        | (m', Thrown e) =>
            (set_ticks (S (ticks c)) (set_resumeState (Some m') c), Thrown e)
        end
    end.

Definition managedResult (variable : string) (value : JsVal) : JsVal :=
  JObj [("success", JBool true); ("variable", JStr variable); ("value", value);
        ("method", JStr "state-managed")].

(** [applyCSSVariable(variable, value)]. *)
Definition applyCSSVariable (clocks : nat -> Clock) (variable : string) (value : JsVal)
    (c : StyleController) : StyleController * Completion JsVal :=
  if negb (isStateManaged c) then
    (queueOperation ("apply " +:+ variable) (ApplyCSSVariable variable value) c,
     Returned (JObj [("success", JBool false); ("pending", JBool true);
                     ("variable", JStr variable); ("value", value)]))
  else
    match dispatchStyle clocks variable value c with
    | (c, Thrown e) => (c, Thrown e)
    | (c, Returned tt) => (c, Returned (managedResult variable value))
    end.

(** The [forEach] of [applyMultipleStyles] over the entries left. *)
Fixpoint applyEntries (clocks : nat -> Clock) (entries : list (string * JsVal))
    (results : list JsVal) (c : StyleController)
    : StyleController * Completion (list JsVal) :=
  match entries with
  | [] => (c, Returned results)
  | (variable, value) :: rest =>
      match dispatchStyle clocks variable value c with
      | (c, Thrown e) => (c, Thrown e)
      | (c, Returned tt) =>
          applyEntries clocks rest (results ++ [managedResult variable value]) c
      end
  end.

(** [applyMultipleStyles(styles)], [styles] by its entries. *)
Definition applyMultipleStyles (clocks : nat -> Clock) (styles : list (string * JsVal))
    (c : StyleController) : StyleController * Completion JsVal :=
  if negb (isStateManaged c) then
    (queueOperation "apply multiple styles" (ApplyMultipleStyles styles) c,
     Returned (JArr []))
  else
    match applyEntries clocks styles [] c with
    | (c, Thrown e) => (c, Thrown e)
    | (c, Returned results) => (c, Returned (JArr results))
    end.

(** A call [operation()] of a queued function. *)
Definition runOperation (clocks : nat -> Clock) (operation : Operation)
    (c : StyleController) : StyleController * Completion JsVal :=
  match operation with
  | ApplyCSSVariable variable value => applyCSSVariable clocks variable value c
  | ApplyMultipleStyles styles => applyMultipleStyles clocks styles c
  end.

(** The [while (this.pendingOperations.length > 0)] loop of
    [flushPendingOperations]; [fuel] bounds its iterations. *)
Fixpoint flushLoop (clocks : nat -> Clock) (fuel : nat) (c : StyleController)
    : StyleController :=
  match fuel with
  | O => c
  | S fuel' =>
      match pendingOperations c with
      | [] => c
      | operation :: rest =>
          let c := set_pendingOperations rest c in      (* shift() *)
          let c :=
            match runOperation clocks operation c with
            | (c, Returned _) => c
            | (c, Thrown e) =>
                set_console (console c ++ ["queued operation failed: " +:+ e]) c
            end in
          flushLoop clocks fuel' c
      end
  end.

(** [flushPendingOperations()]: a queued function that runs while the
    controller is state managed queues nothing, so that the loop makes as
    many iterations as functions were queued. *)
Definition flushPendingOperations (clocks : nat -> Clock) (c : StyleController)
    : StyleController :=
  if negb (isStateManaged c) then c
  else flushLoop clocks (length (pendingOperations c)) c.

(** [init()] from its [await] on: [waitForStateManager()] resolves once
    [window.ResumeState] is defined. *)
Definition stateManagerFound (clocks : nat -> Clock) (c : StyleController)
    : StyleController :=
  match resumeState c with
  | None => c
  | Some _ => flushPendingOperations clocks (set_isStateManaged true c)
  end.

(** [getCurrentStyles()]. *)
Definition getCurrentStyles (c : StyleController) : JsVal := JObj (currentStyles c).

(** ** Notions used in the statements about this part *)

(** The call a caller makes to have [operation] done. *)
Definition request (clocks : nat -> Clock) (c : StyleController) (operation : Operation)
    : StyleController :=
  fst (runOperation clocks operation c).

(** What the store, the cache and the count of dispatches are. *)
Definition reached (c : StyleController)
    : option StateManager * list (string * JsVal) * nat :=
  (resumeState c, currentStyles c, ticks c).

(** ** Examples *)

(** A controller on a page that has the store and the font slider, the
    slider moved from 9 to 12. *)
Definition exampleStyleController : StyleController :=
  newStyleController
    [ {| id := "fontSlider"; storage := "defaultFontSize" |};
      {| id := "marginSlider"; storage := "defaultMargin" |} ]
    [("fontSize", num 9)]
    (Some newStateManager) ∅
    {[ "fontSlider" := {| defaultValue := "9"; value := "12" |} ]}.

Definition exampleOperations : list Operation :=
  [ ApplyCSSVariable "--body-font-size" (JStr "12pt");
    ApplyMultipleStyles [("--page-margin", JStr "10mm"); ("--line-height", num 1)] ].

End StyleCtl.

(* ===================================================================== *)
(** * Booting the shared store: js/controller.js, bootResumeState *)
(* ===================================================================== *)

Module Boot.
Import Js.
Export Store.
Local Open Scope list_scope.

(** What the page has loaded besides this file. *)
Record Scripts : Type := {
  (** [typeof window !== 'undefined'] *)
  inBrowser : bool;
  (** [typeof createPagedJsMiddleware === 'function'] *)
  middlewareLoaded : bool;
  (** how the call [initDOMUpdater()] completes, [None] when it is not a
      function *)
  initDOMUpdater : option (Completion unit)
}.

(** The warnings and errors the function writes to the console. *)
Inductive BootLog : Type :=
| OutsideBrowser                      (* called outside of a browser *)
| MiddlewareNotLoaded                 (* createPagedJsMiddleware is missing *)
| DomUpdaterFailed (error : string)   (* initDOMUpdater threw *)
| DomUpdaterNotLoaded.                (* initDOMUpdater is missing *)

(** [window.ResumeState] (when it is an instance of the store) and
    [resumeStateBootStatus]. *)
Record Page : Type := {
  windowResumeState : option StateManager;
  middlewareAttached : bool;
  domUpdaterInitialized : bool;
  domUpdaterCalls : nat;                  (* calls of [initDOMUpdater] so far *)
  bootConsole : list BootLog              (* console.warn and console.error *)
}.

(** The options of a call, [context] apart. *)
Record Options : Type := {
  attachMiddleware : bool;
  initializeDomUpdater : bool
}.

(** The object returned, its promise and instance id apart. *)
Record BootInfo : Type := {
  bootState : option StateManager;
  created : bool;
  infoMiddlewareAttached : option bool;
  infoDomUpdaterInitialized : option bool
}.

(** The page before any call. *)
Definition freshPage : Page :=
  {| windowResumeState := None; middlewareAttached := false;
     domUpdaterInitialized := false; domUpdaterCalls := 0; bootConsole := [] |}.

(** [bootResumeState(options)]. *)
Definition bootResumeState (scripts : Scripts) (options : Options) (page : Page)
    : Page * BootInfo :=
  if negb (inBrowser scripts) then
    ({| windowResumeState := windowResumeState page;
        middlewareAttached := middlewareAttached page;
        domUpdaterInitialized := domUpdaterInitialized page;
        domUpdaterCalls := domUpdaterCalls page;
        bootConsole := bootConsole page ++ [OutsideBrowser] |},
     {| bootState := None; created := false; infoMiddlewareAttached := None;
        infoDomUpdaterInitialized := None |})
  else
    let '(state, isNew) :=
      match windowResumeState page with
      | Some m => (m, false)
      | None => (newStateManager, true)
      end in
    (* if (attachMiddleware) *)
    let '(state, attached, console) :=
      if attachMiddleware options then
        if middlewareLoaded scripts then
          if negb (middlewareAttached page)
          then (use Queue.pagedJsMiddleware state, true, bootConsole page)
          else (state, middlewareAttached page, bootConsole page)
        else (state, middlewareAttached page,
              bootConsole page ++ [MiddlewareNotLoaded])
      else (state, middlewareAttached page, bootConsole page) in
    (* if (initializeDomUpdater) *)
    let '(initialized, calls, console) :=
      if initializeDomUpdater options then
        match initDOMUpdater scripts with
        | Some completion =>
            if negb (domUpdaterInitialized page) then
              match completion with
              | Returned tt => (true, S (domUpdaterCalls page), console)
              | Thrown e =>
                  (domUpdaterInitialized page, S (domUpdaterCalls page),
                   console ++ [DomUpdaterFailed e])
              end
            else (domUpdaterInitialized page, domUpdaterCalls page, console)
        | None =>
            (domUpdaterInitialized page, domUpdaterCalls page,
             console ++ [DomUpdaterNotLoaded])
        end
      else (domUpdaterInitialized page, domUpdaterCalls page, console) in
    ({| windowResumeState := Some state; middlewareAttached := attached;
        domUpdaterInitialized := initialized; domUpdaterCalls := calls;
        bootConsole := console |},
     {| bootState := Some state; created := isNew;
        infoMiddlewareAttached := Some attached;
        infoDomUpdaterInitialized := Some initialized |}).

(** ** Notions used in the statements about this part *)

(** Calls one after the other. *)
Definition bootAll (scripts : Scripts) (calls : list Options) (page : Page) : Page :=
  fold_left (fun page options => fst (bootResumeState scripts options page)) calls page.

(** ** Examples *)

(** A page that has loaded the middleware and the DOM updater. *)
Definition exampleScripts : Scripts :=
  {| inBrowser := true; middlewareLoaded := true;
     initDOMUpdater := Some (Returned tt) |}.

(** The calls of the outer page and of a second script. *)
Definition exampleCalls : list Options :=
  [ {| attachMiddleware := true; initializeDomUpdater := true |};
    {| attachMiddleware := true; initializeDomUpdater := false |} ].

End Boot.

(* ===================================================================== *)
(** * Properties of the render context *)
(* ===================================================================== *)

Import Js Renderer.

(** An equation between closed terms, checked by evaluation. *)
Ltac by_computation :=
  match goal with
  | |- ?a = ?b => vm_cast_no_check (@eq_refl _ b)
  end.

Lemma Qltb_lt (x y : Q) : Qltb x y = true <-> (x < y)%Q.
Proof.
  unfold Qltb. rewrite negb_true_iff. split.
  - intros H. apply Qnot_le_lt. intros Hle.
    apply Qle_bool_iff in Hle. congruence.
  - intros H. destruct (Qle_bool y x) eqn:E; [|reflexivity].
    apply Qle_bool_iff in E. exfalso. apply (Qlt_not_le _ _ H E).
Qed.

Lemma Qltb_ge (x y : Q) : Qltb x y = false <-> (y <= x)%Q.
Proof.
  unfold Qltb. rewrite negb_false_iff. apply Qle_bool_iff.
Qed.

Lemma finallyBlock_no_pending (k : World -> Styles -> World) w :
  pendingRenderRequest w = None ->
  finallyBlock k w = (set_isRendering false w, Returned tt).
Proof. intros H. unfold finallyBlock. cbn in *. rewrite H. reflexivity. Qed.

Lemma finallyBlock_pending (k : World -> Styles -> World) w next :
  pendingRenderRequest w = Some next ->
  finallyBlock k w =
  (k (set_pendingRenderRequest None (set_isRendering false w)) next, Returned tt).
Proof. intros H. unfold finallyBlock. cbn in *. rewrite H. reflexivity. Qed.

Lemma passStarted_pending w s :
  pendingRenderRequest (passStarted w s) = pendingRenderRequest w.
Proof. reflexivity. Qed.

Lemma handlePagedRender_with_locked k env w s :
  isRendering w = true ->
  handlePagedRender_with k env w s =
  (set_pendingRenderRequest (Some (assign (currentStyles w) s))
     (set_currentStyles (assign (currentStyles w) s) w), Queued).
Proof. intros H. unfold handlePagedRender_with. cbn in *. rewrite H. reflexivity. Qed.

Lemma handlePagedRender_with_async k env w s :
  isRendering w = false ->
  pagedAvailable env = true ->
  handlePagedRender_with k env w s = (passStarted w s, Suspended).
Proof.
  intros H Hp. unfold handlePagedRender_with. cbn in *.
  rewrite H, Hp. reflexivity.
Qed.

Lemma handlePagedRender_with_sync k env w s :
  isRendering w = false ->
  pagedAvailable env = false ->
  handlePagedRender_with k env w s =
  (fst (finallyBlock k
          (fst (afterPreview
                  (consoleError "[Renderer] Paged.js not found" (passStarted w s))))),
   Settled (Returned tt)).
Proof.
  intros H Hp.
  unfold handlePagedRender_with, passStarted, tryCatchFinally, afterPreview, finallyBlock.
  cbn in *. rewrite H, Hp.
  destruct (pendingRenderRequest w); reflexivity.
Qed.

(** A call that finds the lock free and the slot empty never reaches its
    recursive call. *)
Lemma handlePagedRender_with_free (k1 k2 : World -> Styles -> World) env w s :
  isRendering w = false ->
  pendingRenderRequest w = None ->
  handlePagedRender_with k1 env w s = handlePagedRender_with k2 env w s.
Proof.
  intros Hr Hp. destruct (pagedAvailable env) eqn:Ha.
  - rewrite !handlePagedRender_with_async by assumption. reflexivity.
  - rewrite !handlePagedRender_with_sync by assumption.
    rewrite !finallyBlock_no_pending by exact Hp. reflexivity.
Qed.

(** [handlePagedRender] satisfies the recursive equation of the source. *)
Lemma handlePagedRender_unfold env w s :
  handlePagedRender env w s =
  handlePagedRender_with (fun w s => fst (handlePagedRender env w s)) env w s.
Proof.
  unfold handlePagedRender at 1.
  destruct (isRendering w) eqn:Hr.
  - rewrite !handlePagedRender_with_locked by assumption. reflexivity.
  - destruct (pagedAvailable env) eqn:Ha.
    + rewrite !handlePagedRender_with_async by assumption. reflexivity.
    + rewrite !handlePagedRender_with_sync by assumption.
      destruct (pendingRenderRequest w) as [next|] eqn:Hp.
      * rewrite !(finallyBlock_pending _ _ next) by exact Hp.
        cbn [fst]. unfold handlePagedRender.
        rewrite (handlePagedRender_with_free (fun w _ => w)
                   (fun w s => fst (handlePagedRender_with (fun w _ => w) env w s)))
          by reflexivity.
        reflexivity.
      * rewrite !finallyBlock_no_pending by exact Hp. reflexivity.
Qed.

Lemma handlePagedRender_locked env w s :
  isRendering w = true ->
  handlePagedRender env w s =
  (set_pendingRenderRequest (Some (assign (currentStyles w) s))
     (set_currentStyles (assign (currentStyles w) s) w), Queued).
Proof. apply handlePagedRender_with_locked. Qed.

Lemma handlePagedRender_async env w s :
  isRendering w = false ->
  pagedAvailable env = true ->
  handlePagedRender env w s = (passStarted w s, Suspended).
Proof. apply handlePagedRender_with_async. Qed.

Lemma handlePagedRender_sync env w s :
  isRendering w = false ->
  pendingRenderRequest w = None ->
  pagedAvailable env = false ->
  handlePagedRender env w s =
  (set_isRendering false
     (fst (afterPreview (consoleError "[Renderer] Paged.js not found" (passStarted w s)))),
   Settled (Returned tt)).
Proof.
  intros Hr Hp Ha. unfold handlePagedRender.
  rewrite handlePagedRender_with_sync by assumption.
  rewrite finallyBlock_no_pending by exact Hp. reflexivity.
Qed.

Lemma previewSettled_throws_eq env e w :
  previewSettled env (PreviewThrows e) w =
  (match pendingRenderRequest w with
   | None => set_isRendering false (rolledBack e w)
   | Some next =>
       fst (handlePagedRender env
              (set_pendingRenderRequest None (set_isRendering false (rolledBack e w)))
              next)
   end, Returned tt).
Proof.
  unfold previewSettled, tryCatchFinally, previewThen, catchBlock, finallyBlock, rolledBack.
  cbn. destruct (pendingRenderRequest w); reflexivity.
Qed.

Lemma previewSettled_done_eq env l w :
  previewSettled env (PreviewDone l) w =
  (match pendingRenderRequest w with
   | None => set_isRendering false (rendered l w)
   | Some next =>
       fst (handlePagedRender env
              (set_pendingRenderRequest None (set_isRendering false (rendered l w)))
              next)
   end, Returned tt).
Proof.
  unfold previewSettled, tryCatchFinally, previewThen, afterPreview, finallyBlock, rendered.
  cbn. destruct (pendingRenderRequest w); reflexivity.
Qed.

(** ** The lock and the pending slot *)


Lemma passesStarted_passStarted w s :
  passesStarted (passStarted w s) = S (passesStarted w).
Proof.
  unfold passesStarted, passStarted. cbn.
  rewrite count_occ_app. cbn. lia.
Qed.

Lemma passesStarted_rendered l w : passesStarted (rendered l w) = passesStarted w.
Proof.
  unfold passesStarted, rendered, afterPreview. cbn.
  rewrite <- !app_assoc, count_occ_app. cbn. lia.
Qed.

Lemma passesStarted_rolledBack e w : passesStarted (rolledBack e w) = passesStarted w.
Proof. reflexivity. Qed.

Lemma previewSettled_eq env outcome w :
  previewSettled env outcome w =
  (match pendingRenderRequest w with
   | None => set_isRendering false (settledBody outcome w)
   | Some next =>
       fst (handlePagedRender env
              (set_pendingRenderRequest None
                 (set_isRendering false (settledBody outcome w))) next)
   end, Returned tt).
Proof.
  destruct outcome; [apply previewSettled_done_eq | apply previewSettled_throws_eq].
Qed.

Lemma passesStarted_settledBody outcome w :
  passesStarted (settledBody outcome w) = passesStarted w.
Proof.
  destruct outcome; [apply passesStarted_rendered | apply passesStarted_rolledBack].
Qed.

Lemma settledBody_frame outcome w :
  currentStyles (settledBody outcome w) = currentStyles w /\
  rootStyle (settledBody outcome w) = rootStyle w /\
  pendingRenderRequest (settledBody outcome w) = pendingRenderRequest w /\
  isRendering (settledBody outcome w) = isRendering w /\
  originalBody (settledBody outcome w) = originalBody w /\
  originalHead (settledBody outcome w) = originalHead w.
Proof. destruct outcome; repeat split; reflexivity. Qed.

Lemma assign_idemp (m : Styles) : assign m m = m.
Proof. unfold assign. apply (map_union_idemp m). Qed.

Lemma passStarted_styles w s :
  currentStyles (passStarted w s) = assign (currentStyles w) s /\
  rootStyle (passStarted w s) = assign (rootStyle w) (assign (currentStyles w) s).
Proof.
  unfold passStarted, handleStyleUpdate, ensureA4PageRule. cbn -[assign].
  rewrite assign_idemp. split; reflexivity.
Qed.

(** A call on a free lock with an empty slot: the pass it starts. *)
Lemma handlePagedRender_free env w s :
  isRendering w = false ->
  pendingRenderRequest w = None ->
  let w' := fst (handlePagedRender env w s) in
  passesStarted w' = S (passesStarted w) /\
  pendingRenderRequest w' = None /\
  isRendering w' = pagedAvailable env /\
  currentStyles w' = assign (currentStyles w) s /\
  rootStyle w' = assign (rootStyle w) (assign (currentStyles w) s).
Proof.
  intros Hr Hp. destruct (pagedAvailable env) eqn:Ha; cbn zeta.
  - rewrite handlePagedRender_async by assumption. cbn [fst].
    split; [apply passesStarted_passStarted|].
    destruct (passStarted_styles w s) as [Hc Hs].
    repeat split; try assumption.
  - rewrite handlePagedRender_sync by assumption. cbn [fst].
    destruct (passStarted_styles w s) as [Hc Hs].
    split.
    + unfold passesStarted, afterPreview. cbn.
      rewrite <- !app_assoc, !count_occ_app. cbn. lia.
    + repeat split; try assumption.
Qed.


(** ** A failing oracle *)

(** C4 (amended). If [previewer.preview()] throws, [handlePagedRender]
    catches the exception: the call completes normally (nothing is re-thrown),
    the error goes to the console only, the body and the head are restored
    from the baseline, no status message is posted and the style state is
    untouched; the lock is released, and a pending request, if there is one,
    is then started on the released state. *)
Theorem render_failure_rolls_back_and_releases env e w :
  snd (previewSettled env (PreviewThrows e) w) = Returned tt /\
  exists released : World,
    isRendering released = false /\
    pendingRenderRequest released = None /\
    body released = originalBody w /\
    head released = originalHead w /\
    consoleErrors released =
      (consoleErrors w ++ ["[Renderer] Rendering failed " +:+ e])%list /\
    toParent released = toParent w /\
    currentStyles released = currentStyles w /\
    rootStyle released = rootStyle w /\
    fst (previewSettled env (PreviewThrows e) w) =
      match pendingRenderRequest w with
      | None => released
      | Some next => fst (handlePagedRender env released next)
      end.
Proof.
  rewrite previewSettled_throws_eq. split; [reflexivity|].
  exists (set_pendingRenderRequest None (set_isRendering false (rolledBack e w))).
  repeat split.
  cbn [fst]. destruct (pendingRenderRequest w) eqn:Hp; [reflexivity|].
  unfold rolledBack, consoleError. cbn.
  destruct w; cbn in *. rewrite Hp. reflexivity.
Qed.

(** ** Direction of the auto-fit *)

Lemma jsLt_finite q t : jsLt (Finite q) t = true <-> (q < t)%Q.
Proof. apply Qltb_lt. Qed.

Lemma fitToOnePage_result env w :
  exists r,
    autoFitResult (fitToOnePage env w) = Some r /\
    direction r = chooseDirection (getPageCount w) (checkContentFill w).
Proof.
  unfold fitToOnePage.
  change (getPageCount (set_isAutoFitting true w)) with (getPageCount w).
  change (checkContentFill (set_isAutoFitting true w)) with (checkContentFill w).
  destruct (direction_eqb _ DirShrink);
    [destruct (shrinkLoop _ _ _ _ _) as [[w1 p1] i1] | ];
    (destruct (direction_eqb _ DirExpand);
     [destruct (expandLoop _ _ _ _ _) as [[w2 p2] i2] | ]);
    eexists; split; reflexivity.
Qed.

(** C5. The direction recorded by [fitToOnePage] is [shrink] exactly when the
    page count it first reads exceeds 1, [expand] exactly when that count is
    1 and the measured fill ratio (content height over available height) is
    below 0.85, and [none] in every other case. *)
Theorem autofit_direction_selection env w :
  exists r,
    autoFitResult (fitToOnePage env w) = Some r /\
    (direction r = DirShrink <-> 1 < getPageCount w) /\
    (direction r = DirExpand <->
       getPageCount w = 1 /\
       exists fillRatio, measuredFillRatio w = Some fillRatio /\
                         jsLt fillRatio (85 # 100) = true) /\
    (direction r = DirNone <->
       ~ 1 < getPageCount w /\
       ~ (getPageCount w = 1 /\
          exists fillRatio, measuredFillRatio w = Some fillRatio /\
                            jsLt fillRatio (85 # 100) = true)).
Proof.
  destruct (fitToOnePage_result env w) as (r & Hr & Hd).
  exists r. split; [exact Hr|]. rewrite Hd. clear Hr Hd r.
  unfold chooseDirection, checkContentFill.
  destruct (Nat.ltb_spec 1 (getPageCount w)) as [Hlt|Hge].
  - split; [tauto|]. split; (split; [discriminate|]); intros H; exfalso; lia.
  - destruct (Nat.eqb_spec (getPageCount w) 1) as [He|Hne]; cbn [andb].
    + destruct (measuredFillRatio w) as [f|] eqn:Hm; cbn [isSparse].
      * destruct (jsLt f (85 # 100)) eqn:Hj.
        -- split; [split; [discriminate | lia]|].
           split; [split; [eauto | reflexivity]|].
           split; [discriminate|]. intros [_ H]. exfalso. apply H. eauto.
        -- split; [split; [discriminate | lia]|].
           split.
           ++ split; [discriminate|]. intros [_ (f' & Hf & Hj')].
              congruence.
           ++ split; [|reflexivity]. intros _. split; [lia|].
              intros [_ (f' & Hf & Hj')]. congruence.
      * split; [split; [discriminate | lia]|].
        split.
        -- split; [discriminate|]. intros [_ (f' & Hf & _)]. discriminate.
        -- split; [|reflexivity]. intros _. split; [lia|].
           intros [_ (f' & Hf & _)]. discriminate.
    + split; [split; [discriminate | lia]|].
      split; [split; [discriminate | tauto]|].
      split; [|reflexivity]. intros _. split; [lia | tauto].
Qed.

(** ** One render pass awaited by the auto-fit *)

Lemma passStarted_self w :
  body (passStarted w (currentStyles w)) = passBody w /\
  head (passStarted w (currentStyles w)) = passHead w /\
  rootStyle (passStarted w (currentStyles w)) = passRoot w /\
  currentStyles (passStarted w (currentStyles w)) = currentStyles w.
Proof.
  unfold passStarted, passBody, passHead, passRoot, handleStyleUpdate, ensureA4PageRule.
  cbn -[assign]. rewrite !assign_idemp. repeat split; reflexivity.
Qed.

Lemma renderAndCount_free env w :
  isRendering w = false ->
  pendingRenderRequest w = None ->
  let w' := fst (renderAndCount env w) in
  snd (renderAndCount env w) = getPageCount w' /\
  getPageCount w' = countAfterPass env w /\
  isRendering w' = false /\
  pendingRenderRequest w' = None /\
  passesStarted w' = S (passesStarted w) /\
  currentStyles w' = currentStyles w /\
  rootStyle w' = passRoot w /\
  originalBody w' = originalBody w /\
  originalHead w' = originalHead w.
Proof.
  intros Hr Hp. unfold renderAndCount, countAfterPass.
  destruct (passStarted_self w) as (Hb & Hh & Hs & Hc).
  destruct (pagedAvailable env) eqn:Ha.
  - rewrite handlePagedRender_async by assumption.
    cbn [fst snd]. rewrite previewSettled_eq.
    change (pendingRenderRequest (passStarted w (currentStyles w)))
      with (pendingRenderRequest w).
    rewrite Hp. cbn [fst]. rewrite Hb, Hh, Hs.
    set (o := preview env (passBody w) (passHead w) (passRoot w)).
    destruct (settledBody_frame o (passStarted w (currentStyles w)))
      as (F1 & F2 & F3 & F4 & F5 & F6).
    split; [reflexivity|].
    split; [destruct o; reflexivity|].
    split; [reflexivity|].
    split; [exact (eq_trans F3 Hp)|].
    split.
    { exact (eq_trans (passesStarted_settledBody o _) (passesStarted_passStarted w _)). }
    split; [exact (eq_trans F1 Hc)|].
    split; [exact (eq_trans F2 Hs)|].
    split; [exact F5 | exact F6].
  - rewrite handlePagedRender_sync by assumption.
    cbn [fst snd].
    split; [reflexivity|].
    split; [unfold getPageCount, pagesOf, afterPreview; cbn; rewrite <- Hb; reflexivity|].
    split; [reflexivity|].
    split; [exact Hp|].
    split.
    { unfold passesStarted, afterPreview. cbn.
      rewrite <- !app_assoc, !count_occ_app. cbn. lia. }
    split; [exact Hc|].
    split; [exact Hs|].
    split; reflexivity.
Qed.

(** ** Steps of the auto-fit *)



(** The strategy a shrink step takes is the first one, in the order of the
    table, that has room. *)
Lemma applyShrinkStepFrom_Some strats w w' :
  applyShrinkStepFrom strats w = Some w' ->
  exists pre strat post val,
    strats = (pre ++ strat :: post)%list /\
    Forall (fun s => shrinkable s w = None) pre /\
    shrinkable strat w = Some val /\
    w' = handleStyleUpdate {[ cssVar strat := CssNum (shrunk strat val) (sUnit strat) ]} w.
Proof.
  induction strats as [|s rest IH]; cbn; [discriminate|].
  destruct (shrinkable s w) as [val|] eqn:E.
  - intros [= <-]. exists [], s, rest, val. repeat split; auto.
  - intros H. destruct (IH H) as (pre & strat & post & val & -> & Hpre & Hs & Hw).
    exists (s :: pre), strat, post, val. repeat split; auto.
Qed.


Lemma applyExpandStepFrom_Some strats w r :
  applyExpandStepFrom strats w = Some r ->
  exists pre strat post val,
    strats = (pre ++ strat :: post)%list /\
    Forall (fun s => expandable s w = None) pre /\
    expandable strat w = Some val /\
    r = (handleStyleUpdate
           {[ cssVar strat := CssNum (expanded strat val) (sUnit strat) ]} w,
         (strat, val)).
Proof.
  induction strats as [|s rest IH]; cbn; [discriminate|].
  destruct (expandable s w) as [val|] eqn:E.
  - intros [= <-]. exists [], s, rest, val. repeat split; auto.
  - intros H. destruct (IH H) as (pre & strat & post & val & -> & Hpre & Hs & Hw).
    exists (s :: pre), strat, post, val. repeat split; auto.
Qed.

Lemma applyExpandStepFrom_None strats w :
  applyExpandStepFrom strats w = None <->
  Forall (fun s => expandable s w = None) strats.
Proof.
  induction strats as [|s rest IH]; cbn.
  - split; auto.
  - destruct (expandable s w) eqn:E.
    + split; [discriminate|]. intros H. inversion H; congruence.
    + rewrite IH. split; [auto|]. intros H. inversion H; auto.
Qed.



Lemma handleStyleUpdate_single_cache x v w y :
  currentStyles (handleStyleUpdate {[ x := v ]} w) !! y =
  if decide (x = y) then Some v else currentStyles w !! y.
Proof.
  unfold handleStyleUpdate, assign. cbn.
  destruct (decide (x = y)) as [->|Hne].
  - apply lookup_union_Some_l. apply lookup_singleton_eq.
  - rewrite lookup_union_r; [reflexivity|]. apply lookup_singleton_ne. exact Hne.
Qed.

(** ** Rounding to two decimals *)






(** ** Parameters and strategies *)







(** ** The shrink loop *)

Lemma handleStyleUpdate_frame styles w :
  isRendering (handleStyleUpdate styles w) = isRendering w /\
  pendingRenderRequest (handleStyleUpdate styles w) = pendingRenderRequest w /\
  passesStarted (handleStyleUpdate styles w) = passesStarted w /\
  originalBody (handleStyleUpdate styles w) = originalBody w /\
  originalHead (handleStyleUpdate styles w) = originalHead w /\
  body (handleStyleUpdate styles w) = body w /\
  head (handleStyleUpdate styles w) = head w.
Proof. repeat split; reflexivity. Qed.

Lemma applyShrinkStep_frame env w w1 :
  applyShrinkStep env w = Some w1 ->
  isRendering w1 = isRendering w /\
  pendingRenderRequest w1 = pendingRenderRequest w /\
  passesStarted w1 = passesStarted w.
Proof.
  intros H. apply applyShrinkStepFrom_Some in H.
  destruct H as (pre & s & post & val & _ & _ & _ & ->).
  repeat split; reflexivity.
Qed.

Lemma shrinkLoop_spec env fuel : forall w pageCount iteration,
  isRendering w = false ->
  pendingRenderRequest w = None ->
  forall w' pageCount' iteration',
  shrinkLoop env fuel w pageCount iteration = (w', pageCount', iteration') ->
  iteration <= iteration' /\
  (iteration <= maxIterations -> iteration' <= maxIterations) /\
  passesStarted w' = passesStarted w + (iteration' - iteration) /\
  isRendering w' = false /\
  pendingRenderRequest w' = None /\
  (iteration < iteration' -> pageCount' = getPageCount w') /\
  (iteration' = iteration -> w' = w /\ pageCount' = pageCount) /\
  (maxIterations <= fuel + iteration ->
   pageCount' <= 1 \/ applyShrinkStep env w' = None \/ maxIterations <= iteration').
Proof.
  induction fuel as [|fuel IH]; intros w pc it Hr Hp w' pc' it'; cbn [shrinkLoop].
  - intros [= <- <- <-].
    repeat split; try lia; try assumption.
  - destruct ((1 <? pc)%nat && (it <? maxIterations)%nat) eqn:C.
    + apply andb_true_iff in C. destruct C as [C1 C2].
      apply Nat.ltb_lt in C1, C2.
      destruct (applyShrinkStep env w) as [w1|] eqn:E.
      * destruct (applyShrinkStep_frame env w w1 E) as (F1 & F2 & F3).
        destruct (renderAndCount env w1) as [w2 pc2] eqn:R.
        pose proof (renderAndCount_free env w1 (eq_trans F1 Hr) (eq_trans F2 Hp)) as HR.
        rewrite R in HR. cbn [fst snd] in HR.
        destruct HR as (R1 & R2 & R3 & R4 & R5 & _).
        intros Hloop.
        destruct (IH w2 pc2 (S it) R3 R4 w' pc' it' Hloop)
          as (I1 & I2 & I3 & I4 & I5 & I6 & I7 & I8).
        split; [lia|]. split; [lia|].
        split; [rewrite I3, R5, F3; lia|].
        split; [exact I4|]. split; [exact I5|].
        split.
        { intros _. destruct (Nat.eq_dec it' (S it)) as [Eq|Ne].
          - destruct (I7 Eq) as [-> ->]. exact R1.
          - apply I6. lia. }
        split; [intros Eq; lia|].
        intros Hf. apply I8. lia.
      * intros [= <- <- <-].
        repeat split; try lia; try assumption.
        intros _. right. left. exact E.
    + intros [= <- <- <-].
      repeat split; try lia; try assumption.
      intros _. apply andb_false_iff in C. destruct C as [C|C].
      * left. apply Nat.ltb_ge in C. exact C.
      * right. right. apply Nat.ltb_ge in C. exact C.
Qed.


(** ** The expand loop *)






(** ** The examples *)


(** C4, as stated, fails: the exception of the oracle is not re-thrown,
    the call completes normally, and nothing is posted to the parent. *)
Lemma render_failure_counterexample :
  ~ spec_rethrows (exampleEnv 9 1) "layout failed" (exampleLoaded 9 1) /\
  snd (previewSettled (exampleEnv 9 1) (PreviewThrows "layout failed")
         (exampleLoaded 9 1)) = Returned tt /\
  toParent (fst (previewSettled (exampleEnv 9 1) (PreviewThrows "layout failed")
                   (exampleLoaded 9 1))) = toParent (exampleLoaded 9 1).
Proof.
  unfold spec_rethrows. rewrite previewSettled_throws_eq.
  split; [cbn [snd]; discriminate|].
  split; [reflexivity|]. by_computation.
Qed.



(* ===================================================================== *)
(** * The handshake *)
(* ===================================================================== *)

Lemma sameHandshake_refl w : sameHandshake w w.
Proof. repeat split. Qed.

Lemma sameHandshake_trans w1 w2 w3 :
  sameHandshake w1 w2 -> sameHandshake w2 w3 -> sameHandshake w1 w3.
Proof.
  intros (A1 & A2 & A3) (B1 & B2 & B3). repeat split; congruence.
Qed.

Lemma readySent_post m w :
  m <> READY -> readySent (postToParent m w) = readySent w.
Proof.
  intros H. unfold readySent, postToParent. cbn.
  rewrite count_occ_app. cbn. destruct (ParentMsg_eq_dec m READY); [contradiction | lia].
Qed.

Lemma sameHandshake_post m w : m <> READY -> sameHandshake w (postToParent m w).
Proof. intros H. repeat split. apply readySent_post. exact H. Qed.

Lemma sameHandshake_passStarted w s : sameHandshake w (passStarted w s).
Proof.
  repeat split. unfold passStarted, readySent, handleStyleUpdate, ensureA4PageRule. cbn.
  rewrite count_occ_app. cbn. lia.
Qed.

Lemma sameHandshake_afterPreview w : sameHandshake w (fst (afterPreview w)).
Proof.
  repeat split. unfold afterPreview, readySent. cbn.
  rewrite <- !app_assoc, count_occ_app. cbn. lia.
Qed.

Lemma sameHandshake_settledBody outcome w : sameHandshake w (settledBody outcome w).
Proof.
  destruct outcome as [l|e]; cbn [settledBody].
  - unfold rendered.
    eapply sameHandshake_trans; [|apply sameHandshake_afterPreview]. repeat split.
  - repeat split.
Qed.

Lemma sameHandshake_handlePagedRender_with k env w s :
  (forall w s, sameHandshake w (k w s)) ->
  sameHandshake w (fst (handlePagedRender_with k env w s)).
Proof.
  intros Hk. destruct (isRendering w) eqn:Hr.
  - rewrite handlePagedRender_with_locked by exact Hr. repeat split.
  - destruct (pagedAvailable env) eqn:Ha.
    + rewrite handlePagedRender_with_async by assumption. apply sameHandshake_passStarted.
    + rewrite handlePagedRender_with_sync by assumption. cbn [fst].
      eapply sameHandshake_trans; [apply (sameHandshake_passStarted w s)|].
      eapply sameHandshake_trans;
        [apply (sameHandshake_afterPreview
                  (consoleError "[Renderer] Paged.js not found" (passStarted w s)))|].
      unfold finallyBlock.
      destruct (pendingRenderRequest (set_isRendering false _)); cbn [fst].
      * eapply sameHandshake_trans; [|apply Hk]. repeat split.
      * repeat split.
Qed.

Lemma sameHandshake_handlePagedRender env w s :
  sameHandshake w (fst (handlePagedRender env w s)).
Proof.
  unfold handlePagedRender. apply sameHandshake_handlePagedRender_with.
  intros w' s'. apply sameHandshake_handlePagedRender_with.
  intros. apply sameHandshake_refl.
Qed.

Lemma sameHandshake_previewSettled env outcome w :
  sameHandshake w (fst (previewSettled env outcome w)).
Proof.
  rewrite previewSettled_eq. cbn [fst].
  destruct (pendingRenderRequest w).
  - eapply sameHandshake_trans; [|apply sameHandshake_handlePagedRender].
    eapply sameHandshake_trans; [apply (sameHandshake_settledBody outcome w)|].
    repeat split.
  - eapply sameHandshake_trans; [apply (sameHandshake_settledBody outcome w)|].
    repeat split.
Qed.

Lemma sameHandshake_handleContentUpdate env markdown w :
  sameHandshake w (handleContentUpdate env markdown w).
Proof.
  unfold handleContentUpdate. destruct (markdownit env); [|repeat split].
  destruct (contentDiv (body w)); [|repeat split].
  eapply sameHandshake_trans; [|apply sameHandshake_handlePagedRender]. repeat split.
Qed.

(** Every event but an [ACK] and an interval coming due leaves the
    handshake alone. *)
Lemma sameHandshake_react env w ev :
  isAck ev = false ->
  (forall h, ev <> Elapsed h) ->
  sameHandshake w (react env w ev).
Proof.
  intros Hack Hel. destruct ev as [h|m|o]; cbn [react].
  - exfalso. apply (Hel h). reflexivity.
  - destruct m; cbn [onMessage]; try discriminate Hack.
    + apply sameHandshake_handleContentUpdate.
    + repeat split.
    + destruct variable as [[|a v]|]; repeat split.
    + destruct marginValue as [[q u|[|a t]]|]; repeat split.
    + apply sameHandshake_handlePagedRender.
    + repeat split.
    + repeat split.
  - destruct (isRendering w); [apply sameHandshake_previewSettled | apply sameHandshake_refl].
Qed.

Lemma react_no_ack env w ev :
  isAck ev = false ->
  handshakeInterval (react env w ev) = handshakeInterval w /\
  activeIntervals (react env w ev) = activeIntervals w /\
  readySent (react env w ev) =
    match ev with
    | Elapsed h => if existsb (Nat.eqb h) (activeIntervals w)
                   then S (readySent w) else readySent w
    | _ => readySent w
    end.
Proof.
  intros Hack. destruct ev as [h|m|o].
  - cbn [react]. unfold intervalElapsed.
    destruct (existsb (Nat.eqb h) (activeIntervals w)).
    + repeat split. unfold handshakeCallback, readySent, postToParent. cbn.
      rewrite count_occ_app. cbn. lia.
    + repeat split.
  - apply (sameHandshake_react env w (Message m) Hack). intros h. discriminate.
  - apply (sameHandshake_react env w (PreviewSettles o) Hack). intros h. discriminate.
Qed.

Lemma react_ack env w :
  timersConsistent w ->
  handshakeInterval (onMessage env ACK w) = None /\
  activeIntervals (onMessage env ACK w) = [] /\
  isHandshakeComplete (onMessage env ACK w) = true /\
  readySent (onMessage env ACK w) = readySent w.
Proof.
  unfold timersConsistent. intros H. cbn [onMessage].
  destruct (handshakeInterval w) as [h|] eqn:E.
  - repeat split. unfold clearInterval. cbn. rewrite H. cbn.
    rewrite Nat.eqb_refl. reflexivity.
  - repeat split; cbn; assumption.
Qed.

Lemma timersConsistent_react env w ev :
  timersConsistent w -> timersConsistent (react env w ev).
Proof.
  intros H. destruct (isAck ev) eqn:Hack.
  - destruct ev as [|[]|]; try discriminate Hack. cbn [react].
    destruct (react_ack env w H) as (A & B & _). unfold timersConsistent.
    rewrite A, B. reflexivity.
  - destruct (react_no_ack env w ev Hack) as (A & B & _).
    unfold timersConsistent. rewrite A, B. exact H.
Qed.

Lemma timersConsistent_runEvents env evs : forall w,
  timersConsistent w -> timersConsistent (runEvents env evs w).
Proof.
  induction evs as [|ev evs IH]; intros w H; [exact H|].
  apply IH. apply timersConsistent_react. exact H.
Qed.

(** Until an [ACK] comes, the timer runs and every time it comes due one
    [READY] is posted. *)
Lemma runEvents_before_ack env evs : forall w h,
  handshakeInterval w = Some h ->
  activeIntervals w = [h] ->
  forallb (fun ev => negb (isAck ev)) evs = true ->
  handshakeInterval (runEvents env evs w) = Some h /\
  activeIntervals (runEvents env evs w) = [h] /\
  readySent (runEvents env evs w) =
    readySent w + length (List.filter (isElapsed h) evs).
Proof.
  induction evs as [|ev evs IH]; intros w h Hh Ha Hno; cbn [runEvents fold_left].
  - repeat split; try assumption. cbn. lia.
  - cbn [forallb] in Hno. apply andb_true_iff in Hno. destruct Hno as [Hev Hno].
    apply negb_true_iff in Hev.
    destruct (react_no_ack env w ev Hev) as (A & B & C).
    destruct (IH (react env w ev) h (eq_trans A Hh) (eq_trans B Ha) Hno) as (I1 & I2 & I3).
    split; [exact I1|]. split; [exact I2|].
    fold (runEvents env evs (react env w ev)). rewrite I3, C.
    cbn [List.filter]. destruct ev as [h'|m|o]; cbn [isElapsed]; try lia.
    rewrite Ha. cbn [existsb]. rewrite orb_false_r.
    rewrite (Nat.eqb_sym h h'). destruct (Nat.eqb h' h); cbn [length]; lia.
Qed.

(** Once no timer runs, no event posts a [READY]. *)
Lemma runEvents_after_ack env evs : forall w,
  activeIntervals w = [] ->
  activeIntervals (runEvents env evs w) = [] /\
  readySent (runEvents env evs w) = readySent w.
Proof.
  induction evs as [|ev evs IH]; intros w Ha; cbn [runEvents fold_left].
  - split; [exact Ha | reflexivity].
  - assert (H : activeIntervals (react env w ev) = [] /\
                readySent (react env w ev) = readySent w).
    { destruct (isAck ev) eqn:Hack.
      - destruct ev as [|[]|]; try discriminate Hack. cbn [react onMessage].
        destruct (handshakeInterval w); split; try reflexivity.
        + unfold clearInterval. cbn. rewrite Ha. reflexivity.
        + exact Ha.
      - destruct (react_no_ack env w ev Hack) as (_ & B & C).
        split; [rewrite B; exact Ha|].
        rewrite C. destruct ev; try reflexivity. rewrite Ha. reflexivity. }
    destruct H as [H1 H2]. destruct (IH _ H1) as [I1 I2].
    split; [exact I1|]. fold (runEvents env evs (react env w ev)). congruence.
Qed.

(** ** The host side *)

Import Controller.

Lemma sendMessageToIframe_buffered cmds : forall c,
  iframeWindow c = true -> isIframeReady c = false ->
  fold_left sendMessageToIframe cmds c =
  set_messageQueue (messageQueue c ++ cmds) c.
Proof.
  induction cmds as [|d cmds IH]; intros c Hw Hr; cbn [fold_left].
  - rewrite app_nil_r. reflexivity.
  - unfold sendMessageToIframe at 2. rewrite Hw, Hr.
    rewrite IH by assumption. cbn. rewrite <- app_assoc. reflexivity.
Qed.

Lemma sendMessageToIframe_direct msgs : forall c,
  iframeWindow c = true -> isIframeReady c = true ->
  fold_left sendMessageToIframe msgs c = set_toIframe (toIframe c ++ msgs) c.
Proof.
  induction msgs as [|d msgs IH]; intros c Hw Hr; cbn [fold_left].
  - rewrite app_nil_r. reflexivity.
  - unfold sendMessageToIframe at 2. rewrite Hw, Hr.
    rewrite IH by assumption. unfold postMessage. cbn.
    rewrite <- app_assoc. reflexivity.
Qed.

Lemma flushQueue_window queue : forall c,
  iframeWindow c = true ->
  flushQueue queue c =
  (set_messageQueue [] (set_toIframe (toIframe c ++ queue) c), Returned tt).
Proof.
  induction queue as [|d queue IH]; intros c Hw; cbn [flushQueue].
  - rewrite app_nil_r. reflexivity.
  - rewrite Hw. rewrite IH by exact Hw. unfold postMessage. cbn.
    rewrite <- app_assoc. reflexivity.
Qed.

Lemma handleViewerReady_window c :
  iframeWindow c = true ->
  handleViewerReady c =
  (set_fetching (S (fetching c))
     (set_toIframe (toIframe c ++ [ACK] ++ messageQueue c ++ sliderMessages c)
        (set_messageQueue [] (set_isIframeReady true c))),
   Returned tt).
Proof.
  intros Hw. unfold handleViewerReady. cbn. rewrite Hw.
  rewrite flushQueue_window by exact Hw.
  unfold sendInitialStyles, loadInitialContent.
  rewrite sendMessageToIframe_direct by first [exact Hw | reflexivity].
  unfold postMessage. cbn. rewrite <- !app_assoc. reflexivity.
Qed.

(** C3. Once loaded, the render context posts one [READY] every time its
    interval comes due, as long as no [ACK] has come; the [ACK] clears the
    interval and completes the handshake, and from then on no event makes it
    post a [READY].  The host, as long as it has not seen a [READY], posts
    nothing to the frame and appends every command to its buffer; on the
    first [READY] it posts [ACK], then the buffered commands in the order
    they were sent, then its initial styles, and the buffer is empty. *)
Theorem handshake_ready_until_ack_then_ordered_flush
    env docBody docHead evs0 evs1 c cmds :
  forallb (fun ev => negb (isAck ev)) evs0 = true ->
  isIframeReady c = false ->
  iframeWindow c = true ->
  let w0 := onLoad env (scriptStart docBody docHead) in
  let w1 := runEvents env evs0 w0 in
  let w2 := onMessage env ACK w1 in
  let c1 := fold_left sendMessageToIframe cmds c in
  let c2 := handleMessage (fromFrame READY) c1 in
  (exists h,
     handshakeInterval w0 = Some h /\
     handshakeInterval w1 = Some h /\
     readySent w1 = length (List.filter (isElapsed h) evs0) /\
     readySent (intervalElapsed h w1) = S (readySent w1)) /\
  (handshakeInterval w2 = None /\
   isHandshakeComplete w2 = true /\
   readySent w2 = readySent w1 /\
   readySent (runEvents env evs1 w2) = readySent w1) /\
  (toIframe c1 = toIframe c /\
   messageQueue c1 = (messageQueue c ++ cmds)%list) /\
  (isIframeReady c2 = true /\
   messageQueue c2 = [] /\
   toIframe c2 =
     (toIframe c ++ [ACK] ++ (messageQueue c ++ cmds) ++ sliderMessages c)%list).
Proof.
  intros Hno Hr Hw w0 w1 w2 c1 c2.
  assert (H0 : handshakeInterval w0 = Some 1 /\ activeIntervals w0 = [1] /\
               readySent w0 = 0).
  { unfold w0, onLoad, applyDefaultStyles.
    destruct (defaultStyles env); repeat split. }
  destruct H0 as (Hh & Ha & Hz).
  destruct (runEvents_before_ack env evs0 w0 1 Hh Ha Hno) as (B1 & B2 & B3).
  fold w1 in B1, B2, B3.
  assert (Hcons : timersConsistent w1)
    by (unfold timersConsistent; rewrite B1, B2; reflexivity).
  destruct (react_ack env w1 Hcons) as (A1 & A2 & A3 & A4). fold w2 in A1, A2, A3, A4.
  destruct (runEvents_after_ack env evs1 w2 A2) as (_ & C2).
  split.
  { exists 1. split; [exact Hh|]. split; [exact B1|].
    split; [rewrite B3, Hz; reflexivity|].
    unfold intervalElapsed. rewrite B2. cbn [existsb Nat.eqb orb].
    unfold handshakeCallback, readySent, postToParent. cbn.
    rewrite count_occ_app. cbn. lia. }
  split.
  { split; [exact A1|]. split; [exact A3|]. split; [exact A4|]. congruence. }
  assert (E1 : c1 = set_messageQueue (messageQueue c ++ cmds) c)
    by (apply sendMessageToIframe_buffered; assumption).
  split; [rewrite E1; split; reflexivity|].
  unfold c2, handleMessage, fromFrame. cbn [originAccepted negb data].
  rewrite handleViewerReady_window by (rewrite E1; exact Hw).
  rewrite E1. repeat split.
Qed.

(* ===================================================================== *)
(** * The store *)
(* ===================================================================== *)

Import Queue.
Local Open Scope list_scope.

(** Induction on values, through arrays and objects. *)
Lemma JsVal_nested_ind (P : JsVal -> Prop) :
  P JUndefined -> P JNull -> (forall b, P (JBool b)) -> (forall n, P (JNum n)) ->
  (forall s, P (JStr s)) -> (forall t, P (JIso t)) -> (forall t, P (JDate t)) ->
  (forall items, Forall P items -> P (JArr items)) ->
  (forall fields, Forall (fun kx => P (snd kx)) fields -> P (JObj fields)) ->
  forall v, P v.
Proof.
  intros HU HN HB HNum HS HI HD HA HO.
  fix IH 1. intros [| |b|n|s|t|t|items|fields];
    [exact HU | exact HN | apply HB | apply HNum | apply HS | apply HI | apply HD | | ].
  - apply HA. induction items as [|x items IHitems]; constructor; [apply IH | exact IHitems].
  - apply HO. induction fields as [|[k x] fields IHfields]; constructor;
      [apply IH | exact IHfields].
Qed.

Lemma jsonClone_defined v : v <> JUndefined -> jsonClone v <> JUndefined.
Proof.
  destruct v as [| |b|[q| | |]|s|t|t|items|fields]; cbn; congruence.
Qed.

Lemma cloneItem_idempotent x :
  jsonClone (jsonClone x) = jsonClone x ->
  match match x with JUndefined => JNull | _ => jsonClone x end with
  | JUndefined => JNull
  | _ => jsonClone match x with JUndefined => JNull | _ => jsonClone x end
  end = match x with JUndefined => JNull | _ => jsonClone x end.
Proof.
  intros H. destruct x as [| |b|[q| | |]|s|t|t|items|fields]; try reflexivity; exact H.
Qed.

Lemma cloneField_idempotent (k : string) (x : JsVal) :
  jsonClone (jsonClone x) = jsonClone x ->
  flat_map (fun kx => match snd kx with
                      | JUndefined => []
                      | _ => [(fst kx, jsonClone (snd kx))]
                      end)
    match x with JUndefined => [] | _ => [(k, jsonClone x)] end =
  match x with JUndefined => [] | _ => [(k, jsonClone x)] end.
Proof.
  intros H.
  destruct x as [| |b|[q| | |]|s|t|t|items|fields]; try reflexivity;
    cbn [flat_map snd fst app]; cbn [jsonClone] in *; rewrite ?H; reflexivity.
Qed.

Lemma jsonClone_idempotent v : jsonClone (jsonClone v) = jsonClone v.
Proof.
  induction v as [| |b|n|s|t|t|items IH|fields IH] using JsVal_nested_ind;
    try reflexivity.
  - destruct n; reflexivity.
  - cbn. f_equal. rewrite map_map.
    induction IH as [|x items Hx _ IHitems]; [reflexivity|].
    cbn [map]. f_equal; [|exact IHitems].
    apply cloneItem_idempotent. exact Hx.
  - cbn. f_equal.
    induction IH as [|[k x] fields Hx _ IHfields]; [reflexivity|].
    cbn [flat_map]. cbn [snd fst] in *.
    rewrite flat_map_app. rewrite IHfields. f_equal.
    apply cloneField_idempotent. exact Hx.
Qed.

Lemma cloneState_idempotent s : cloneState (cloneState s) = cloneState s.
Proof. unfold cloneState. cbn. rewrite !jsonClone_idempotent. reflexivity. Qed.

(** ** Notification *)

Lemma callListeners_eq key action oldState newState callbacks : forall m,
  fold_left (callListener key action oldState newState) callbacks m =
  set_storeConsole
    (storeConsole m ++
     flat_map (errorOf action oldState newState) (map (pair key) callbacks))
    (set_notifications
       (notifications m ++
        map (callOf action oldState newState) (map (pair key) callbacks)) m).
Proof.
  induction callbacks as [|l callbacks IH]; intros m; cbn [fold_left map flat_map].
  - rewrite !app_nil_r. reflexivity.
  - rewrite IH. unfold callListener, errorOf, callOf. cbn [fst snd].
    destruct (callback l action oldState newState) as [[]|e]; cbn;
      rewrite <- ?app_assoc; reflexivity.
Qed.

Lemma notifyListeners_eq action oldState newState m :
  notifyListeners action oldState newState m =
  set_storeConsole
    (storeConsole m ++ flat_map (errorOf action oldState newState) (allSubscribers m))
    (set_notifications
       (notifications m ++ map (callOf action oldState newState) (allSubscribers m)) m).
Proof.
  unfold notifyListeners, allSubscribers.
  generalize (listeners m) as ls. intros ls. revert m.
  induction ls as [|[key callbacks] ls IH]; intros m; cbn [fold_left flat_map].
  - rewrite !app_nil_r. reflexivity.
  - rewrite IH, callListeners_eq. cbn [fst snd].
    rewrite !map_app, !flat_map_app. cbn. rewrite <- !app_assoc. reflexivity.
Qed.

(** C9 (amended). [notifyListeners] calls every subscriber of every key,
    whatever the action, in the order of the keys and, within a key, of
    registration, each once and with the action and the two states; a
    subscriber that throws adds a line to the console and changes nothing to
    the calls that follow.  A dispatch that returns has notified in that way
    with the action its middleware chain produced; a dispatch that throws
    has notified nobody. *)
Theorem notify_calls_every_subscriber_of_every_key clock action oldState newState m :
  (let m' := notifyListeners action oldState newState m in
   notifications m' =
     notifications m ++ map (callOf action oldState newState) (allSubscribers m) /\
   storeConsole m' =
     storeConsole m ++ flat_map (errorOf action oldState newState) (allSubscribers m) /\
   state m' = state m /\ listeners m' = listeners m /\ history m' = history m) /\
  match dispatch clock action m with
  | (m', Returned returned) =>
      exists processedAction,
        runMiddleware clock (getState m) action (middleware m) = Returned processedAction /\
        notifications m' =
          notifications m ++
          map (callOf processedAction (getState m) returned) (allSubscribers m)
  | (m', Thrown _) => m' = m
  end.
Proof.
  split.
  - cbn zeta. rewrite notifyListeners_eq. repeat split.
  - unfold dispatch.
    destruct (runMiddleware clock (getState m) action (middleware m)) as [processed|e];
      [|reflexivity].
    destruct (reducer clock (getState m) processed) as [s'|e]; [|reflexivity].
    exists processed. split; [reflexivity|].
    rewrite notifyListeners_eq. reflexivity.
Qed.

(** C9, as stated, fails: an [UPDATE_STYLES] action reaches the subscriber
    registered under ["content"] as well as the one under ["styles"], so
    that no topic is the only one notified; the first subscriber throws and
    the second one is called all the same. *)
Lemma notify_topic_counterexample :
  map nKey (newNotifications noon updateFontSize twoTopics) = ["content"; "styles"] /\
  storeConsole (fst (dispatch noon updateFontSize twoTopics)) = ["content: boom"] /\
  ~ exists topic, spec_notifies_topic_only topic noon updateFontSize twoTopics.
Proof.
  assert (E : map nKey (newNotifications noon updateFontSize twoTopics) =
              ["content"; "styles"]) by by_computation.
  split; [exact E|]. split; [by_computation|].
  intros [topic H]. unfold spec_notifies_topic_only in H.
  assert (Hk : Forall (fun k => k = topic)
                 (map nKey (newNotifications noon updateFontSize twoTopics))).
  { apply List.Forall_map. exact H. }
  rewrite E in Hk. inversion Hk as [|? ? Hfirst Hk']. subst.
  inversion Hk' as [|? ? Hsecond _]. discriminate Hsecond.
Qed.

(** ** Actions the reducer does not know *)

Lemma reducer_unknown clock s action :
  ~ In (type action) knownTypes ->
  reducer clock s action = Returned (cloneState s).
Proof.
  intros H. unfold reducer, knownTypes in *.
  repeat match goal with
         | |- context [String.eqb (type action) ?k] =>
             destruct (String.eqb_spec (type action) k) as [E|_];
             [exfalso; apply H; rewrite E; cbn; tauto|]
         end.
  reflexivity.
Qed.

Lemma runMiddleware_keepsType clock s chain : forall action,
  Forall keepsType chain ->
  exists processedAction,
    runMiddleware clock s action chain = Returned processedAction /\
    type processedAction = type action.
Proof.
  induction chain as [|mw chain IH]; intros action H; cbn [runMiddleware].
  - exists action. split; reflexivity.
  - inversion H as [|? ? Hmw Hchain]; subst.
    destruct (Hmw clock action s) as (result & E & Ht). rewrite E.
    destruct result as [action'|].
    + destruct (IH action' Hchain) as (processed & E' & Ht').
      exists processed. split; [exact E'|]. rewrite Ht'. apply Ht. reflexivity.
    + apply IH. exact Hchain.
Qed.

Lemma keepsType_pagedJsMiddleware : keepsType pagedJsMiddleware.
Proof.
  intros clock action s. unfold pagedJsMiddleware.
  destruct (existsb (String.eqb (type action)) renderTriggerActions).
  - destruct (queueOf s) as [queue|].
    + destruct (existsb (similarTask clock (type action)) queue).
      * destruct (String.eqb (type action) "PAGEDJS_STATE_CHANGE").
        -- destruct (getProp (payload action) "addRenderTask") as [t|].
           ++ destruct (truthy t); eexists; split; try reflexivity;
                intros a' [= <-]; reflexivity.
           ++ eexists; split; [reflexivity|]. intros a' [= <-]; reflexivity.
        -- eexists; split; [reflexivity|]. intros a' [= <-]; reflexivity.
      * eexists; split; [reflexivity|]. intros a' [= <-]; reflexivity.
    + eexists; split; [reflexivity|]. intros a' [= <-]; reflexivity.
  - destruct (String.eqb (type action) "PAGEDJS_STATE_CHANGE").
    + destruct (getProp (payload action) "addRenderTask") as [t|].
      * destruct (truthy t); eexists; split; try reflexivity;
          intros a' [= <-]; reflexivity.
      * eexists; split; [reflexivity|]. intros a' [= <-]; reflexivity.
    + eexists; split; [reflexivity|]. intros a' [= <-]; reflexivity.
Qed.

Lemma pushHistory_short entry h :
  length h < 50 -> pushHistory entry h = h ++ [entry].
Proof.
  intros H. unfold pushHistory. rewrite length_app. cbn [length].
  destruct (Nat.ltb_spec 50 (length h + 1)); [lia | reflexivity].
Qed.

(** C10. For an action whose type is none of the eight the reducer has a
    case for, and a middleware chain that keeps the type of actions (as
    the Paged.js middleware does), [dispatch] returns; the state read
    through [getState()] is the one read before, and so is the state held
    when it holds plain JSON data; one entry is pushed on the history
    (appended, below the cap of 50); every subscriber is notified. *)
Theorem unknown_action_leaves_state clock action m :
  ~ In (type action) knownTypes ->
  Forall keepsType (middleware m) ->
  exists processedAction,
    runMiddleware clock (getState m) action (middleware m) = Returned processedAction /\
    type processedAction = type action /\
    let m' := fst (dispatch clock action m) in
    let entry := {| hAction := processedAction; hTimestamp := now clock;
                    hOldState := getState m; hNewState := getState m |} in
    snd (dispatch clock action m) = Returned (getState m) /\
    getState m' = getState m /\
    state m' = cloneState (state m) /\
    (cloneState (state m) = state m -> state m' = state m) /\
    history m' = pushHistory entry (history m) /\
    (length (history m) < 50 -> history m' = history m ++ [entry]) /\
    notifications m' =
      notifications m ++
      map (callOf processedAction (getState m) (getState m)) (allSubscribers m) /\
    listeners m' = listeners m.
Proof.
  intros Hunknown Hchain.
  destruct (runMiddleware_keepsType clock (getState m) (middleware m) action Hchain)
    as (processed & E & Ht).
  exists processed. split; [exact E|]. split; [exact Ht|].
  assert (Hred : reducer clock (getState m) processed = Returned (getState m)).
  { rewrite reducer_unknown by (rewrite Ht; exact Hunknown).
    unfold getState. rewrite cloneState_idempotent. reflexivity. }
  unfold dispatch. rewrite E, Hred. cbn zeta. cbn [fst snd].
  rewrite notifyListeners_eq.
  split; [reflexivity|].
  split; [unfold getState; cbn; apply cloneState_idempotent|].
  split; [reflexivity|].
  split; [intros Hplain; cbn; exact Hplain|].
  split; [reflexivity|].
  split; [intros Hlen; cbn; apply pushHistory_short; exact Hlen|].
  split; reflexivity.
Qed.

(** An action of type [TOGGLE_SIDEBAR] on a fresh store with the Paged.js
    middleware attached. *)
Lemma unknown_action_leaves_state_witness :
  getState (fst (dispatch noon unknownAction (use pagedJsMiddleware twoTopics))) =
    getState (use pagedJsMiddleware twoTopics) /\
  length (history (fst (dispatch noon unknownAction (use pagedJsMiddleware twoTopics)))) = 1 /\
  map nKey (notifications
              (fst (dispatch noon unknownAction (use pagedJsMiddleware twoTopics)))) =
    ["content"; "styles"].
Proof.
  destruct (unknown_action_leaves_state noon unknownAction (use pagedJsMiddleware twoTopics))
    as (processed & _ & _ & _ & H2 & _ & _ & _ & H6 & H7 & _).
  - cbn. intros H. repeat (destruct H as [H|H]; [discriminate H|]). exact H.
  - cbn. repeat constructor. apply keepsType_pagedJsMiddleware.
  - split; [exact H2|]. split.
    + rewrite H6 by (cbn; lia). reflexivity.
    + rewrite H7. reflexivity.
Defined.

(* ===================================================================== *)
(** * The render task queue *)
(* ===================================================================== *)


(** ** Fields of objects *)

Lemma getField_setField k k' x fields :
  getField k (setField k' x fields) =
  if String.eqb k k' then x else getField k fields.
Proof.
  induction fields as [|[k0 x0] fields IH]; cbn [setField getField].
  - destruct (String.eqb k k'); reflexivity.
  - destruct (String.eqb_spec k' k0) as [->|Hne]; cbn [getField].
    + destruct (String.eqb k k0); reflexivity.
    + destruct (String.eqb_spec k k0) as [->|Hne'].
      * destruct (String.eqb_spec k0 k') as [E|_]; [congruence | reflexivity].
      * exact IH.
Qed.

(** A field that is defined is read the same, cloned, in the clone. *)
Lemma getField_clone k fields v :
  getField k fields = v -> v <> JUndefined ->
  getField k (flat_map (fun kx => match snd kx with
                                  | JUndefined => []
                                  | _ => [(fst kx, jsonClone (snd kx))]
                                  end) fields) = jsonClone v.
Proof.
  intros H Hv. induction fields as [|[k0 x0] fields IH]; cbn [getField] in H.
  - congruence.
  - cbn [flat_map fst snd].
    destruct (String.eqb_spec k k0) as [->|Hne].
    + subst x0. destruct v; try congruence; cbn [app getField];
        rewrite String.eqb_refl; reflexivity.
    + destruct x0; cbn [app getField]; try (apply IH; exact H);
        (destruct (String.eqb_spec k k0); [congruence | apply IH; exact H]).
Qed.

(** ** The processor's dispatches *)

Lemma runMiddleware_pagedjsChange clock s fields chain :
  Forall (fun mw => mw = pagedJsMiddleware) chain ->
  truthy (getField "addRenderTask" fields) = false ->
  runMiddleware clock s (pagedjsChange fields) chain = Returned (pagedjsChange fields).
Proof.
  intros Hchain Hno. induction Hchain as [|mw chain -> _ IH]; [reflexivity|].
  cbn [runMiddleware]. unfold pagedJsMiddleware at 1. cbn. rewrite Hno. exact IH.
Qed.

Lemma dispatch_pagedjsChange clock fields m :
  pagedJsOnly m ->
  truthy (getField "addRenderTask" fields) = false ->
  exists m',
    dispatch clock (pagedjsChange fields) m = (m', Returned (pagedjsChanged fields m)) /\
    state m' = pagedjsChanged fields m /\
    middleware m' = middleware m.
Proof.
  intros Hmw Hno. unfold dispatch.
  rewrite runMiddleware_pagedjsChange by assumption.
  unfold reducer. cbn [type pagedjsChange String.eqb Ascii.eqb Bool.eqb].
  cbn -[cloneState getState notifyListeners spread].
  eexists. split; [reflexivity|].
  rewrite notifyListeners_eq. split; reflexivity.
Qed.

Lemma dispatchIn_pagedjsChange clock fields p :
  pagedJsOnly (stateManager p) ->
  truthy (getField "addRenderTask" fields) = false ->
  exists p',
    dispatchIn clock (pagedjsChange fields) p = (p', Returned tt) /\
    state (stateManager p') = pagedjsChanged fields (stateManager p) /\
    pagedJsOnly (stateManager p') /\
    isProcessing p' = isProcessing p /\
    executorCalls p' = executorCalls p /\
    managerReady p' = managerReady p /\
    pendingTimeouts p' = pendingTimeouts p.
Proof.
  intros Hmw Hno.
  destruct (dispatch_pagedjsChange clock fields (stateManager p) Hmw Hno)
    as (m' & E & Hs & Hm).
  unfold dispatchIn. rewrite E.
  eexists. split; [reflexivity|]. cbn.
  split; [exact Hs|]. split; [unfold pagedJsOnly; rewrite Hm; exact Hmw|].
  repeat split.
Qed.

(** ** Sorting by priority *)

Lemma insertTask_In a sorted t : In t (insertTask a sorted) <-> t = a \/ In t sorted.
Proof.
  induction sorted as [|b rest IH]; cbn [insertTask].
  - cbn. intuition congruence.
  - destruct (comesAfter a b); cbn [In] in *; rewrite ?IH; intuition congruence.
Qed.

Lemma sortByPriority_In queue t : In t (sortByPriority queue) <-> In t queue.
Proof.
  induction queue as [|a queue IH]; cbn [sortByPriority fold_right]; [tauto|].
  fold (sortByPriority queue). rewrite insertTask_In, IH. cbn. intuition congruence.
Qed.

Lemma sortByPriority_nonempty queue :
  queue <> [] -> exists nextTask rest, sortByPriority queue = nextTask :: rest.
Proof.
  destruct queue as [|a queue]; [congruence|]. intros _.
  cbn [sortByPriority fold_right]. fold (sortByPriority queue).
  destruct (sortByPriority queue) as [|b rest]; cbn [insertTask]; [eauto|].
  destruct (comesAfter a b); eauto.
Qed.


Lemma getProp_spread target fields k :
  getProp (spread target (JObj fields)) k =
  Some (getField k (fold_left (fun acc kx => setField (fst kx) (snd kx) acc)
                      fields (ownEntries target))).
Proof. reflexivity. Qed.




(** ** The handshake on the example page *)

(** Two intervals elapse, the [ACK] comes, the interval handle elapses once
    more and a render is triggered: two [READY] in all; the two commands
    sent before the [READY] leave after the [ACK], in their order. *)
Lemma handshake_ready_until_ack_then_ordered_flush_witness :
  readySent
    (runEvents (exampleEnv 9 1) [Elapsed 1; Message (TriggerPaged None)]
       (onMessage (exampleEnv 9 1) ACK
          (runEvents (exampleEnv 9 1) [Elapsed 1; Elapsed 1]
             (onLoad (exampleEnv 9 1) (scriptStart exampleBody exampleHead))))) =
  readySent
    (runEvents (exampleEnv 9 1) [Elapsed 1; Elapsed 1]
       (onLoad (exampleEnv 9 1) (scriptStart exampleBody exampleHead))) /\
  toIframe (fold_left sendMessageToIframe earlyCommands exampleController) = [] /\
  toIframe (handleMessage (fromFrame READY)
              (fold_left sendMessageToIframe earlyCommands exampleController)) =
    [ACK; UpdateContent "# Resume"; Print;
     UpdateCSS (Some "--body-font-size") (CssNum 9 "pt")].
Proof.
  destruct (handshake_ready_until_ack_then_ordered_flush (exampleEnv 9 1)
              exampleBody exampleHead [Elapsed 1; Elapsed 1]
              [Elapsed 1; Message (TriggerPaged None)]
              exampleController earlyCommands)
    as (_ & (_ & _ & _ & H4) & (H5 & _) & (_ & _ & H7)).
  - reflexivity.
  - reflexivity.
  - reflexivity.
  - split; [exact H4|]. split; [exact H5 | exact H7].
Defined.

(* ===================================================================== *)
(** * Further properties of the render context *)
(* ===================================================================== *)

(** ** The lock, the pending slot and the style cache *)

Lemma cacheApplied_handleStyleUpdate styles w :
  cacheApplied w -> cacheApplied (handleStyleUpdate styles w).
Proof.
  unfold cacheApplied, handleStyleUpdate, assign. cbn.
  intros H. apply map_union_mono_l. exact H.
Qed.

Lemma cacheApplied_passStarted w s : cacheApplied (passStarted w s).
Proof.
  unfold cacheApplied. destruct (passStarted_styles w s) as [-> ->].
  unfold assign. apply map_union_subseteq_l.
Qed.

Lemma slotInvariant_free_call env w s :
  isRendering w = false ->
  pendingRenderRequest w = None ->
  slotInvariant (fst (handlePagedRender env w s)).
Proof.
  intros Hr Hp. destruct (pagedAvailable env) eqn:Ha.
  - rewrite handlePagedRender_async by assumption. cbn [fst]. split.
    + intros H. change (isRendering (passStarted w s)) with true in H. discriminate H.
    + intros _. apply cacheApplied_passStarted.
  - rewrite handlePagedRender_sync by assumption. cbn [fst]. split.
    + intros _. exact Hp.
    + intros _. exact (cacheApplied_passStarted w s).
Qed.

Lemma slotInvariant_handlePagedRender env w s :
  slotInvariant w -> slotInvariant (fst (handlePagedRender env w s)).
Proof.
  intros [Ha Hb]. destruct (isRendering w) eqn:Hr.
  - rewrite handlePagedRender_locked by exact Hr. cbn [fst]. split.
    + intros H. cbn in H. congruence.
    + intros H. cbn in H. discriminate H.
  - apply slotInvariant_free_call; [exact Hr | apply Ha; reflexivity].
Qed.

Lemma slotInvariant_previewSettled env outcome w :
  slotInvariant w -> slotInvariant (fst (previewSettled env outcome w)).
Proof.
  intros [Ha Hb]. rewrite previewSettled_eq.
  destruct (settledBody_frame outcome w) as (F1 & F2 & F3 & _).
  destruct (pendingRenderRequest w) as [next|] eqn:Hp; cbn [fst].
  - apply slotInvariant_free_call; reflexivity.
  - split.
    + intros _. exact F3.
    + intros _. unfold cacheApplied.
      change (currentStyles (settledBody outcome w) ⊆ rootStyle (settledBody outcome w)).
      rewrite F1, F2. apply Hb. reflexivity.
Qed.

Lemma slotInvariant_react env w ev :
  slotInvariant w -> slotInvariant (react env w ev).
Proof.
  intros H. destruct ev as [h|m|outcome]; cbn [react].
  - unfold intervalElapsed. destruct (existsb _ _); exact H.
  - destruct m as [|markdown|payload|variable value|marginValue|payload| |t];
      cbn [onMessage].
    + destruct (handshakeInterval w); exact H.
    + unfold handleContentUpdate.
      destruct (markdownit env) as [render|]; [|exact H].
      destruct (contentDiv (body w)); [|exact H].
      apply slotInvariant_handlePagedRender. exact H.
    + destruct H as [Ha Hb]. split; [exact Ha|].
      intros Hp. apply cacheApplied_handleStyleUpdate. apply Hb. exact Hp.
    + destruct H as [Ha Hb].
      destruct variable as [[|c v]|];
        (split; [exact Ha|];
         intros Hp; apply cacheApplied_handleStyleUpdate; apply Hb; exact Hp).
    + destruct H as [Ha Hb].
      destruct marginValue as [[q u|[|c t]]|];
        try (split; [exact Ha | exact Hb]);
        (split; [exact Ha|];
         intros Hp; apply cacheApplied_handleStyleUpdate; apply Hb; exact Hp).
    + apply slotInvariant_handlePagedRender. exact H.
    + exact H.
    + exact H.
  - destruct (isRendering w); [|exact H].
    apply slotInvariant_previewSettled. exact H.
Qed.

(** X1. From the load of the page on, whatever the events (timer ticks,
    messages of the host, passes settling with a layout or an exception): a
    render request waits in the pending slot only while a pass is in flight,
    and whenever none waits every style of the cache is set, with the same
    value, on the root element. *)
Theorem pending_slot_and_cache_invariant env docBody docHead evs :
  let w := runEvents env evs (onLoad env (scriptStart docBody docHead)) in
  (isRendering w = false -> pendingRenderRequest w = None) /\
  (pendingRenderRequest w = None ->
   forall k v, currentStyles w !! k = Some v -> rootStyle w !! k = Some v).
Proof.
  cbn zeta.
  assert (H : slotInvariant (runEvents env evs (onLoad env (scriptStart docBody docHead)))).
  { assert (H0 : slotInvariant (onLoad env (scriptStart docBody docHead))).
    { unfold onLoad, applyDefaultStyles.
      destruct (defaultStyles env) as [d|]; (split; [reflexivity|]); intros _.
      - apply (cacheApplied_handleStyleUpdate _
                 (set_originalHead docHead
                    (set_originalBody docBody (scriptStart docBody docHead)))).
        unfold cacheApplied. cbn. reflexivity.
      - unfold cacheApplied. cbn. reflexivity. }
    revert H0. generalize (onLoad env (scriptStart docBody docHead)).
    unfold runEvents. induction evs as [|ev evs IH]; intros w Hw; cbn [fold_left].
    - exact Hw.
    - apply IH. apply slotInvariant_react. exact Hw. }
  destruct H as [Ha Hb]. split; [exact Ha|].
  intros Hp k v Hk. specialize (Hb Hp). unfold cacheApplied in Hb.
  eapply lookup_weaken; eassumption.
Qed.

(** ** One pass from its start to its end *)

Lemma postedSince_app w w' msgs :
  toParent w' = toParent w ++ msgs -> postedSince w w' = msgs.
Proof. intros H. unfold postedSince. rewrite H. apply drop_app_length. Qed.

Lemma In_addBodyClass c w : In c (bodyClasses (addBodyClass c w)).
Proof.
  unfold addBodyClass. cbn.
  destruct (existsb (String.eqb c) (bodyClasses w)) eqn:E.
  - apply existsb_exists in E. destruct E as (x & Hx & Ex).
    apply String.eqb_eq in Ex. subst x. exact Hx.
  - apply in_or_app. right. left. reflexivity.
Qed.

Lemma passStarted_posts w s : toParent (passStarted w s) = toParent w ++ [Rendering].
Proof. reflexivity. Qed.

Lemma passStarted_pageRule w s :
  forcedPageA4 (head (passStarted w s)) = Some (pageRuleMargin (passStarted w s)).
Proof. reflexivity. Qed.

(** X2. A pass that starts with the lock free and whose [preview()]
    resolves posts ['rendering'] at its start and ['rendered'] then
    ['RENDER_COMPLETE'] at its end, each once and in that order; it leaves
    the lock free, the pages of the oracle in the document, the class
    [render-complete] on the body, an [@page] rule written with the page
    margin of the root element, and no line on the error console. *)
Theorem successful_pass_posts_in_order env w extraStyles l :
  isRendering w = false ->
  pendingRenderRequest w = None ->
  pagedAvailable env = true ->
  let w1 := fst (handlePagedRender env w extraStyles) in
  let w2 := fst (previewSettled env (PreviewDone l) w1) in
  snd (handlePagedRender env w extraStyles) = Suspended /\
  isRendering w1 = true /\
  postedSince w w1 = [Rendering] /\
  postedSince w w2 = [Rendering; Rendered; RENDER_COMPLETE] /\
  isRendering w2 = false /\
  pendingRenderRequest w2 = None /\
  getPageCount w2 = pages l /\
  In "render-complete" (bodyClasses w2) /\
  forcedPageA4 (head w2) = Some (pageRuleMargin w2) /\
  consoleErrors w2 = consoleErrors w.
Proof.
  intros Hr Hp Ha. cbn zeta.
  rewrite handlePagedRender_async by assumption. cbn [fst snd].
  rewrite previewSettled_done_eq.
  rewrite passStarted_pending, Hp. cbn [fst].
  split; [reflexivity|]. split; [reflexivity|].
  split; [apply postedSince_app; reflexivity|].
  split.
  { apply postedSince_app. unfold rendered, afterPreview. cbn.
    rewrite <- !app_assoc. reflexivity. }
  split; [reflexivity|]. split; [exact Hp|]. split; [reflexivity|].
  split.
  { unfold rendered, afterPreview. cbn [fst].
    change (In "render-complete"
              (bodyClasses
                 (addBodyClass "render-complete"
                    (set_body {| contentDiv := contentDiv (body (passStarted w extraStyles));
                                 otherMarkup := otherMarkup (body (passStarted w extraStyles));
                                 paged := Some l |} (passStarted w extraStyles))))).
    apply In_addBodyClass. }
  split; reflexivity.
Qed.

(** The example page, rendered once, is asked for another pass. *)
Lemma successful_pass_posts_in_order_witness :
  postedSince (exampleRendered 9 1)
    (fst (previewSettled (exampleEnv 9 1) (PreviewDone (layoutOf 1 (40 # 100)))
            (fst (handlePagedRender (exampleEnv 9 1) (exampleRendered 9 1) ∅)))) =
    [Rendering; Rendered; RENDER_COMPLETE] /\
  getPageCount
    (fst (previewSettled (exampleEnv 9 1) (PreviewDone (layoutOf 1 (40 # 100)))
            (fst (handlePagedRender (exampleEnv 9 1) (exampleRendered 9 1) ∅)))) = 1.
Proof.
  destruct (successful_pass_posts_in_order (exampleEnv 9 1) (exampleRendered 9 1) ∅
              (layoutOf 1 (40 # 100)))
    as (_ & _ & _ & H4 & _ & _ & H7 & _).
  - by_computation.
  - by_computation.
  - reflexivity.
  - split; [exact H4 | exact H7].
Defined.

(** With no direction chosen, [fitToOnePage] only records its result. *)
Lemma fitToOnePage_none env w :
  chooseDirection (getPageCount w) (checkContentFill w) = DirNone ->
  autoFitResult (fitToOnePage env w) =
  Some {| attempted := true; direction := DirNone;
          success := (getPageCount w =? 1)%nat; iterations := 0;
          pageCount := getPageCount w;
          fillRatio := ratio (checkContentFill w) |}.
Proof.
  intros H. unfold fitToOnePage.
  change (getPageCount (set_isAutoFitting true w)) with (getPageCount w).
  change (checkContentFill (set_isAutoFitting true w)) with (checkContentFill w).
  rewrite H. cbn [direction_eqb]. reflexivity.
Qed.

(** X3. Where neither [window.Paged] nor [window.PagedPolyfill] exists, a
    call of [handlePagedRender] on a free lock runs to its end at once: it
    logs one error and still posts ['rendering'], ['rendered'] and
    ['RENDER_COMPLETE'] and sets [render-complete], although nothing was
    paginated; on a document without pages the page count stays 0, and a
    call of [fitToOnePage] then chooses no direction, makes no iteration and
    records a failure. *)
Theorem without_paged_nothing_is_paginated env w extraStyles :
  isRendering w = false ->
  pendingRenderRequest w = None ->
  pagedAvailable env = false ->
  paged (body w) = None ->
  paged (originalBody w) = None ->
  let w1 := fst (handlePagedRender env w extraStyles) in
  snd (handlePagedRender env w extraStyles) = Settled (Returned tt) /\
  postedSince w w1 = [Rendering; Rendered; RENDER_COMPLETE] /\
  consoleErrors w1 = consoleErrors w ++ ["[Renderer] Paged.js not found"] /\
  isRendering w1 = false /\
  In "render-complete" (bodyClasses w1) /\
  getPageCount w1 = 0 /\
  exists r,
    autoFitResult (fitToOnePage env w1) = Some r /\
    direction r = DirNone /\ success r = false /\ iterations r = 0 /\
    Renderer.pageCount r = 0.
Proof.
  intros Hr Hp Ha Hb Hob. cbn zeta.
  rewrite handlePagedRender_sync by assumption. cbn [fst snd].
  set (w1 := set_isRendering false
               (fst (afterPreview
                       (consoleError "[Renderer] Paged.js not found"
                          (passStarted w extraStyles))))).
  assert (Hcount : getPageCount w1 = 0).
  { unfold w1, getPageCount, afterPreview, passStarted. cbn.
    destruct (bodyTruthy (originalBody w)); [rewrite Hob | rewrite Hb]; reflexivity. }
  split; [reflexivity|].
  split.
  { apply postedSince_app. unfold w1, afterPreview. cbn.
    rewrite <- !app_assoc. reflexivity. }
  split; [reflexivity|]. split; [reflexivity|].
  split.
  { unfold w1, afterPreview. cbn [fst].
    change (In "render-complete"
              (bodyClasses
                 (addBodyClass "render-complete"
                    (consoleError "[Renderer] Paged.js not found"
                       (passStarted w extraStyles))))).
    apply In_addBodyClass. }
  split; [exact Hcount|].
  eexists. split.
  - apply fitToOnePage_none. rewrite Hcount. reflexivity.
  - cbn [direction success iterations Renderer.pageCount]. rewrite Hcount.
    repeat split.
Qed.

(** The example page without Paged.js: the three messages are posted and
    the page count stays 0. *)
Lemma without_paged_nothing_is_paginated_witness :
  postedSince (scriptStart exampleBody exampleHead)
    (fst (handlePagedRender noPagedEnv (scriptStart exampleBody exampleHead) ∅)) =
    [Rendering; Rendered; RENDER_COMPLETE] /\
  getPageCount
    (fst (handlePagedRender noPagedEnv (scriptStart exampleBody exampleHead) ∅)) = 0.
Proof.
  destruct (without_paged_nothing_is_paginated noPagedEnv
              (scriptStart exampleBody exampleHead) ∅)
    as (_ & H2 & _ & _ & _ & H6 & _).
  - reflexivity.
  - reflexivity.
  - reflexivity.
  - reflexivity.
  - reflexivity.
  - split; [exact H2 | exact H6].
Defined.

(** X4. The host switches its sliders and buttons off when it hears that a
    pass has started and on again when it hears ['rendered']: delivered to
    the host, the messages of a pass whose [preview()] resolves leave the
    controls enabled, those of a pass whose [preview()] throws leave them
    disabled, no ['rendered'] being posted on that path. *)
Theorem host_controls_follow_the_pass env w extraStyles outcome c :
  isRendering w = false ->
  pendingRenderRequest w = None ->
  pagedAvailable env = true ->
  let w1 := fst (handlePagedRender env w extraStyles) in
  let w2 := fst (previewSettled env outcome w1) in
  controlsEnabled (deliver (postedSince w w1) c) = false /\
  postedSince w w2 =
    match outcome with
    | PreviewDone _ => [Rendering; Rendered; RENDER_COMPLETE]
    | PreviewThrows _ => [Rendering]
    end /\
  controlsEnabled (deliver (postedSince w w2) c) =
    match outcome with
    | PreviewDone _ => true
    | PreviewThrows _ => false
    end.
Proof.
  intros Hr Hp Ha. cbn zeta.
  rewrite handlePagedRender_async by assumption. cbn [fst].
  rewrite (postedSince_app w (passStarted w extraStyles) [Rendering])
    by apply passStarted_posts.
  split; [reflexivity|].
  rewrite previewSettled_eq, passStarted_pending, Hp. cbn [fst].
  destruct outcome as [l|e].
  - rewrite (postedSince_app w _ [Rendering; Rendered; RENDER_COMPLETE]).
    + split; reflexivity.
    + unfold settledBody, rendered, afterPreview. cbn.
      rewrite <- !app_assoc. reflexivity.
  - rewrite (postedSince_app w _ [Rendering]).
    + split; reflexivity.
    + reflexivity.
Qed.

(** A pass of the example page whose [preview()] throws leaves the controls
    of the host disabled. *)
Lemma host_controls_follow_the_pass_witness :
  controlsEnabled
    (deliver
       (postedSince (exampleRendered 9 1)
          (fst (previewSettled (exampleEnv 9 1) (PreviewThrows "layout failed")
                  (fst (handlePagedRender (exampleEnv 9 1) (exampleRendered 9 1) ∅)))))
       exampleController) = false.
Proof.
  destruct (host_controls_follow_the_pass (exampleEnv 9 1) (exampleRendered 9 1) ∅
              (PreviewThrows "layout failed") exampleController)
    as (_ & _ & H).
  - by_computation.
  - by_computation.
  - reflexivity.
  - exact H.
Defined.

(** ** Content updates *)

Lemma passStarted_body w s :
  body (passStarted w s) = if bodyTruthy (originalBody w) then originalBody w else body w.
Proof. reflexivity. Qed.

(** X5. A content update on a page with its [#content] element and the
    Markdown library is not lost, whether or not a pass is in flight: the
    rendered HTML goes into the document and the document becomes the
    baseline at once; and once the pass in flight, if there is one, has
    settled, whatever its outcome, exactly one further pass has started, on
    a document that holds the new content. *)
Theorem content_update_reaches_the_next_pass env markdown w render old outcome :
  markdownit env = Some render ->
  contentDiv (body w) = Some old ->
  (isRendering w = false -> pendingRenderRequest w = None) ->
  let w' := handleContentUpdate env markdown w in
  let w'' := if isRendering w then fst (previewSettled env outcome w') else w' in
  contentDiv (originalBody w') = Some (render markdown) /\
  contentDiv (body w') = Some (render markdown) /\
  contentLoaded w' = true /\
  (isRendering w = true -> passesStarted w' = passesStarted w) /\
  contentDiv (body w'') = Some (render markdown) /\
  passesStarted w'' = S (passesStarted w) /\
  pendingRenderRequest w'' = None.
Proof.
  intros Hmd Hdiv Hinv. cbn zeta.
  unfold handleContentUpdate. rewrite Hmd, Hdiv.
  set (b := {| contentDiv := Some (render markdown); otherMarkup := otherMarkup (body w);
               paged := paged (body w) |}).
  set (w0 := set_contentLoaded true (set_originalBody b (set_body b w))).
  change (fst (handlePagedRender env
                 (set_contentLoaded true
                    (set_originalBody (body (set_body b w)) (set_body b w))) ∅))
    with (fst (handlePagedRender env w0 ∅)).
  assert (Htruthy : bodyTruthy (originalBody w0) = true) by reflexivity.
  destruct (isRendering w) eqn:Hr.
  - (* a pass is in flight *)
    rewrite (handlePagedRender_locked env w0 ∅) by exact Hr. cbn [fst].
    set (w1 := set_pendingRenderRequest (Some (assign (currentStyles w0) ∅))
                 (set_currentStyles (assign (currentStyles w0) ∅) w0)).
    split; [reflexivity|]. split; [reflexivity|]. split; [reflexivity|].
    split; [intros _; reflexivity|].
    rewrite previewSettled_eq.
    destruct (settledBody_frame outcome w1) as (F1 & F2 & F3 & F4 & F5 & F6).
    change (pendingRenderRequest w1) with (Some (assign (currentStyles w0) ∅)).
    cbn [fst].
    set (w2 := set_pendingRenderRequest None (set_isRendering false (settledBody outcome w1))).
    assert (Hb2 : originalBody w2 = b) by exact F5.
    destruct (handlePagedRender_free env w2 (assign (currentStyles w0) ∅) eq_refl eq_refl)
      as (P1 & P2 & _).
    split.
    { destruct (pagedAvailable env) eqn:Ha.
      - rewrite handlePagedRender_async by first [reflexivity | exact Ha]. cbn [fst].
        rewrite passStarted_body, Hb2. reflexivity.
      - rewrite handlePagedRender_sync by first [reflexivity | exact Ha]. cbn [fst].
        change (contentDiv (body (passStarted w2 (assign (currentStyles w0) ∅))) =
                Some (render markdown)).
        rewrite passStarted_body, Hb2. reflexivity. }
    split; [|exact P2].
    rewrite P1. f_equal.
    change (passesStarted (settledBody outcome w1) = passesStarted w).
    rewrite passesStarted_settledBody. reflexivity.
  - (* the lock is free *)
    specialize (Hinv eq_refl).
    destruct (handlePagedRender_free env w0 ∅ Hr Hinv) as (P1 & P2 & _).
    assert (Hbody : body (fst (handlePagedRender env w0 ∅)) = b).
    { destruct (pagedAvailable env) eqn:Ha.
      - rewrite handlePagedRender_async by first [exact Hr | exact Ha]. reflexivity.
      - rewrite handlePagedRender_sync by first [exact Hr | exact Hinv | exact Ha].
        reflexivity. }
    assert (Hob : originalBody (fst (handlePagedRender env w0 ∅)) = b).
    { destruct (pagedAvailable env) eqn:Ha.
      - rewrite handlePagedRender_async by first [exact Hr | exact Ha]. reflexivity.
      - rewrite handlePagedRender_sync by first [exact Hr | exact Hinv | exact Ha].
        reflexivity. }
    assert (Hcl : contentLoaded (fst (handlePagedRender env w0 ∅)) = true).
    { destruct (pagedAvailable env) eqn:Ha.
      - rewrite handlePagedRender_async by first [exact Hr | exact Ha]. reflexivity.
      - rewrite handlePagedRender_sync by first [exact Hr | exact Hinv | exact Ha].
        reflexivity. }
    rewrite Hob, Hbody. split; [reflexivity|]. split; [reflexivity|].
    split; [exact Hcl|]. split; [discriminate|]. split; [reflexivity|].
    split; [exact P1 | exact P2].
Qed.

(** New content arrives while the first pass of the example page is in
    flight: one more pass starts when that pass has settled. *)
Lemma content_update_reaches_the_next_pass_witness :
  passesStarted
    (fst (previewSettled (exampleEnv 9 1) (PreviewDone (layoutOf 1 (40 # 100)))
            (handleContentUpdate (exampleEnv 9 1) "# New" (exampleLoaded 9 1)))) =
  S (passesStarted (exampleLoaded 9 1)).
Proof.
  destruct (content_update_reaches_the_next_pass (exampleEnv 9 1) "# New"
              (exampleLoaded 9 1) (fun markdown => markdown) "# Resume"
              (PreviewDone (layoutOf 1 (40 # 100))))
    as (_ & _ & _ & _ & _ & H & _).
  - reflexivity.
  - by_computation.
  - intros _. by_computation.
  - exact H.
Defined.

(** X6. A content update that finds no Markdown library, or no [#content]
    element, starts no pass and posts nothing: it writes one line on the
    error console and leaves the baseline, the styles, the lock and the
    pending slot as they were.  Without the library the whole body is
    replaced by an error heading, so that the [#content] element is gone;
    without the element the document is left alone. *)
Theorem content_update_failures_start_no_pass env markdown w :
  markdownit env = None \/ contentDiv (body w) = None ->
  let w' := handleContentUpdate env markdown w in
  toParent w' = toParent w /\
  originalBody w' = originalBody w /\
  contentLoaded w' = contentLoaded w /\
  isRendering w' = isRendering w /\
  pendingRenderRequest w' = pendingRenderRequest w /\
  currentStyles w' = currentStyles w /\
  rootStyle w' = rootStyle w /\
  length (consoleErrors w') = S (length (consoleErrors w)) /\
  (markdownit env = None ->
   body w' = {| contentDiv := None;
                otherMarkup := "<h1>Error: Markdown library not found</h1>";
                paged := None |}) /\
  (markdownit env <> None -> body w' = body w).
Proof.
  intros H. cbn zeta. unfold handleContentUpdate.
  destruct (markdownit env) as [render|] eqn:Hmd.
  - destruct H as [H|H]; [discriminate H|]. rewrite H.
    repeat split; try reflexivity.
    + cbn. rewrite length_app. cbn. lia.
    + discriminate.
  - repeat split; try reflexivity.
    + cbn. rewrite length_app. cbn. lia.
    + intros Hn. congruence.
Qed.

(** On a document without a [#content] element nothing is posted. *)
Lemma content_update_failures_start_no_pass_witness :
  toParent (handleContentUpdate (exampleEnv 9 1) "# New" (scriptStart bareBody exampleHead)) =
  toParent (scriptStart bareBody exampleHead).
Proof.
  destruct (content_update_failures_start_no_pass (exampleEnv 9 1) "# New"
              (scriptStart bareBody exampleHead))
    as (H & _).
  - right. reflexivity.
  - exact H.
Defined.

(** ** The auto-fit as a whole *)

Lemma applyExpandStep_frame env w w1 r :
  applyExpandStep env w = Some (w1, r) ->
  isRendering w1 = isRendering w /\
  pendingRenderRequest w1 = pendingRenderRequest w /\
  passesStarted w1 = passesStarted w.
Proof.
  intros H. apply applyExpandStepFrom_Some in H.
  destruct H as (pre & s & post & val & _ & _ & _ & E).
  injection E as -> _. repeat split; reflexivity.
Qed.

(** The fuel is never what stops the loops: from [maxIterations -
    iteration] on, more fuel changes nothing. *)
Lemma shrinkLoop_fuel env fuel : forall fuel' w pageCount iteration,
  maxIterations - iteration <= fuel ->
  maxIterations - iteration <= fuel' ->
  shrinkLoop env fuel w pageCount iteration = shrinkLoop env fuel' w pageCount iteration.
Proof.
  induction fuel as [|fuel IH]; intros fuel' w pc it Hf Hf'.
  - destruct fuel' as [|fuel']; [reflexivity|]. cbn [shrinkLoop].
    destruct (Nat.ltb_spec it maxIterations) as [Hlt|Hge]; [lia|].
    rewrite andb_false_r. reflexivity.
  - destruct fuel' as [|fuel'].
    + cbn [shrinkLoop].
      destruct (Nat.ltb_spec it maxIterations) as [Hlt|Hge]; [lia|].
      rewrite andb_false_r. reflexivity.
    + cbn [shrinkLoop].
      destruct ((1 <? pc)%nat && (it <? maxIterations)%nat) eqn:Hc; [|reflexivity].
      destruct (applyShrinkStep env w) as [w1|]; [|reflexivity].
      destruct (renderAndCount env w1) as [w2 pc'].
      apply IH; lia.
Qed.

Lemma expandLoop_fuel env fuel : forall fuel' w pageCount iteration,
  maxIterations - iteration <= fuel ->
  maxIterations - iteration <= fuel' ->
  expandLoop env fuel w pageCount iteration = expandLoop env fuel' w pageCount iteration.
Proof.
  induction fuel as [|fuel IH]; intros fuel' w pc it Hf Hf'.
  - destruct fuel' as [|fuel']; [reflexivity|]. cbn [expandLoop].
    destruct (Nat.ltb_spec it maxIterations) as [Hlt|Hge]; [lia|].
    rewrite andb_false_r. reflexivity.
  - destruct fuel' as [|fuel'].
    + cbn [expandLoop].
      destruct (Nat.ltb_spec it maxIterations) as [Hlt|Hge]; [lia|].
      rewrite andb_false_r. reflexivity.
    + cbn [expandLoop].
      destruct ((pc =? 1)%nat && (it <? maxIterations)%nat) eqn:Hc; [|reflexivity].
      destruct (negb (isSparse (checkContentFill w))); [reflexivity|].
      destruct (applyExpandStep env w) as [[w1 [strat prevVal]]|]; [|reflexivity].
      destruct (renderAndCount env w1) as [w2 pc'].
      destruct (1 <? pc')%nat; [reflexivity|].
      apply IH; lia.
Qed.

Lemma expandLoop_spec env fuel : forall w pageCount iteration,
  isRendering w = false ->
  pendingRenderRequest w = None ->
  forall w' pageCount' iteration',
  expandLoop env fuel w pageCount iteration = (w', pageCount', iteration') ->
  iteration <= iteration' /\
  (iteration <= maxIterations -> iteration' <= maxIterations) /\
  (passesStarted w' = passesStarted w + (iteration' - iteration) \/
   passesStarted w' = passesStarted w + (iteration' - iteration) + 2 /\
   iteration' < maxIterations) /\
  isRendering w' = false /\
  pendingRenderRequest w' = None.
Proof.
  induction fuel as [|fuel IH]; intros w pc it Hr Hp w' pc' it'; cbn [expandLoop].
  - intros [= <- <- <-]; repeat split; first [lia | assumption].
  - destruct ((pc =? 1)%nat && (it <? maxIterations)%nat) eqn:C.
    + apply andb_true_iff in C. destruct C as [C1 C2]. apply Nat.ltb_lt in C2.
      destruct (negb (isSparse (checkContentFill w))).
      { intros [= <- <- <-]; repeat split; first [lia | assumption]. }
      destruct (applyExpandStep env w) as [[w1 [strat prevVal]]|] eqn:E.
      * destruct (applyExpandStep_frame env w w1 _ E) as (F1 & F2 & F3).
        destruct (renderAndCount env w1) as [w2 pc2] eqn:R.
        pose proof (renderAndCount_free env w1 (eq_trans F1 Hr) (eq_trans F2 Hp)) as HR.
        rewrite R in HR. cbn [fst snd] in HR.
        destruct HR as (_ & _ & R3 & R4 & R5 & _).
        destruct (1 <? pc2)%nat.
        -- set (w3 := handleStyleUpdate {[ cssVar strat := CssNum prevVal (sUnit strat) ]} w2).
           destruct (renderAndCount env w3) as [w4 pc4] eqn:R'.
           pose proof (renderAndCount_free env w3 R3 R4) as HR'.
           rewrite R' in HR'. cbn [fst snd] in HR'.
           destruct HR' as (_ & _ & S3 & S4 & S5 & _).
           intros [= <- <- <-].
           split; [lia|]. split; [lia|].
           split; [|split; assumption].
           right. split; [|exact C2].
           rewrite S5. change (passesStarted w3) with (passesStarted w2).
           rewrite R5, F3. lia.
        -- intros Hloop.
           destruct (IH w2 pc2 (S it) R3 R4 w' pc' it' Hloop) as (I1 & I2 & I3 & I4 & I5).
           split; [lia|]. split; [lia|].
           split; [|split; assumption].
           destruct I3 as [I3|[I3 I3']]; [left | right; split; [|exact I3']];
             rewrite I3, R5, F3; lia.
      * intros [= <- <- <-]; repeat split; first [lia | assumption].
    + intros [= <- <- <-]; repeat split; first [lia | assumption].
Qed.

(** What the last lines of [fitToOnePage] leave of the world [wl] the
    loops ended in. *)
Lemma autofit_recorded r wl :
  let wf := addBodyClass "autofit-complete"
              (set_isAutoFitting false (set_autoFitResult (Some r) wl)) in
  autoFitResult wf = Some r /\
  getPageCount wf = getPageCount wl /\
  checkContentFill wf = checkContentFill wl /\
  passesStarted wf = passesStarted wl /\
  isRendering wf = isRendering wl /\
  pendingRenderRequest wf = pendingRenderRequest wl /\
  rootStyle wf = rootStyle wl /\
  currentStyles wf = currentStyles wl /\
  body wf = body wl /\
  isAutoFitting wf = false /\
  In "autofit-complete" (bodyClasses wf).
Proof.
  cbn zeta. repeat split; try reflexivity.
  apply (In_addBodyClass "autofit-complete"
           (set_isAutoFitting false (set_autoFitResult (Some r) wl))).
Qed.

(** X7. Called with the lock free, [fitToOnePage] always ends and records
    its result: the page count and the fill ratio it records are those of
    the document it leaves, [success] says whether that count is 1, the
    iterations are at most 25 and the passes started at most 26 (as many as
    iterations when shrinking); when no direction is chosen nothing is
    rendered and no style or content changes.  At the end the lock is free,
    [isAutoFitting] is false and the body carries [autofit-complete]. *)
Theorem autofit_result_contract env w :
  isRendering w = false ->
  pendingRenderRequest w = None ->
  let w' := fitToOnePage env w in
  exists r,
    autoFitResult w' = Some r /\
    attempted r = true /\
    Renderer.pageCount r = getPageCount w' /\
    success r = (getPageCount w' =? 1)%nat /\
    fillRatio r = ratio (checkContentFill w') /\
    iterations r <= 25 /\
    passesStarted w <= passesStarted w' /\
    passesStarted w' <= passesStarted w + 26 /\
    (direction r = DirShrink -> passesStarted w' = passesStarted w + iterations r) /\
    (direction r = DirNone ->
     iterations r = 0 /\ passesStarted w' = passesStarted w /\
     rootStyle w' = rootStyle w /\ currentStyles w' = currentStyles w /\
     body w' = body w) /\
    isRendering w' = false /\
    pendingRenderRequest w' = None /\
    isAutoFitting w' = false /\
    In "autofit-complete" (bodyClasses w').
Proof.
  intros Hr Hp. cbn zeta. unfold fitToOnePage.
  change (getPageCount (set_isAutoFitting true w)) with (getPageCount w).
  change (checkContentFill (set_isAutoFitting true w)) with (checkContentFill w).
  set (w0 := set_isAutoFitting true w).
  destruct (chooseDirection (getPageCount w) (checkContentFill w)) eqn:D;
    cbn [direction_eqb].
  - (* none *)
    match goal with
    | |- context [set_autoFitResult (Some ?r) ?wl] =>
        destruct (autofit_recorded r wl)
          as (A1 & A2 & A3 & A4 & A5 & A6 & A7 & A8 & A9 & A10 & A11);
        exists r
    end.
    rewrite A2, A3, A4, A5, A6, A7, A8, A9.
    cbn [attempted Renderer.pageCount success fillRatio iterations direction].
    change (passesStarted w0) with (passesStarted w).
    split; [exact A1|].
    repeat split; try reflexivity; try lia; try assumption; try discriminate.
  - (* shrink *)
    destruct (shrinkLoop env maxIterations w0 (getPageCount w) 0) as [[w1 pc1] it1] eqn:L.
    pose proof (shrinkLoop_spec env maxIterations w0 (getPageCount w) 0 Hr Hp _ _ _ L)
      as (I1 & I2 & I3 & I4 & I5 & _).
    assert (Hit : it1 <= 25) by (apply I2; unfold maxIterations; lia).
    change (passesStarted w0) with (passesStarted w) in I3.
    match goal with
    | |- context [set_autoFitResult (Some ?r) ?wl] =>
        destruct (autofit_recorded r wl)
          as (A1 & A2 & A3 & A4 & A5 & A6 & A7 & A8 & A9 & A10 & A11);
        exists r
    end.
    rewrite A2, A3, A4, A5, A6.
    cbn [attempted Renderer.pageCount success fillRatio iterations direction].
    split; [exact A1|].
    repeat split; try reflexivity; try lia; try assumption; try discriminate.
  - (* expand *)
    destruct (expandLoop env maxIterations w0 (getPageCount w) 0) as [[w1 pc1] it1] eqn:L.
    pose proof (expandLoop_spec env maxIterations w0 (getPageCount w) 0 Hr Hp _ _ _ L)
      as (I1 & I2 & I3 & I4 & I5).
    assert (Hit : it1 <= 25) by (apply I2; unfold maxIterations; lia).
    change (passesStarted w0) with (passesStarted w) in I3.
    unfold maxIterations in I3.
    match goal with
    | |- context [set_autoFitResult (Some ?r) ?wl] =>
        destruct (autofit_recorded r wl)
          as (A1 & A2 & A3 & A4 & A5 & A6 & A7 & A8 & A9 & A10 & A11);
        exists r
    end.
    rewrite A2, A3, A4, A5, A6.
    cbn [attempted Renderer.pageCount success fillRatio iterations direction].
    split; [exact A1|].
    repeat split; try reflexivity; try lia; try assumption; try discriminate.
Qed.

(** The example page, rendered once, is fitted. *)
Lemma autofit_result_contract_witness :
  exists r,
    autoFitResult (fitToOnePage (exampleEnv 9 1) (exampleRendered 9 1)) = Some r /\
    iterations r <= 25 /\
    isRendering (fitToOnePage (exampleEnv 9 1) (exampleRendered 9 1)) = false.
Proof.
  destruct (autofit_result_contract (exampleEnv 9 1) (exampleRendered 9 1))
    as (r & H1 & _ & _ & _ & _ & H6 & _ & _ & _ & _ & H11 & _).
  - by_computation.
  - by_computation.
  - exists r. repeat split; assumption.
Defined.

(* ===================================================================== *)
(** * Further properties of the store *)
(* ===================================================================== *)

(** ** The history *)

Lemma pushHistory_length entry h :
  length h <= 50 -> length (pushHistory entry h) <= 50.
Proof.
  intros H. unfold pushHistory.
  assert (Hl : length (h ++ [entry]) = S (length h))
    by (rewrite length_app; cbn; lia).
  destruct (Nat.ltb_spec 50 (length (h ++ [entry]))) as [Hlt|Hge]; [|lia].
  destruct (h ++ [entry]) as [|x t]; cbn [tl length] in *; lia.
Qed.

Lemma pushHistory_eq entry h :
  length h <= 50 ->
  pushHistory entry h = (if (length h <? 50)%nat then h else tl h) ++ [entry].
Proof.
  intros H. unfold pushHistory. rewrite length_app. cbn [length].
  destruct (Nat.ltb_spec 50 (length h + 1)) as [Hlt|Hge];
    destruct (Nat.ltb_spec (length h) 50) as [Hlt'|Hge']; try lia; try reflexivity.
  destruct h as [|x h]; [cbn in *; lia | reflexivity].
Qed.

Lemma dispatch_history clock action m :
  match snd (dispatch clock action m) with
  | Returned newState =>
      exists processedAction,
        history (fst (dispatch clock action m)) =
        pushHistory {| hAction := processedAction; hTimestamp := now clock;
                       hOldState := getState m; hNewState := newState |} (history m)
  | Thrown _ => fst (dispatch clock action m) = m
  end.
Proof.
  unfold dispatch.
  destruct (runMiddleware clock (getState m) action (middleware m)) as [processed|e];
    [|reflexivity].
  destruct (reducer clock (getState m) processed) as [s'|e]; [|reflexivity].
  cbn [fst snd]. exists processed. rewrite notifyListeners_eq. reflexivity.
Qed.

(** X8. The history never holds more than 50 entries: a dispatch that
    returns appends one entry, with the state read before and the state
    returned, and drops the oldest one when 50 were there; a dispatch that
    throws leaves the history alone; so that the bound holds after any
    sequence of dispatches. *)
Theorem history_is_capped_at_50 m :
  length (history m) <= 50 ->
  (forall clock action,
     match snd (dispatch clock action m) with
     | Returned newState =>
         exists processedAction,
           history (fst (dispatch clock action m)) =
           (if (length (history m) <? 50)%nat then history m else tl (history m)) ++
           [{| hAction := processedAction; hTimestamp := now clock;
               hOldState := getState m; hNewState := newState |}]
     | Thrown _ => history (fst (dispatch clock action m)) = history m
     end) /\
  (forall steps, length (history (dispatchAll steps m)) <= 50).
Proof.
  intros H. split.
  - intros clock action. pose proof (dispatch_history clock action m) as D.
    destruct (snd (dispatch clock action m)) as [s|e].
    + destruct D as [processed D]. exists processed.
      rewrite D. apply pushHistory_eq. exact H.
    + rewrite D. reflexivity.
  - intros steps. revert m H. unfold dispatchAll.
    induction steps as [|[clock action] steps IH]; intros m H; cbn [fold_left fst snd].
    + exact H.
    + apply IH. pose proof (dispatch_history clock action m) as D.
      destruct (snd (dispatch clock action m)) as [s|e].
      * destruct D as [processed D]. rewrite D. apply pushHistory_length. exact H.
      * rewrite D. exact H.
Qed.

(** The store of the constructor, after two dispatches. *)
Lemma history_is_capped_at_50_witness :
  length (history (dispatchAll [(noon, updateFontSize); (noon, unknownAction)]
                     newStateManager)) <= 50.
Proof.
  destruct (history_is_capped_at_50 newStateManager) as (_ & H).
  - cbn. lia.
  - apply H.
Defined.

(** ** Dispatches that throw *)

Lemma pagedJsMiddleware_result clock action s :
  exists result,
    pagedJsMiddleware clock action s = Returned (Some result) /\
    type result = type action /\ payload result = payload action.
Proof.
  unfold pagedJsMiddleware.
  destruct (existsb (String.eqb (type action)) renderTriggerActions).
  - destruct (queueOf s) as [queue|].
    + destruct (existsb (similarTask clock (type action)) queue).
      * destruct (String.eqb (type action) "PAGEDJS_STATE_CHANGE").
        -- destruct (getProp (payload action) "addRenderTask") as [t|].
           ++ destruct (truthy t); eexists; repeat split.
           ++ eexists; repeat split.
        -- eexists; repeat split.
      * eexists; repeat split.
    + eexists; repeat split.
  - destruct (String.eqb (type action) "PAGEDJS_STATE_CHANGE").
    + destruct (getProp (payload action) "addRenderTask") as [t|].
      * destruct (truthy t); eexists; repeat split.
      * eexists; repeat split.
    + eexists; repeat split.
Qed.

Lemma runMiddleware_pagedJsOnly clock s chain : forall action,
  Forall (fun mw => mw = pagedJsMiddleware) chain ->
  exists processedAction,
    runMiddleware clock s action chain = Returned processedAction /\
    type processedAction = type action /\ payload processedAction = payload action.
Proof.
  induction chain as [|mw chain IH]; intros action H; cbn [runMiddleware].
  - exists action. repeat split.
  - inversion H as [|? ? Hmw Hchain]; subst.
    destruct (pagedJsMiddleware_result clock action s) as (r & E & Ht & Hp).
    rewrite E. destruct (IH r Hchain) as (processed & E' & Ht' & Hp').
    exists processed. split; [exact E'|]. split; congruence.
Qed.




(** ** What the reducer writes *)

Lemma getField_assigned k base fields :
  getField k (fold_left (fun acc kx => setField (fst kx) (snd kx) acc) fields base) =
  match lastEntry k fields with
  | Some v => v
  | None => getField k base
  end.
Proof.
  unfold lastEntry.
  induction fields as [|[k' x] fields IH] using rev_ind; [reflexivity|].
  rewrite !fold_left_app. cbn [fold_left fst snd].
  rewrite getField_setField, IH.
  destruct (String.eqb k k'); reflexivity.
Qed.

(** What a spread leaves under a key: the last value the source gives it,
    or else the value of the target. *)
Lemma entry_spread k target fields :
  entry k (spread target (JObj fields)) =
  match lastEntry k fields with
  | Some v => v
  | None => entry k target
  end.
Proof.
  unfold entry, spread. cbn [ownEntries]. apply getField_assigned.
Qed.

Lemma lastEntry_filtered k k0 fields :
  lastEntry k (List.filter (fun kx => negb (String.eqb (fst kx) k0)) fields) =
  if String.eqb k k0 then None else lastEntry k fields.
Proof.
  unfold lastEntry.
  enough (H : forall found,
            fold_left (fun found kx => if String.eqb k (fst kx) then Some (snd kx) else found)
              (List.filter (fun kx => negb (String.eqb (fst kx) k0)) fields) found =
            if String.eqb k k0 then found
            else fold_left (fun found kx => if String.eqb k (fst kx) then Some (snd kx)
                                            else found) fields found)
    by apply H.
  induction fields as [|[k' x] fields IH]; intros found; cbn [List.filter fold_left fst snd].
  - destruct (String.eqb k k0); reflexivity.
  - destruct (String.eqb_spec k' k0) as [->|Hne]; cbn [negb fold_left fst snd].
    + rewrite IH. destruct (String.eqb_spec k k0) as [->|Hk]; [reflexivity|].
      reflexivity.
    + rewrite IH. destruct (String.eqb_spec k k0) as [->|Hk]; [|reflexivity].
      destruct (String.eqb_spec k0 k'); [congruence | reflexivity].
Qed.

Lemma dispatch_reduced clock action m :
  pagedJsOnly m ->
  exists processedAction,
    type processedAction = type action /\
    payload processedAction = payload action /\
    forall newState,
      reducer clock (getState m) processedAction = Returned newState ->
      snd (dispatch clock action m) = Returned newState /\
      state (fst (dispatch clock action m)) = newState /\
      notifications (fst (dispatch clock action m)) =
        notifications m ++
        map (callOf processedAction (getState m) newState) (allSubscribers m).
Proof.
  intros Hmw.
  destruct (runMiddleware_pagedJsOnly clock (getState m) (middleware m) action Hmw)
    as (processed & E & Ht & Hp).
  exists processed. split; [exact Ht|]. split; [exact Hp|].
  intros newState Hred. unfold dispatch. rewrite E, Hred. cbn [fst snd].
  rewrite notifyListeners_eq. repeat split.
Qed.

(** X10. [SET_STYLES] never stores the [source] tag of its payload: after
    the dispatch the [source] entry of the styles is the one read before;
    every other key of the payload holds the last value the payload gives
    it, the other entries of the styles are as read before, and so are the
    other four parts of the state. *)
Theorem set_styles_never_stores_source clock action fields m :
  pagedJsOnly m ->
  type action = "SET_STYLES" ->
  payload action = JObj fields ->
  let m' := fst (dispatch clock action m) in
  snd (dispatch clock action m) = Returned (state m') /\
  entry "source" (styles (state m')) = entry "source" (styles (getState m)) /\
  (forall k, k <> "source" ->
     entry k (styles (state m')) =
     match lastEntry k fields with
     | Some v => v
     | None => entry k (styles (getState m))
     end) /\
  content (state m') = content (getState m) /\
  pagedjs (state m') = pagedjs (getState m) /\
  ui (state m') = ui (getState m) /\
  files (state m') = files (getState m).
Proof.
  intros Hmw Ht Hp. cbn zeta.
  destruct (dispatch_reduced clock action m Hmw) as (processed & Ht' & Hp' & Hd).
  assert (Hred : reducer clock (getState m) processed =
                 Returned {| content := content (getState m);
                             styles := spread (styles (getState m))
                                         (restWithout "source" (JObj fields));
                             pagedjs := pagedjs (getState m); ui := ui (getState m);
                             files := files (getState m) |}).
  { unfold reducer. rewrite Ht', Ht, Hp', Hp. cbn [String.eqb Ascii.eqb Bool.eqb].
    unfold getState. rewrite cloneState_idempotent. reflexivity. }
  destruct (Hd _ Hred) as (D1 & D2 & _).
  rewrite D2. cbn [content styles pagedjs ui files].
  split; [exact D1|].
  unfold restWithout. cbn [ownEntries].
  split.
  { rewrite entry_spread, lastEntry_filtered. reflexivity. }
  split; [|repeat split].
  intros k Hk. rewrite entry_spread, lastEntry_filtered.
  destruct (String.eqb_spec k "source"); [congruence | reflexivity].
Qed.

(** A [SET_STYLES] tagged by the slider: the font size is stored, the tag
    is not. *)
Lemma set_styles_never_stores_source_witness :
  entry "source" (styles (state (fst (dispatch noon setStylesFromSlider newStateManager)))) =
    entry "source" (styles (getState newStateManager)) /\
  entry "fontSize" (styles (state (fst (dispatch noon setStylesFromSlider newStateManager)))) =
    num 12.
Proof.
  destruct (set_styles_never_stores_source noon setStylesFromSlider
              [("source", JStr "slider"); ("fontSize", num 12)] newStateManager)
    as (_ & H2 & H3 & _).
  - constructor.
  - reflexivity.
  - reflexivity.
  - split; [exact H2|]. apply (H3 "fontSize"). discriminate.
Defined.

(** X11. [RESET_STATE] puts the content and the Paged.js state back to
    their initial values, the render queue included, whatever was going on;
    it keeps the styles and the files as read before, and of the UI state
    everything but [loading], which becomes [false]. *)
Theorem reset_state_keeps_styles_and_files clock action m :
  pagedJsOnly m ->
  type action = "RESET_STATE" ->
  let m' := fst (dispatch clock action m) in
  snd (dispatch clock action m) = Returned (state m') /\
  content (state m') = initialContent /\
  pagedjs (state m') = initialPagedjs /\
  queueOf (getState m') = Some [] /\
  styles (state m') = styles (getState m) /\
  files (state m') = files (getState m) /\
  entry "loading" (ui (state m')) = JBool false /\
  (forall k, k <> "loading" -> entry k (ui (state m')) = entry k (ui (getState m))).
Proof.
  intros Hmw Ht. cbn zeta.
  destruct (dispatch_reduced clock action m Hmw) as (processed & Ht' & Hp' & Hd).
  assert (Hred : reducer clock (getState m) processed =
                 Returned {| content := initialContent;
                             styles := styles (getState m);
                             pagedjs := initialPagedjs;
                             ui := spread (ui (getState m)) (JObj [("loading", JBool false)]);
                             files := files (getState m) |}).
  { unfold reducer. rewrite Ht', Ht. cbn [String.eqb Ascii.eqb Bool.eqb].
    unfold getState. rewrite cloneState_idempotent. reflexivity. }
  destruct (Hd _ Hred) as (D1 & D2 & _).
  unfold queueOf, getState at 1. rewrite D2. cbn [content styles pagedjs ui files cloneState].
  split; [exact D1|].
  split; [reflexivity|]. split; [reflexivity|]. split; [reflexivity|].
  split; [reflexivity|]. split; [reflexivity|].
  split.
  - rewrite entry_spread. reflexivity.
  - intros k Hk. rewrite entry_spread. unfold lastEntry. cbn [fold_left fst snd].
    destruct (String.eqb_spec k "loading"); [congruence | reflexivity].
Qed.

(** The store of the example burst, two tasks queued, is reset: the queue
    is empty. *)
Lemma reset_state_keeps_styles_and_files_witness :
  queueOf (getState (fst (dispatch afterDebounce resetState (stateManager exampleBurst)))) =
    Some [].
Proof.
  destruct (reset_state_keeps_styles_and_files afterDebounce resetState
              (stateManager exampleBurst))
    as (_ & _ & _ & H & _).
  - unfold pagedJsOnly.
    assert (E : middleware (stateManager exampleBurst) = [pagedJsMiddleware])
      by by_computation.
    rewrite E. repeat constructor.
  - reflexivity.
  - exact H.
Defined.

(** ** Subscribing and unsubscribing *)

Lemma removeFirst_absent id callbacks :
  Forall (fun l' => listenerId l' <> id) callbacks ->
  removeFirst id callbacks = callbacks.
Proof.
  induction 1 as [|l' callbacks Hl _ IH]; cbn [removeFirst]; [reflexivity|].
  destruct (Nat.eqb_spec (listenerId l') id); [congruence|]. rewrite IH. reflexivity.
Qed.

Lemma removeFirst_last l callbacks :
  Forall (fun l' => listenerId l' <> listenerId l) callbacks ->
  removeFirst (listenerId l) (callbacks ++ [l]) = callbacks.
Proof.
  induction 1 as [|l' callbacks Hl _ IH]; cbn [removeFirst app].
  - rewrite Nat.eqb_refl. reflexivity.
  - destruct (Nat.eqb_spec (listenerId l') (listenerId l)); [congruence|].
    rewrite IH. reflexivity.
Qed.

Lemma unsubscribe_absent key id ls :
  (forall callbacks, In (key, callbacks) ls ->
     Forall (fun l' => listenerId l' <> id) callbacks) ->
  map (fun kc => if String.eqb (fst kc) key
                 then (fst kc, removeFirst id (snd kc)) else kc) ls = ls.
Proof.
  induction ls as [|[k callbacks] ls IH]; intros H; cbn [map fst snd]; [reflexivity|].
  rewrite IH by (intros c Hc; apply H; right; exact Hc).
  destruct (String.eqb_spec k key) as [->|Hne]; [|reflexivity].
  rewrite removeFirst_absent by (apply H; left; reflexivity). reflexivity.
Qed.

Lemma unsubscribe_addListener key l ls :
  (forall callbacks, In (key, callbacks) ls ->
     Forall (fun l' => listenerId l' <> listenerId l) callbacks) ->
  flat_map (fun kc => map (pair (fst kc)) (snd kc))
    (map (fun kc => if String.eqb (fst kc) key
                    then (fst kc, removeFirst (listenerId l) (snd kc)) else kc)
       (addListener key l ls)) =
  flat_map (fun kc => map (pair (fst kc)) (snd kc)) ls.
Proof.
  induction ls as [|[k callbacks] ls IH]; intros H; cbn [addListener].
  - cbn. rewrite String.eqb_refl. cbn. rewrite Nat.eqb_refl. reflexivity.
  - destruct (String.eqb_spec key k) as [<-|Hne]; cbn [map flat_map fst snd].
    + rewrite String.eqb_refl.
      rewrite removeFirst_last by (apply H; left; reflexivity).
      rewrite unsubscribe_absent by (intros c Hc; apply H; right; exact Hc).
      reflexivity.
    + destruct (String.eqb_spec k key); [congruence|].
      rewrite IH by (intros c Hc; apply H; right; exact Hc). reflexivity.
Qed.

Lemma In_addListener key l ls :
  In (key, l) (flat_map (fun kc => map (pair (fst kc)) (snd kc)) (addListener key l ls)).
Proof.
  induction ls as [|[k callbacks] ls IH]; cbn [addListener].
  - left. reflexivity.
  - destruct (String.eqb_spec key k) as [<-|Hne]; cbn [flat_map fst snd].
    + apply in_or_app. left. rewrite map_app. apply in_or_app. right. left. reflexivity.
    + apply in_or_app. right. exact IH.
Qed.

(** X12. The function [subscribe] returns undoes the subscription: when
    the callback was not already registered under the key, a dispatch after
    subscribing calls it, and after unsubscribing the subscribers called are
    those of before, in the same order; unsubscribing a second time changes
    nothing. *)
Theorem unsubscribe_undoes_subscribe key l m :
  (forall callbacks, In (key, callbacks) (listeners m) ->
     Forall (fun l' => listenerId l' <> listenerId l) callbacks) ->
  let m1 := subscribe key l m in
  let m2 := unsubscribe key (listenerId l) m1 in
  In (key, l) (allSubscribers m1) /\
  allSubscribers m2 = allSubscribers m /\
  allSubscribers (unsubscribe key (listenerId l) m2) = allSubscribers m /\
  state m2 = state m /\ middleware m2 = middleware m /\ history m2 = history m.
Proof.
  intros H. cbn zeta. unfold allSubscribers, subscribe, unsubscribe. cbn.
  split; [apply In_addListener|].
  assert (E : flat_map (fun kc => map (pair (fst kc)) (snd kc))
                (map (fun kc => if String.eqb (fst kc) key
                                then (fst kc, removeFirst (listenerId l) (snd kc)) else kc)
                   (addListener key l (listeners m))) =
              flat_map (fun kc => map (pair (fst kc)) (snd kc)) (listeners m))
    by (apply unsubscribe_addListener; exact H).
  split; [exact E|].
  split; [|repeat split].
  rewrite (unsubscribe_absent key (listenerId l)
             (map (fun kc => if String.eqb (fst kc) key
                             then (fst kc, removeFirst (listenerId l) (snd kc)) else kc)
                (addListener key l (listeners m)))); [exact E|].
  intros callbacks Hin. apply in_map_iff in Hin.
  destruct Hin as ([k c] & Heq & Hin). cbn [fst snd] in Heq.
  destruct (String.eqb_spec k key) as [->|Hne];
    [injection Heq as <- | injection Heq as Hk _; congruence].
  clear E. revert c Hin. generalize (listeners m) H. clear.
  intros ls. induction ls as [|[k0 c0] ls IH]; intros H c Hin; cbn [addListener] in Hin.
  -
 destruct Hin as [[= <-]|[]]. cbn. rewrite Nat.eqb_refl. constructor.
  - destruct (String.eqb_spec key k0) as [<-|Hne].
    + destruct Hin as [[= <-]|Hin].
      * rewrite removeFirst_last by (apply H; left; reflexivity).
        apply H. left. reflexivity.
      * rewrite removeFirst_absent by (apply H; right; exact Hin).
        apply H. right. exact Hin.
    + destruct Hin as [[= <- <-]|Hin]; [congruence|].
      apply IH; [|exact Hin]. intros c' Hc'. apply H. right. exact Hc'.
Qed.

(** A third subscriber comes and goes on the store with two. *)
Lemma unsubscribe_undoes_subscribe_witness :
  allSubscribers
    (unsubscribe "styles" 3
       (subscribe "styles" {| listenerId := 3; callback := fun _ _ _ => Returned tt |}
          twoTopics)) =
  allSubscribers twoTopics.
Proof.
  destruct (unsubscribe_undoes_subscribe "styles"
              {| listenerId := 3; callback := fun _ _ _ => Returned tt |} twoTopics)
    as (_ & H & _).
  - intros callbacks Hin. vm_compute in Hin.
    destruct Hin as [Hin | [Hin | []]]; injection Hin as <-;
      repeat constructor; discriminate.
  - exact H.
Defined.

(* ===================================================================== *)
(** * Further properties of the render task queue *)
(* ===================================================================== *)

(** ** The debounce timer *)

Lemma dispatchIn_timers clock action p :
  timersOf (fst (dispatchIn clock action p)) = timersOf p.
Proof.
  unfold dispatchIn. destruct (dispatch clock action (stateManager p)) as [m [s|e]];
    reflexivity.
Qed.

(** The [catch] and [finally] of [processQueue] leave the timers alone. *)
Ltac caught_keeps_timers D :=
  unfold tryCatchFinally, throw, Queue.catchBlock, Queue.finallyBlock;
  match goal with
  | |- context [dispatchIn ?c ?a ?q] =>
      let D' := fresh "D" in
      pose proof (dispatchIn_timers c a q) as D';
      destruct (dispatchIn c a q) as [? [[]|?]];
      cbn [fst] in D' |- *; exact (eq_trans D' D)
  end.

Lemma processQueue_timers clock p : timersOf (fst (processQueue clock p)) = timersOf p.
Proof.
  unfold processQueue.
  destruct (getProp (pagedjs (getState (stateManager p))) "isRendering") as [rendering|];
    [|reflexivity].
  destruct (queueOf (getState (stateManager p))) as [queue|]; [|reflexivity].
  destruct (isProcessing p || truthy rendering || (length queue =? 0)%nat); [reflexivity|].
  unfold tryBeforeAwait.
  pose proof (dispatchIn_timers clock
                (pagedjsChange [("isRendering", JBool true); ("error", JNull)])
                (set_isProcessing true p)) as D.
  destruct (dispatchIn clock _ (set_isProcessing true p)) as [p1 [[]|e]]; cbn [fst] in D.
  - destruct (sortByPriority queue) as [|nextTask rest]; [caught_keeps_timers D|].
    unfold executeRenderTask.
    destruct (getProp nextTask "id"); [|caught_keeps_timers D].
    destruct (managerReady p1); [|exact D].
    destruct (getProp nextTask "reason"); [|caught_keeps_timers D].
    destruct (getProp nextTask "priority"); [exact D | caught_keeps_timers D].
  - caught_keeps_timers D.
Qed.

Lemma executorSettled_timers clock outcome p :
  timersOf (fst (executorSettled clock outcome p)) = timersOf p.
Proof.
  unfold executorSettled, tryCatchFinally, Queue.catchBlock, Queue.finallyBlock.
  destruct outcome as [[]|e].
  - pose proof (dispatchIn_timers clock
                  (pagedjsChange [("isRendering", JBool false);
                                  ("lastRenderTime", JDate (now clock));
                                  ("renderQueue", JArr []); ("error", JNull)]) p) as D.
    destruct (dispatchIn clock _ p) as [p1 [[]|e]]; cbn [fst] in D |- *; [exact D|].
    match goal with
    | |- context [dispatchIn ?c ?a ?q] =>
        pose proof (dispatchIn_timers c a q) as D';
        destruct (dispatchIn c a q) as [? [[]|?]];
        cbn [fst] in D' |- *; exact (eq_trans D' D)
    end.
  - match goal with
    | |- context [dispatchIn ?c ?a ?q] =>
        pose proof (dispatchIn_timers c a q) as D';
        destruct (dispatchIn c a q) as [? [[]|?]];
        cbn [fst] in D' |- *; exact D'
    end.
Qed.

(** At most one timer is pending, and it is the one set last. *)
Lemma scheduleProcessing_timers p :
  pendingTimeouts p = [] \/
  (exists h, processingTimeout p = Some h /\ pendingTimeouts p = [h]) ->
  processingTimeout (scheduleProcessing p) = Some (S (timeoutsCreated p)) /\
  pendingTimeouts (scheduleProcessing p) = [S (timeoutsCreated p)] /\
  timeoutsCreated (scheduleProcessing p) = S (timeoutsCreated p).
Proof.
  intros H. unfold scheduleProcessing.
  destruct (processingTimeout p) as [h|] eqn:Eh; cbn.
  - destruct H as [H|(h' & [= <-] & H)]; rewrite H; cbn.
    + repeat split.
    + rewrite Nat.eqb_refl. repeat split.
  - destruct H as [H|(h' & Hh & _)]; [|discriminate Hh]. rewrite H. repeat split.
Qed.

Lemma atMostOneTimer_timers p p' :
  timersOf p' = timersOf p -> atMostOneTimer p -> atMostOneTimer p'.
Proof.
  unfold timersOf, atMostOneTimer. intros [= -> -> ->] H. exact H.
Qed.

Lemma atMostOneTimer_scheduleProcessing p :
  atMostOneTimer p -> atMostOneTimer (scheduleProcessing p).
Proof.
  intros [H Hle].
  destruct (scheduleProcessing_timers p H) as (E1 & E2 & E3).
  split.
  - right. exists (S (timeoutsCreated p)). split; assumption.
  - rewrite E2, E3. constructor; [lia | constructor].
Qed.

Lemma atMostOneTimer_fired h p :
  atMostOneTimer p ->
  atMostOneTimer
    (set_pendingTimeouts
       (List.filter (fun h' => negb (Nat.eqb h h')) (pendingTimeouts p)) p).
Proof.
  intros [H Hle]. split.
  - cbn. destruct H as [H|(h0 & Hh & H)]; rewrite H; cbn.
    + left. reflexivity.
    + destruct (Nat.eqb h h0); cbn; [left; reflexivity|].
      right. exists h0. split; [exact Hh | reflexivity].
  - cbn. apply List.Forall_forall. intros x Hx. apply filter_In in Hx.
    rewrite List.Forall_forall in Hle. apply Hle. apply Hx.
Qed.

Lemma atMostOneTimer_react p ev : atMostOneTimer p -> atMostOneTimer (processorReact p ev).
Proof.
  intros H. destruct ev as [clock action|clock h|clock outcome]; cbn [processorReact].
  - unfold dispatchAndReact.
    destruct (runMiddleware clock _ action _) as [processed|e]; [|exact H].
    pose proof (dispatchIn_timers clock action p) as D.
    destruct (dispatchIn clock action p) as [p1 [[]|e]]; cbn [fst] in D;
      [|exact (atMostOneTimer_timers _ _ D H)].
    pose proof (atMostOneTimer_timers _ _ D H) as H1.
    unfold onAction.
    destruct (getProp (meta processed) "triggersRender") as [triggers|]; [|exact H1].
    destruct (getProp (meta processed) "renderTask") as [renderTask|]; [|exact H1].
    destruct (truthy triggers); [|exact H1].
    unfold addTaskToQueue.
    destruct (queuedTasks (stateManager p1)) as [tasks|]; [|exact H1].
    match goal with
    | |- context [dispatchIn ?c ?a ?q] =>
        pose proof (dispatchIn_timers c a q) as D';
        destruct (dispatchIn c a q) as [p2 [[]|e]]
    end; cbn [fst] in D' |- *.
    + apply atMostOneTimer_scheduleProcessing.
      exact (atMostOneTimer_timers _ _ D' H1).
    + exact (atMostOneTimer_timers _ _ D' H1).
  - unfold timeoutFires. destruct (existsb (Nat.eqb h) (pendingTimeouts p)); [|exact H].
    eapply atMostOneTimer_timers; [apply processQueue_timers|].
    apply atMostOneTimer_fired. exact H.
  - destruct (isProcessing p); [|exact H].
    eapply atMostOneTimer_timers; [apply executorSettled_timers | exact H].
Qed.

(** X13. Whatever actions are dispatched, timers come due and calls of the
    executor settle, a processor has at most one debounce timer pending, the
    one it set last; a timer that was cleared or has fired does nothing when
    it comes due; and scheduling again clears the pending timer and sets one
    new timer in its place. *)
Theorem debounce_keeps_one_timer m ready evs :
  let p := runProcessor evs (initPagedJsMiddleware m ready) in
  (pendingTimeouts p = [] \/
   exists h, processingTimeout p = Some h /\ pendingTimeouts p = [h]) /\
  (forall clock h, ~ In h (pendingTimeouts p) -> timeoutFires clock h p = (p, Skipped)) /\
  (exists h',
     pendingTimeouts (scheduleProcessing p) = [h'] /\
     processingTimeout (scheduleProcessing p) = Some h' /\
     ~ In h' (pendingTimeouts p)).
Proof.
  cbn zeta.
  assert (H : atMostOneTimer (runProcessor evs (initPagedJsMiddleware m ready))).
  { assert (H0 : atMostOneTimer (initPagedJsMiddleware m ready))
      by (split; [left; reflexivity | constructor]).
    revert H0. generalize (initPagedJsMiddleware m ready). unfold runProcessor.
    induction evs as [|ev evs IH]; intros p Hp; cbn [fold_left]; [exact Hp|].
    apply IH. apply atMostOneTimer_react. exact Hp. }
  set (p := runProcessor evs (initPagedJsMiddleware m ready)) in *.
  destruct H as [H Hle]. split; [exact H|]. split.
  - intros clock h Hn. unfold timeoutFires.
    destruct (existsb (Nat.eqb h) (pendingTimeouts p)) eqn:E; [|reflexivity].
    exfalso. apply Hn. apply existsb_exists in E. destruct E as (x & Hx & Ex).
    apply Nat.eqb_eq in Ex. subst x. exact Hx.
  - destruct (scheduleProcessing_timers p H) as (E1 & E2 & E3).
    exists (S (timeoutsCreated p)). split; [exact E2|]. split; [exact E1|].
    intros Hin. rewrite List.Forall_forall in Hle. specialize (Hle _ Hin). lia.
Qed.

(** ** The task that is picked *)

Lemma comesAfter_iff a b x y :
  priorityOf a = Some x -> priorityOf b = Some y ->
  (comesAfter a b = true <-> (y < x)%Q) /\ (comesAfter a b = false <-> (x <= y)%Q).
Proof.
  intros Ha Hb. unfold comesAfter. rewrite Ha, Hb. split.
  - apply Qltb_lt.
  - apply Qltb_ge.
Qed.

Lemma insertTask_permutation a sorted : Permutation (insertTask a sorted) (a :: sorted).
Proof.
  induction sorted as [|b sorted IH]; cbn [insertTask]; [reflexivity|].
  destruct (comesAfter a b); [|reflexivity].
  rewrite IH. apply perm_swap.
Qed.

Lemma sortByPriority_permutation queue : Permutation (sortByPriority queue) queue.
Proof.
  induction queue as [|a queue IH]; cbn; [reflexivity|].
  rewrite insertTask_permutation. apply perm_skip. exact IH.
Qed.

Lemma sortByPriority_first queue : forall nextTask rest,
  Forall (fun t => exists q, priorityOf t = Some q) queue ->
  sortByPriority queue = nextTask :: rest ->
  exists (pre post : list JsVal) (x : Q),
    queue = pre ++ nextTask :: post /\
    priorityOf nextTask = Some x /\
    Forall (fun t => exists y, priorityOf t = Some y /\ (x < y)%Q) pre /\
    Forall (fun t => exists y, priorityOf t = Some y /\ (x <= y)%Q) post.
Proof.
  induction queue as [|a queue IH]; intros nextTask rest Hnum Hsort; [discriminate Hsort|].
  inversion Hnum as [|? ? [xa Ha] Hnum']; subst.
  cbn in Hsort. fold (sortByPriority queue) in Hsort.
  destruct (sortByPriority queue) as [|b r] eqn:Es.
  - cbn in Hsort. injection Hsort as <- <-.
    assert (queue = []) as ->.
    { destruct queue as [|c queue]; [reflexivity|].
      destruct (sortByPriority_nonempty (c :: queue)) as (t & r & E); [discriminate|].
      congruence. }
    exists [], [], xa. repeat split; try assumption; constructor.
  - destruct (IH b r Hnum' eq_refl) as (pre & post & xb & Hq & Hb & Hpre & Hpost).
    cbn [insertTask] in Hsort.
    destruct (comesAfter_iff a b xa xb Ha Hb) as [Hlt Hle].
    destruct (comesAfter a b) eqn:C.
    + injection Hsort as <- <-.
      exists (a :: pre), post, xb. rewrite Hq.
      split; [reflexivity|]. split; [exact Hb|].
      split; [|exact Hpost].
      constructor; [|exact Hpre]. exists xa. split; [exact Ha|]. apply Hlt. reflexivity.
    + injection Hsort as <- <-.
      assert (Hab : (xa <= xb)%Q) by (apply Hle; reflexivity).
      exists [], queue, xa.
      split; [reflexivity|]. split; [exact Ha|]. split; [constructor|].
      rewrite Hq. apply Forall_app. split.
      * eapply List.Forall_impl; [|exact Hpre].
        intros t (y & Hy & Hlt'). exists y. split; [exact Hy|].
        apply Qlt_le_weak. eapply Qle_lt_trans; eassumption.
      * constructor.
        -- exists xb. split; assumption.
        -- eapply List.Forall_impl; [|exact Hpost].
           intros t (y & Hy & Hle'). exists y. split; [exact Hy|].
           eapply Qle_trans; eassumption.
Qed.

(** X14. Sorting the queue loses and adds no task, and the task
    [processQueue] takes, the head of the sorted queue, is the oldest of the
    tasks of the lowest priority number: every task queued before it has a
    strictly higher number, every task queued after it a number at least as
    high. *)
Theorem oldest_task_of_lowest_priority_is_picked queue nextTask rest :
  Forall (fun t => exists q, priorityOf t = Some q) queue ->
  sortByPriority queue = nextTask :: rest ->
  Permutation (nextTask :: rest) queue /\
  exists (pre post : list JsVal) (x : Q),
    queue = pre ++ nextTask :: post /\
    priorityOf nextTask = Some x /\
    Forall (fun t => exists y, priorityOf t = Some y /\ (x < y)%Q) pre /\
    Forall (fun t => exists y, priorityOf t = Some y /\ (x <= y)%Q) post.
Proof.
  intros Hnum Hsort. split.
  - rewrite <- Hsort. apply sortByPriority_permutation.
  - apply (sortByPriority_first queue nextTask rest Hnum Hsort).
Qed.

(** Of the three example tasks the first content task is picked. *)
Lemma oldest_task_of_lowest_priority_is_picked_witness :
  exists (pre post : list JsVal) (x : Q),
    exampleTasks = pre ++ hd JUndefined (sortByPriority exampleTasks) :: post /\
    priorityOf (hd JUndefined (sortByPriority exampleTasks)) = Some x /\
    Forall (fun t => exists y, priorityOf t = Some y /\ (x < y)%Q) pre /\
    Forall (fun t => exists y, priorityOf t = Some y /\ (x <= y)%Q) post.
Proof.
  destruct (oldest_task_of_lowest_priority_is_picked exampleTasks
              (hd JUndefined (sortByPriority exampleTasks))
              (tl (sortByPriority exampleTasks)))
    as (_ & H).
  - repeat constructor; eexists; reflexivity.
  - reflexivity.
  - exact H.
Defined.

(** ** Enqueueing *)

Lemma dispatchIn_frame clock action p :
  isProcessing (fst (dispatchIn clock action p)) = isProcessing p /\
  executorCalls (fst (dispatchIn clock action p)) = executorCalls p /\
  managerReady (fst (dispatchIn clock action p)) = managerReady p /\
  processorConsole (fst (dispatchIn clock action p)) = processorConsole p /\
  stateManager (fst (dispatchIn clock action p)) =
    fst (dispatch clock action (stateManager p)).
Proof.
  unfold dispatchIn. destruct (dispatch clock action (stateManager p)) as [m [s|e]];
    repeat split.
Qed.

Lemma dispatch_middleware clock action m :
  middleware (fst (dispatch clock action m)) = middleware m.
Proof.
  unfold dispatch.
  destruct (runMiddleware clock (getState m) action (middleware m)) as [processed|e];
    [|reflexivity].
  destruct (reducer clock (getState m) processed) as [s'|e]; [|reflexivity].
  cbn [fst]. rewrite notifyListeners_eq. reflexivity.
Qed.











(** ** A processor without its executor *)

(** X16. Where [window.pagedJsManager] is missing, the firing of the timer
    on a non-empty queue still goes through: the store is marked as
    rendering, a warning is logged and no executor is called; and when the
    simulated delay is over the whole queue is cleared, the tasks having
    been rendered by nobody. *)
Theorem missing_manager_clears_the_queue_unrendered clock clock' p rendering queue :
  pagedJsOnly (stateManager p) ->
  managerReady p = false ->
  isProcessing p = false ->
  getProp (pagedjs (getState (stateManager p))) "isRendering" = Some rendering ->
  truthy rendering = false ->
  queueOf (getState (stateManager p)) = Some queue ->
  queue <> [] ->
  forallb isObject queue = true ->
  exists nextTask p1,
    processQueue clock p = (p1, Awaiting nextTask) /\
    executorCalls p1 = executorCalls p /\
    processorConsole p1 = processorConsole p ++ ["PagedJsManager not ready"] /\
    getProp (pagedjs (state (stateManager p1))) "isRendering" = Some (JBool true) /\
    let p2 := fst (executorSettled clock' (Returned tt) p1) in
    queueOf (getState (stateManager p2)) = Some [] /\
    executorCalls p2 = executorCalls p /\
    isProcessing p2 = false.
Proof.
  intros Hmw Hready Hproc Hrend Hfalse Hqueue Hne Hobj.
  destruct (sortByPriority_nonempty queue Hne) as (nextTask & rest & Hsort).
  assert (Hin : In nextTask queue)
    by (apply sortByPriority_In; rewrite Hsort; left; reflexivity).
  assert (Hfields : exists fields, nextTask = JObj fields).
  { rewrite forallb_forall in Hobj. specialize (Hobj nextTask Hin).
    destruct nextTask; try discriminate Hobj. eauto. }
  destruct Hfields as [fields ->].
  destruct (dispatchIn_pagedjsChange clock
              [("isRendering", JBool true); ("error", JNull)]
              (set_isProcessing true p) Hmw eq_refl)
    as (p' & Ed & Hs & Hmw' & Hp' & Hc' & Hr' & _).
  destruct (dispatchIn_frame clock
              (pagedjsChange [("isRendering", JBool true); ("error", JNull)])
              (set_isProcessing true p)) as (_ & _ & _ & Fc & _).
  rewrite Ed in Fc. cbn [fst] in Fc.
  assert (Hq : (length queue =? 0)%nat = false)
    by (destruct queue; [congruence | reflexivity]).
  set (p1 := set_processorConsole (processorConsole p' ++ ["PagedJsManager not ready"]) p').
  exists (JObj fields), p1.
  split.
  { unfold processQueue. rewrite Hrend, Hqueue, Hproc, Hfalse, Hq. cbn [orb].
    unfold tryBeforeAwait. rewrite Ed, Hsort. cbn [getProp].
    unfold executeRenderTask. rewrite Hr'. cbn [managerReady set_isProcessing].
    rewrite Hready. reflexivity. }
  split; [exact Hc'|].
  split; [unfold p1; cbn; rewrite Fc; reflexivity|].
  split.
  { change (stateManager p1) with (stateManager p'). rewrite Hs.
    unfold pagedjsChanged. cbn [pagedjs]. rewrite getProp_spread.
    cbn [fold_left fst snd]. rewrite !getField_setField. reflexivity. }
  cbn zeta.
  assert (Hmw1 : pagedJsOnly (stateManager p1)) by exact Hmw'.
  destruct (dispatchIn_pagedjsChange clock'
              [("isRendering", JBool false); ("lastRenderTime", JDate (now clock'));
               ("renderQueue", JArr []); ("error", JNull)] p1 Hmw1 eq_refl)
    as (p3 & Ed3 & Hs3 & _ & _ & Hc3 & _).
  assert (E3 : fst (executorSettled clock' (Returned tt) p1) = set_isProcessing false p3).
  { unfold executorSettled, tryCatchFinally, Queue.finallyBlock. rewrite Ed3. reflexivity. }
  rewrite E3. cbn [stateManager set_isProcessing isProcessing executorCalls].
  split.
  { unfold queueOf, getState. rewrite Hs3.
    unfold pagedjsChanged, cloneState at 1. cbn [pagedjs].
    unfold spread. cbn [jsonClone getProp].
    rewrite (getField_clone "renderQueue" _ (JArr [])); [reflexivity | | discriminate].
    cbn [fold_left fst snd ownEntries]. rewrite !getField_setField. reflexivity. }
  split; [|reflexivity].
  rewrite Hc3. exact Hc'.
Qed.

(** On the page without a manager the queued style task is cleared, no
    executor having been called. *)
Lemma missing_manager_clears_the_queue_unrendered_witness :
  exists nextTask p1,
    processQueue afterDebounce exampleUnready = (p1, Awaiting nextTask) /\
    executorCalls p1 = [] /\
    queueOf (getState (stateManager
                         (fst (executorSettled afterDebounce (Returned tt) p1)))) =
      Some [].
Proof.
  destruct (missing_manager_clears_the_queue_unrendered afterDebounce afterDebounce
              exampleUnready (JBool false)
              (default [] (queueOf (getState (stateManager exampleUnready)))))
    as (nextTask & p1 & H1 & H2 & _ & _ & H5 & _).
  - unfold pagedJsOnly.
    assert (E : middleware (stateManager exampleUnready) = [pagedJsMiddleware])
      by by_computation.
    rewrite E. repeat constructor.
  - by_computation.
  - by_computation.
  - by_computation.
  - reflexivity.
  - by_computation.
  - intros E.
    assert (Hlen : length (default [] (queueOf (getState (stateManager exampleUnready)))) = 1)
      by by_computation.
    rewrite E in Hlen. discriminate Hlen.
  - by_computation.
  - exists nextTask, p1. split; [exact H1|]. split; [|exact H5].
    rewrite H2. by_computation.
Defined.

(* ===================================================================== *)
(** * Properties of the style controller *)
(* ===================================================================== *)

Import StyleCtl.

(** ** Operations queued until the store is there *)

Lemma request_unmanaged clocks c operation :
  isStateManaged c = false ->
  isStateManaged (request clocks c operation) = false /\
  pendingOperations (request clocks c operation) = pendingOperations c ++ [operation] /\
  reached (request clocks c operation) = reached c.
Proof.
  intros H. unfold request, runOperation, applyCSSVariable, applyMultipleStyles.
  destruct operation; rewrite H; cbn; repeat split; exact H.
Qed.

Lemma requests_unmanaged clocks operations : forall c,
  isStateManaged c = false ->
  isStateManaged (fold_left (request clocks) operations c) = false /\
  pendingOperations (fold_left (request clocks) operations c) =
    pendingOperations c ++ operations /\
  reached (fold_left (request clocks) operations c) = reached c.
Proof.
  induction operations as [|operation operations IH]; intros c H; cbn [fold_left].
  - rewrite app_nil_r. repeat split. exact H.
  - destruct (request_unmanaged clocks c operation H) as (H1 & H2 & H3).
    destruct (IH _ H1) as (I1 & I2 & I3).
    split; [exact I1|]. split.
    + rewrite I2, H2, <- app_assoc. reflexivity.
    + rewrite I3. exact H3.
Qed.

(** On a controller that is state managed, what an operation reaches
    depends on what was reached before only, and it queues nothing. *)
Lemma dispatchStyle_reached clocks variable x c1 c2 :
  reached c1 = reached c2 ->
  reached (fst (dispatchStyle clocks variable x c1)) =
    reached (fst (dispatchStyle clocks variable x c2)) /\
  snd (dispatchStyle clocks variable x c1) = snd (dispatchStyle clocks variable x c2) /\
  pendingOperations (fst (dispatchStyle clocks variable x c1)) = pendingOperations c1 /\
  isStateManaged (fst (dispatchStyle clocks variable x c1)) = isStateManaged c1 /\
  console (fst (dispatchStyle clocks variable x c1)) = console c1.
Proof.
  unfold reached. intros [= E1 E2 E3]. unfold dispatchStyle. rewrite E1, E3.
  destruct (resumeState c2) as [m|] eqn:Em.
  - destruct (dispatch (clocks (ticks c2)) (setStylesAction variable x) m) as [m' [s|e]];
      cbn; rewrite ?E2, ?E3; repeat split.
  - cbn. rewrite E1, E2, E3, Em. repeat split.
Qed.

Lemma applyEntries_reached clocks entries : forall results c1 c2,
  reached c1 = reached c2 ->
  reached (fst (applyEntries clocks entries results c1)) =
    reached (fst (applyEntries clocks entries results c2)) /\
  pendingOperations (fst (applyEntries clocks entries results c1)) = pendingOperations c1 /\
  isStateManaged (fst (applyEntries clocks entries results c1)) = isStateManaged c1 /\
  console (fst (applyEntries clocks entries results c1)) = console c1.
Proof.
  induction entries as [|[variable x] entries IH]; intros results c1 c2 H;
    cbn [applyEntries].
  - repeat split. exact H.
  - destruct (dispatchStyle_reached clocks variable x c1 c2 H) as (D1 & D2 & D3 & D4 & D5).
    destruct (dispatchStyle clocks variable x c1) as [c1' r1].
    destruct (dispatchStyle clocks variable x c2) as [c2' r2].
    cbn [fst snd] in *. subst r2.
    destruct r1 as [[]|e]; cbn [fst].
    + destruct (IH (results ++ [managedResult variable x]) c1' c2' D1)
        as (I1 & I2 & I3 & I4).
      split; [exact I1|]. split; [congruence|]. split; congruence.
    + repeat split; assumption.
Qed.

Lemma runOperation_reached clocks operation c1 c2 :
  isStateManaged c1 = true -> isStateManaged c2 = true ->
  reached c1 = reached c2 ->
  reached (fst (runOperation clocks operation c1)) =
    reached (fst (runOperation clocks operation c2)) /\
  pendingOperations (fst (runOperation clocks operation c1)) = pendingOperations c1 /\
  isStateManaged (fst (runOperation clocks operation c1)) = true.
Proof.
  intros M1 M2 H. destruct operation as [variable x|entries];
    unfold runOperation, applyCSSVariable, applyMultipleStyles; rewrite M1, M2; cbn [negb].
  - destruct (dispatchStyle_reached clocks variable x c1 c2 H) as (D1 & D2 & D3 & D4 & _).
    destruct (dispatchStyle clocks variable x c1) as [c1' r1].
    destruct (dispatchStyle clocks variable x c2) as [c2' r2].
    cbn [fst snd] in *. subst r2.
    destruct r1 as [[]|e]; cbn [fst]; (split; [exact D1|]); split; congruence.
  - destruct (applyEntries_reached clocks entries [] c1 c2 H) as (D1 & D3 & D4 & _).
    destruct (applyEntries clocks entries [] c1) as [c1' r1].
    destruct (applyEntries clocks entries [] c2) as [c2' r2].
    cbn [fst] in *.
    destruct r1 as [rs1|e1], r2 as [rs2|e2]; cbn [fst];
      (split; [exact D1|]); split; congruence.
Qed.

Lemma flushLoop_replays clocks operations : forall fuel c d,
  isStateManaged c = true -> isStateManaged d = true ->
  pendingOperations c = operations ->
  length operations <= fuel ->
  reached c = reached d ->
  isStateManaged (flushLoop clocks fuel c) = true /\
  pendingOperations (flushLoop clocks fuel c) = [] /\
  reached (flushLoop clocks fuel c) = reached (fold_left (request clocks) operations d).
Proof.
  induction operations as [|operation operations IH]; intros fuel c d Mc Md Hp Hf Hr.
  - destruct fuel; cbn [flushLoop fold_left]; [|rewrite Hp]; repeat split; assumption.
  - destruct fuel as [|fuel]; [cbn in Hf; lia|].
    cbn [flushLoop fold_left]. rewrite Hp.
    set (c0 := set_pendingOperations operations c).
    assert (M0 : isStateManaged c0 = true) by exact Mc.
    assert (R0 : reached c0 = reached d) by exact Hr.
    destruct (runOperation_reached clocks operation c0 d M0 Md R0) as (R1 & P1 & M1).
    destruct (runOperation_reached clocks operation d d Md Md eq_refl) as (_ & _ & Md1).
    unfold request at 2.
    destruct (runOperation clocks operation c0) as [c1 r1]. cbn [fst] in R1, P1, M1.
    apply IH.
    + destruct r1; exact M1.
    + exact Md1.
    + destruct r1; exact P1.
    + cbn in Hf. lia.
    + destruct r1; exact R1.
Qed.

(** X17. What is asked of the style controller before the store is there
    is neither lost nor done twice: each call queues its operation and
    touches neither the store nor the style cache; when
    [window.ResumeState] is found the queue is emptied, and the store, the
    cache and the number of dispatches end as if the same calls had been
    made, in the same order, on a controller that was state managed from the
    start. *)
Theorem queued_operations_are_replayed_in_order clocks c operations :
  isStateManaged c = false ->
  pendingOperations c = [] ->
  resumeState c <> None ->
  let queued := fold_left (request clocks) operations c in
  let found := stateManagerFound clocks queued in
  let direct := fold_left (request clocks) operations (set_isStateManaged true c) in
  pendingOperations queued = operations /\
  reached queued = reached c /\
  isStateManaged found = true /\
  pendingOperations found = [] /\
  reached found = reached direct.
Proof.
  intros M Hp Hs. cbn zeta.
  destruct (requests_unmanaged clocks operations c M) as (Q1 & Q2 & Q3).
  rewrite Hp in Q2. cbn [app] in Q2.
  split; [exact Q2|]. split; [exact Q3|].
  unfold stateManagerFound.
  assert (Hs' : resumeState (fold_left (request clocks) operations c) = resumeState c)
    by (unfold reached in Q3; congruence).
  rewrite Hs'. destruct (resumeState c) as [m|] eqn:Em; [|congruence].
  unfold flushPendingOperations. cbn [isStateManaged set_isStateManaged negb].
  apply (flushLoop_replays clocks operations); try reflexivity.
  - exact Q2.
  - cbn. rewrite Q2. lia.
  - exact Q3.
Qed.

(** Two operations asked of the example controller before the store is
    found: queued, then replayed. *)
Lemma queued_operations_are_replayed_in_order_witness :
  pendingOperations (fold_left (request (fun _ => noon)) exampleOperations
                       exampleStyleController) = exampleOperations /\
  reached (stateManagerFound (fun _ => noon)
             (fold_left (request (fun _ => noon)) exampleOperations
                exampleStyleController)) =
  reached (fold_left (request (fun _ => noon)) exampleOperations
             (set_isStateManaged true exampleStyleController)).
Proof.
  destruct (queued_operations_are_replayed_in_order (fun _ => noon)
              exampleStyleController exampleOperations)
    as (H1 & _ & _ & _ & H5).
  - reflexivity.
  - reflexivity.
  - discriminate.
  - split; [exact H1 | exact H5].
Defined.

(** ** A style applied through the store *)

Lemma dispatch_set_styles clock action fields m :
  Queue.pagedJsOnly m ->
  type action = "SET_STYLES" ->
  payload action = JObj fields ->
  let newState :=
    {| content := content (getState m);
       styles := spread (styles (getState m)) (restWithout "source" (JObj fields));
       pagedjs := pagedjs (getState m); ui := ui (getState m);
       files := files (getState m) |} in
  snd (dispatch clock action m) = Returned newState /\
  state (fst (dispatch clock action m)) = newState /\
  middleware (fst (dispatch clock action m)) = middleware m.
Proof.
  intros Hmw Ht Hp. cbn zeta.
  destruct (dispatch_reduced clock action m Hmw) as (processed & Ht' & Hp' & Hd).
  assert (Hred : reducer clock (getState m) processed =
                 Returned {| content := content (getState m);
                             styles := spread (styles (getState m))
                                         (restWithout "source" (JObj fields));
                             pagedjs := pagedjs (getState m); ui := ui (getState m);
                             files := files (getState m) |}).
  { unfold reducer. rewrite Ht', Ht, Hp', Hp. cbn [String.eqb Ascii.eqb Bool.eqb].
    unfold getState. rewrite cloneState_idempotent. reflexivity. }
  destruct (Hd _ Hred) as (D1 & D2 & _).
  split; [exact D1|]. split; [exact D2 | apply dispatch_middleware].
Qed.

(** X18. On a controller that is state managed, over a store that runs the
    Paged.js middleware or none, [applyCSSVariable(variable, value)] with a
    variable other than ["source"] returns its success record after one
    dispatch: the styles of the store and the cache of the controller then
    hold the value under the variable, the [source] tag of the action is
    not stored, and nothing is queued. *)
Theorem managed_apply_reaches_store_and_cache clocks variable x c m :
  isStateManaged c = true ->
  resumeState c = Some m ->
  Queue.pagedJsOnly m ->
  variable <> "source" ->
  let c' := fst (applyCSSVariable clocks variable x c) in
  snd (applyCSSVariable clocks variable x c) = Returned (managedResult variable x) /\
  resumeState c' =
    Some (fst (dispatch (clocks (ticks c)) (setStylesAction variable x) m)) /\
  (exists m', resumeState c' = Some m' /\
     entry variable (styles (state m')) = x /\
     entry "source" (styles (state m')) = entry "source" (styles (getState m)) /\
     Queue.pagedJsOnly m') /\
  getField variable (currentStyles c') = x /\
  (forall k, k <> variable ->
     getField k (currentStyles c') = getField k (currentStyles c)) /\
  pendingOperations c' = pendingOperations c /\
  ticks c' = S (ticks c).
Proof.
  intros M Hs Hmw Hv. cbn zeta.
  assert (Hfields : setField "source" (JStr "styleController") [(variable, x)] =
                    [(variable, x); ("source", JStr "styleController")]).
  { cbn [setField]. destruct (String.eqb_spec "source" variable); [congruence|reflexivity]. }
  destruct (dispatch_set_styles (clocks (ticks c)) (setStylesAction variable x)
              [(variable, x); ("source", JStr "styleController")] m Hmw eq_refl)
    as (D1 & D2 & D3).
  { unfold setStylesAction. cbn [payload]. rewrite Hfields. reflexivity. }
  unfold applyCSSVariable, dispatchStyle. rewrite M, Hs. cbn [negb].
  destruct (dispatch (clocks (ticks c)) (setStylesAction variable x) m) as [m' [s|e]];
    cbn [fst snd] in *; [|discriminate D1].
  split; [reflexivity|]. split; [reflexivity|].
  split.
  { exists m'. split; [reflexivity|]. rewrite D2. cbn [styles].
    unfold restWithout. cbn [ownEntries].
    rewrite !entry_spread, !lastEntry_filtered.
    destruct (String.eqb_spec variable "source"); [congruence|].
    split.
    - unfold lastEntry. cbn [fold_left fst snd]. rewrite String.eqb_refl.
      destruct (String.eqb_spec variable "source"); [congruence | reflexivity].
    - split; [reflexivity|]. unfold Queue.pagedJsOnly. rewrite D3. exact Hmw. }
  split; [cbn; rewrite getField_setField, String.eqb_refl; reflexivity|].
  split; [|split; reflexivity].
  intros k Hk. cbn. rewrite getField_setField.
  destruct (String.eqb_spec k variable); [congruence | reflexivity].
Qed.

(** The example controller, state managed, sets the font size. *)
Lemma managed_apply_reaches_store_and_cache_witness :
  getField "--body-font-size"
    (currentStyles
       (fst (applyCSSVariable (fun _ => noon) "--body-font-size" (JStr "12pt")
               (set_isStateManaged true exampleStyleController)))) = JStr "12pt".
Proof.
  destruct (managed_apply_reaches_store_and_cache (fun _ => noon) "--body-font-size"
              (JStr "12pt") (set_isStateManaged true exampleStyleController)
              newStateManager)
    as (_ & _ & _ & H & _).
  - reflexivity.
  - reflexivity.
  - constructor.
  - discriminate.
  - exact H.
Defined.

(** ** Defaults saved and read back *)

Lemma setAllDefaults_frame cfgs : forall c,
  let c' := fold_left
              (fun c cfg => match elements c !! id cfg with
                            | Some element => set (storage cfg) (value element) c
                            | None => c
                            end) cfgs c in
  elements c' = elements c /\ sliderConfig c' = sliderConfig c /\
  defaultStyles c' = defaultStyles c /\ currentStyles c' = currentStyles c /\
  isStateManaged c' = isStateManaged c /\ pendingOperations c' = pendingOperations c /\
  resumeState c' = resumeState c /\ console c' = console c /\ ticks c' = ticks c /\
  (forall key, ~ In key (map storage cfgs) -> localStorage c' !! key = localStorage c !! key).
Proof.
  cbn zeta. induction cfgs as [|cfg cfgs IH]; intros c; cbn [fold_left map].
  - repeat split.
  - destruct (elements c !! id cfg) as [element|] eqn:E.
    + destruct (IH (set (storage cfg) (value element) c))
        as (I1 & I2 & I3 & I4 & I5 & I6 & I7 & I8 & I9 & I10).
      repeat split; try assumption.
      intros key Hk. rewrite I10 by (intros Hin; apply Hk; right; exact Hin).
      cbn. apply lookup_insert_ne. intros E'. apply Hk. left. exact E'.
    + destruct (IH c) as (I1 & I2 & I3 & I4 & I5 & I6 & I7 & I8 & I9 & I10).
      repeat split; try assumption.
      intros key Hk. apply I10. intros Hin. apply Hk. right. exact Hin.
Qed.

Lemma setAllDefaults_saved cfgs : forall c cfg element,
  List.NoDup (map storage cfgs) ->
  In cfg cfgs ->
  elements c !! id cfg = Some element ->
  localStorage
    (fold_left
       (fun c cfg => match elements c !! id cfg with
                     | Some element => set (storage cfg) (value element) c
                     | None => c
                     end) cfgs c) !! storage cfg = Some (value element).
Proof.
  induction cfgs as [|cfg0 cfgs IH]; intros c cfg element Hnd Hin He; [destruct Hin|].
  cbn [fold_left]. cbn [map] in Hnd. inversion Hnd as [|? ? Hnotin Hnd']; subst.
  destruct Hin as [->|Hin].
  - rewrite He.
    destruct (setAllDefaults_frame cfgs (set (storage cfg) (value element) c))
      as (_ & _ & _ & _ & _ & _ & _ & _ & _ & F).
    rewrite F by exact Hnotin. cbn. apply lookup_insert_eq.
  - destruct (elements c !! id cfg0) as [element0|] eqn:E0.
    + apply IH; [exact Hnd' | exact Hin | exact He].
    + apply IH; [exact Hnd' | exact Hin | exact He].
Qed.

Lemma lastEntry_skipped (k : string) (fields : list (string * JsVal)) : forall found,
  ~ In k (map fst fields) ->
  fold_left (fun found kx => if String.eqb k (fst kx) then Some (snd kx) else found)
    fields found = found.
Proof.
  induction fields as [|[k' x] fields IH]; intros found Hn; cbn [fold_left fst snd];
    [reflexivity|].
  cbn [map fst] in Hn.
  destruct (String.eqb_spec k k') as [->|Hne]; [exfalso; apply Hn; left; reflexivity|].
  apply IH. intros Hin. apply Hn. right. exact Hin.
Qed.

Lemma lastEntry_unique k x (fields : list (string * JsVal)) :
  List.NoDup (map fst fields) -> In (k, x) fields -> lastEntry k fields = Some x.
Proof.
  unfold lastEntry. generalize (@None JsVal).
  induction fields as [|[k' x'] fields IH]; intros found Hnd Hin; [destruct Hin|].
  cbn [fold_left fst snd]. cbn [map fst] in Hnd.
  inversion Hnd as [|? ? Hnotin Hnd']; subst.
  destruct Hin as [[= -> ->]|Hin].
  - rewrite String.eqb_refl. apply lastEntry_skipped. exact Hnotin.
  - apply IH; assumption.
Qed.

(** X19. Defaults that are saved are read back: after [setAllDefaults()],
    for a slider whose element is in the page with a value that is not
    empty, [get] gives that value under the storage key of the slider,
    whatever the fallback, and so does [getAllDefaults()] under its id, when
    no two sliders share a storage key or an id; and saving touches nothing
    but the local storage. *)
Theorem saved_defaults_are_read_back c cfg element fallback :
  List.NoDup (map storage (sliderConfig c)) ->
  List.NoDup (map id (sliderConfig c)) ->
  In cfg (sliderConfig c) ->
  elements c !! id cfg = Some element ->
  value element <> "" ->
  let c' := setAllDefaults c in
  get (storage cfg) fallback c' = JStr (value element) /\
  getField (id cfg) (getAllDefaults c') = JStr (value element) /\
  reached c' = reached c /\
  pendingOperations c' = pendingOperations c /\
  elements c' = elements c.
Proof.
  intros Hns Hni Hin He Hv. cbn zeta. unfold setAllDefaults.
  destruct (setAllDefaults_frame (sliderConfig c) c)
    as (F1 & F2 & F3 & F4 & F5 & F6 & F7 & F8 & F9 & _).
  pose proof (setAllDefaults_saved (sliderConfig c) c cfg element Hns Hin He) as Hsaved.
  cbn zeta in *.
  set (c' := fold_left
               (fun c cfg => match elements c !! id cfg with
                             | Some element => set (storage cfg) (value element) c
                             | None => c
                             end) (sliderConfig c) c) in *.
  assert (Hget : forall fb, get (storage cfg) fb c' = JStr (value element)).
  { intros fb. unfold get. rewrite Hsaved.
    destruct (value element) as [|a t] eqn:Ev; [congruence | reflexivity]. }
  split; [apply Hget|]. split.
  - unfold getAllDefaults. rewrite F2.
    set (f := fun cfg0 =>
                get (storage cfg0)
                  match elements c' !! id cfg0 with
                  | Some element0 =>
                      JStr (if String.eqb (defaultValue element0) "" then value element0
                            else defaultValue element0)
                  | None => getField (id cfg0) (defaultStyles c')
                  end c').
    assert (E : forall cfgs acc,
              fold_left (fun defaults cfg0 => setField (id cfg0) (f cfg0) defaults) cfgs acc =
              fold_left (fun acc kx => setField (fst kx) (snd kx) acc)
                (map (fun cfg0 => (id cfg0, f cfg0)) cfgs) acc).
    { induction cfgs as [|cfg0 cfgs IH]; intros acc; cbn [fold_left map fst snd];
        [reflexivity | apply IH]. }
    change (getField (id cfg)
              (fold_left (fun defaults cfg0 => setField (id cfg0) (f cfg0) defaults)
                 (sliderConfig c) []) = JStr (value element)).
    rewrite E, getField_assigned.
    rewrite (lastEntry_unique (id cfg) (f cfg)).
    + unfold f. apply Hget.
    + rewrite map_map. cbn [fst]. exact Hni.
    + apply in_map_iff. exists cfg. split; [reflexivity | exact Hin].
  - unfold reached. rewrite F4, F7, F9. repeat split; assumption.
Qed.

(** The font slider of the example, at 12, is saved and read back. *)
Lemma saved_defaults_are_read_back_witness :
  get "defaultFontSize" (JStr "9") (setAllDefaults exampleStyleController) = JStr "12" /\
  getField "fontSlider" (getAllDefaults (setAllDefaults exampleStyleController)) =
    JStr "12".
Proof.
  destruct (saved_defaults_are_read_back exampleStyleController
              {| id := "fontSlider"; storage := "defaultFontSize" |}
              {| defaultValue := "9"; value := "12" |} (JStr "9"))
    as (H1 & H2 & _).
  - repeat constructor; cbn; intuition discriminate.
  - repeat constructor; cbn; intuition discriminate.
  - left. reflexivity.
  - by_computation.
  - discriminate.
  - split; [exact H1 | exact H2].
Defined.

(* ===================================================================== *)
(** * Properties of the boot of the shared store *)
(* ===================================================================== *)

Import Boot.

Lemma bootResumeState_step scripts options page :
  inBrowser scripts = true ->
  let page' := fst (bootResumeState scripts options page) in
  let info := snd (bootResumeState scripts options page) in
  let asked := attachMiddleware options && middlewareLoaded scripts in
  let before := match windowResumeState page with
                | Some m => m
                | None => newStateManager
                end in
  created info = match windowResumeState page with Some _ => false | None => true end /\
  bootState info = windowResumeState page' /\
  middlewareAttached page' = middlewareAttached page || asked /\
  windowResumeState page' =
    Some (if asked && negb (middlewareAttached page)
          then use Queue.pagedJsMiddleware before else before).
Proof.
  intros Hb. cbn zeta. unfold bootResumeState. rewrite Hb. cbn [negb].
  destruct (windowResumeState page) as [m|];
    destruct (attachMiddleware options), (middlewareLoaded scripts),
             (middlewareAttached page);
    cbn [negb andb orb];
    destruct (initializeDomUpdater options);
    try destruct (initDOMUpdater scripts) as [[[]|e]|];
    destruct (domUpdaterInitialized page); cbn; repeat split.
Qed.

(** X20. However often [bootResumeState] is called in a browser, and with
    whatever options, the page has one store: the first call creates it,
    with the state of the constructor, no subscriber and no history, and the
    calls after it create none and return the store of the page with its
    state; and the Paged.js middleware is attached to that store at most
    once, by the first call that asks for it, if the middleware is loaded. *)
Theorem boot_creates_one_store_and_attaches_once scripts calls :
  inBrowser scripts = true ->
  calls <> [] ->
  let page := bootAll scripts calls freshPage in
  exists m,
    windowResumeState page = Some m /\
    state m = state newStateManager /\
    listeners m = [] /\ history m = [] /\
    middleware m =
      (if existsb attachMiddleware calls && middlewareLoaded scripts
       then [Queue.pagedJsMiddleware] else []) /\
    middlewareAttached page =
      existsb attachMiddleware calls && middlewareLoaded scripts /\
    forall options,
      exists m',
        bootState (snd (bootResumeState scripts options page)) = Some m' /\
        windowResumeState (fst (bootResumeState scripts options page)) = Some m' /\
        created (snd (bootResumeState scripts options page)) = false /\
        state m' = state m /\
        length (middleware m') <= 1.
Proof.
  intros Hb Hne. cbn zeta.
  assert (Inv : forall calls page m,
            windowResumeState page = Some m ->
            (middlewareAttached page = true -> middleware m = [Queue.pagedJsMiddleware]) ->
            (middlewareAttached page = false -> middleware m = []) ->
            exists m',
              windowResumeState (bootAll scripts calls page) = Some m' /\
              state m' = state m /\ listeners m' = listeners m /\ history m' = history m /\
              middlewareAttached (bootAll scripts calls page) =
                middlewareAttached page ||
                (existsb attachMiddleware calls && middlewareLoaded scripts) /\
              (middlewareAttached (bootAll scripts calls page) = true ->
               middleware m' = [Queue.pagedJsMiddleware]) /\
              (middlewareAttached (bootAll scripts calls page) = false ->
               middleware m' = [])).
  { clear calls Hne. unfold bootAll.
    induction calls as [|options calls IH]; intros page m Hm Ht Hf; cbn [fold_left existsb].
    - exists m. rewrite orb_false_r. repeat split; assumption.
    - destruct (bootResumeState_step scripts options page Hb) as (_ & _ & S3 & S4).
      cbn zeta in S3, S4. rewrite Hm in S4.
      set (page' := fst (bootResumeState scripts options page)) in *.
      set (asked := attachMiddleware options && middlewareLoaded scripts) in *.
      destruct (IH page' _ S4) as (m' & I1 & I2 & I3 & I4 & I5 & I6 & I7).
      + intros Hatt. rewrite S3 in Hatt.
        destruct (middlewareAttached page) eqn:Ea.
        * rewrite andb_false_r. apply Ht. reflexivity.
        * cbn in Hatt. rewrite Hatt. cbn. rewrite (Hf eq_refl). reflexivity.
      + intros Hatt. rewrite S3 in Hatt. apply orb_false_iff in Hatt.
        destruct Hatt as [Ea Eq]. rewrite Eq. cbn. apply Hf. exact Ea.
      + exists m'. split; [exact I1|].
        assert (Hkeep : forall b : bool,
                  state (if b then use Queue.pagedJsMiddleware m else m) = state m /\
                  listeners (if b then use Queue.pagedJsMiddleware m else m) = listeners m /\
                  history (if b then use Queue.pagedJsMiddleware m else m) = history m)
          by (intros []; repeat split).
        destruct (Hkeep (asked && negb (middlewareAttached page))) as (K1 & K2 & K3).
        split; [congruence|]. split; [congruence|]. split; [congruence|].
        split; [|split; assumption].
        rewrite I5, S3. unfold asked.
        destruct (middlewareAttached page), (attachMiddleware options),
                 (middlewareLoaded scripts), (existsb attachMiddleware calls);
          reflexivity. }
  destruct calls as [|options calls]; [congruence|].
  unfold bootAll. cbn [fold_left]. fold (bootAll scripts calls
                                           (fst (bootResumeState scripts options freshPage))).
  destruct (bootResumeState_step scripts options freshPage Hb) as (_ & _ & S3 & S4).
  cbn zeta in S3, S4. cbn [windowResumeState middlewareAttached freshPage negb orb] in S3, S4.
  rewrite andb_true_r in S4.
  set (page1 := fst (bootResumeState scripts options freshPage)) in *.
  set (asked := attachMiddleware options && middlewareLoaded scripts) in *.
  destruct (Inv calls page1 _ S4) as (m' & I1 & I2 & I3 & I4 & I5 & I6 & I7).
  { intros Hatt. rewrite S3 in Hatt. rewrite Hatt. reflexivity. }
  { intros Hatt. rewrite S3 in Hatt. rewrite Hatt. reflexivity. }
  assert (Hkeep : forall b : bool,
            state (if b then use Queue.pagedJsMiddleware newStateManager
                   else newStateManager) = state newStateManager /\
            listeners (if b then use Queue.pagedJsMiddleware newStateManager
                       else newStateManager) = [] /\
            history (if b then use Queue.pagedJsMiddleware newStateManager
                     else newStateManager) = [])
    by (intros []; repeat split).
  destruct (Hkeep asked) as (K1 & K2 & K3).
  assert (Hatt : middlewareAttached (bootAll scripts calls page1) =
                 existsb attachMiddleware (options :: calls) && middlewareLoaded scripts).
  { rewrite I5, S3. unfold asked. cbn [existsb].
    destruct (attachMiddleware options), (middlewareLoaded scripts),
             (existsb attachMiddleware calls); reflexivity. }
  exists m'. split; [exact I1|].
  split; [congruence|]. split; [congruence|]. split; [congruence|].
  split.
  { rewrite <- Hatt.
    destruct (middlewareAttached (bootAll scripts calls page1)) eqn:E;
      [apply I6 | apply I7]; reflexivity. }
  split; [exact Hatt|].
  intros options'.
  destruct (bootResumeState_step scripts options' (bootAll scripts calls page1) Hb)
    as (T1 & T2 & T3 & T4).
  cbn zeta in T1, T2, T3, T4. rewrite I1 in T1, T4.
  eexists. split; [rewrite T2; exact T4|]. split; [exact T4|]. split; [exact T1|].
  split.
  { match goal with |- context [if ?b then _ else _] => destruct b end; reflexivity. }
  destruct (middlewareAttached (bootAll scripts calls page1)) eqn:E.
  - cbn [negb]. rewrite andb_false_r. rewrite (I6 eq_refl). cbn. lia.
  - cbn [negb]. rewrite andb_true_r.
    destruct (attachMiddleware options' && middlewareLoaded scripts);
      [change (middleware (use Queue.pagedJsMiddleware m'))
         with (middleware m' ++ [Queue.pagedJsMiddleware])|];
      rewrite (I7 eq_refl); cbn; lia.
Qed.

(** The two calls of the example leave one store with one middleware. *)
Lemma boot_creates_one_store_and_attaches_once_witness :
  exists m,
    windowResumeState (bootAll exampleScripts exampleCalls freshPage) = Some m /\
    middleware m = [Queue.pagedJsMiddleware].
Proof.
  destruct (boot_creates_one_store_and_attaches_once exampleScripts exampleCalls)
    as (m & H1 & _ & _ & _ & H5 & _).
  - reflexivity.
  - discriminate.
  - exists m. split; [exact H1 | exact H5].
Defined.

Lemma bootResumeState_domUpdater scripts options page :
  inBrowser scripts = true ->
  let page' := fst (bootResumeState scripts options page) in
  (domUpdaterInitialized page', domUpdaterCalls page') =
    if initializeDomUpdater options && negb (domUpdaterInitialized page) then
      match initDOMUpdater scripts with
      | Some (Returned _) => (true, S (domUpdaterCalls page))
      | Some (Thrown _) => (false, S (domUpdaterCalls page))
      | None => (false, domUpdaterCalls page)
      end
    else (domUpdaterInitialized page, domUpdaterCalls page).
Proof.
  intros Hb. cbn zeta. unfold bootResumeState. rewrite Hb. cbn [negb].
  destruct (windowResumeState page) as [m|];
    destruct (attachMiddleware options), (middlewareLoaded scripts),
             (middlewareAttached page);
    cbn [negb andb orb];
    destruct (initializeDomUpdater options);
    try destruct (initDOMUpdater scripts) as [[[]|e]|];
    destruct (domUpdaterInitialized page); reflexivity.
Qed.

(** X21. Over any sequence of [bootResumeState] calls in a browser,
    [initDOMUpdater] is called once, by the first call that asks for it, when
    it returns; when it throws, the error is caught, the updater stays
    uninitialised and every call that asks calls it again. *)
Theorem dom_updater_is_initialised_once scripts calls completion :
  inBrowser scripts = true ->
  initDOMUpdater scripts = Some completion ->
  let page := bootAll scripts calls freshPage in
  match completion with
  | Returned _ =>
      domUpdaterInitialized page = existsb initializeDomUpdater calls /\
      domUpdaterCalls page = (if existsb initializeDomUpdater calls then 1 else 0)
  | Thrown _ =>
      domUpdaterInitialized page = false /\
      domUpdaterCalls page = length (List.filter initializeDomUpdater calls)
  end.
Proof.
  intros Hb Hinit. cbn zeta.
  assert (Inv : forall calls page,
            let page' := bootAll scripts calls page in
            match completion with
            | Returned _ =>
                domUpdaterInitialized page' =
                  domUpdaterInitialized page || existsb initializeDomUpdater calls /\
                domUpdaterCalls page' =
                  domUpdaterCalls page +
                  (if negb (domUpdaterInitialized page) &&
                      existsb initializeDomUpdater calls then 1 else 0)
            | Thrown _ =>
                domUpdaterInitialized page = false ->
                domUpdaterInitialized page' = false /\
                domUpdaterCalls page' =
                  domUpdaterCalls page + length (List.filter initializeDomUpdater calls)
            end).
  { clear calls. unfold bootAll.
    induction calls as [|options calls IH]; intros page; cbn zeta.
    - cbn [fold_left existsb List.filter length]. rewrite orb_false_r, andb_false_r.
      destruct completion; [split; [reflexivity | lia] | intros; split; [assumption | lia]].
    - cbn [fold_left existsb]. specialize (IH (fst (bootResumeState scripts options page))).
      cbn zeta in IH.
      pose proof (bootResumeState_domUpdater scripts options page Hb) as Hs.
      cbn zeta in Hs. rewrite Hinit in Hs.
      set (page1 := fst (bootResumeState scripts options page)) in *.
      destruct completion as [[]|e].
      + destruct IH as [I1 I2]. rewrite I1, I2.
        destruct (initializeDomUpdater options), (domUpdaterInitialized page);
          cbn [andb negb orb] in Hs |- *; injection Hs as -> ->;
          cbn [andb negb orb]; split; try reflexivity;
          destruct (existsb initializeDomUpdater calls); cbn; lia.
      + intros Hfalse. rewrite Hfalse in Hs. rewrite andb_true_r in Hs.
        cbn [List.filter].
        destruct (initializeDomUpdater options); injection Hs as Hs1 Hs2;
          destruct (IH Hs1) as [I1 I2]; rewrite I1, I2, Hs2;
          split; try reflexivity; cbn [length]; lia. }
  specialize (Inv calls freshPage). cbn zeta in Inv.
  cbn [domUpdaterInitialized domUpdaterCalls freshPage negb orb andb] in Inv.
  destruct completion as [[]|e].
  - destruct Inv as [I1 I2]. split; [exact I1|]. rewrite I2. reflexivity.
  - destruct (Inv eq_refl) as [I1 I2]. split; [exact I1|]. rewrite I2. reflexivity.
Qed.

(** In the example the DOM updater is initialised by the first call. *)
Lemma dom_updater_is_initialised_once_witness :
  domUpdaterInitialized (bootAll exampleScripts exampleCalls freshPage) = true /\
  domUpdaterCalls (bootAll exampleScripts exampleCalls freshPage) = 1.
Proof.
  apply (dom_updater_is_initialised_once exampleScripts exampleCalls (Returned tt));
    reflexivity.
Defined.
